(** * The Realtek MST I2C-to-SPI bridge of flashrom ([realtek_mst_i2c_spi.c])

    A shallow embedding of the command-emulation engine: register access
    over I2C, the command-done poller, the protection controller, the page
    window, the SPI opcode emulator and the paged bulk read and write.

    The driver talks to hardware through [i2c_write] and [i2c_read]; the
    device behind them is an arbitrary state machine here, and every call
    the driver makes to its two lowest functions ([..._write_data],
    [..._read_data]) is recorded in a log, so that statements about
    register traffic are statements about that log. *)

From Stdlib Require Import ZArith List Bool Lia.
From Stdlib Require String.
Import String.StringSyntax.
Import ListNotations.
Local Open Scope Z_scope.
Delimit Scope string_scope with string.

(** ** Machine integers *)

Definition uint8_t (x : Z) : Z := x mod 2 ^ 8.
Definition uint16_t (x : Z) : Z := x mod 2 ^ 16.
Definition unsigned (x : Z) : Z := x mod 2 ^ 32.

(** ** Constants of the file *)

Definition MCU_I2C_SLAVE_ADDR : Z := 0x94.
Definition REGISTER_ADDRESS : Z := Z.shiftr 0x94 1.
Definition PAGE_SIZE : Z := 256.
Definition MAX_SPI_WAIT_RETRIES : Z := 1000.

Definition MCU_MODE : Z := 0x6F.
Definition ENTER_ISP_MODE : Z := 0x80.
Definition START_WRITE_XFER : Z := 0xA0.
Definition WRITE_XFER_STATUS_MASK : Z := 0x20.

Definition MCU_DATA_PORT : Z := 0x70.

Definition MAP_PAGE_BYTE2 : Z := 0x64.
Definition MAP_PAGE_BYTE1 : Z := 0x65.
Definition MAP_PAGE_BYTE0 : Z := 0x66.

Definition OPCODE_READ : Z := 3.
Definition OPCODE_WRITE : Z := 2.

(** Modelled from the spec: the [min] macro of the host headers, which are
    not part of the sources; the chunk length is "at most one page", the
    smaller of what is left and [PAGE_SIZE]. *)
Definition min (a b : Z) : Z := if a <? b then a else b.

(** ** Constants of [spi.h]

    The status [SPI_GENERIC_ERROR] and the JEDEC opcodes are declared in a
    header that is not part of the sources: they are parameters. *)

Class spi_h : Type := {
  SPI_GENERIC_ERROR : Z;
  JEDEC_WREN : Z;
  JEDEC_WRSR : Z;
  JEDEC_CE_C7 : Z;
  JEDEC_CE_60 : Z;
  JEDEC_BE_52 : Z;
  JEDEC_BE_D8 : Z;
  JEDEC_BE_D7 : Z;
  JEDEC_SE : Z
}.

(** What the C compiler and the callers rely on: the error status is a
    negative [int] that differs from the poller's timeout status, and the
    labels of the [switch] in [send_command] are pairwise distinct. *)
Class spi_h_ok (H : spi_h) : Prop := {
  generic_error_negative : SPI_GENERIC_ERROR < 0;
  generic_error_not_timeout : SPI_GENERIC_ERROR <> - MAX_SPI_WAIT_RETRIES;
  case_labels_distinct :
    NoDup [JEDEC_WREN; JEDEC_WRSR; JEDEC_CE_C7; JEDEC_CE_60;
           JEDEC_BE_52; JEDEC_BE_D8; JEDEC_BE_D7; JEDEC_SE]
}.

(** ** The flash context *)

Record realtek_mst_i2c_spi_data : Type := { fd : Z }.

(** [flash->mst], of which the driver only looks at [spi.data]. *)
Record registered_master : Type := {
  spi_data : option realtek_mst_i2c_spi_data
}.

Record flashctx : Type := { mst : option registered_master }.

(** ** The bus and its log *)

(** One call of [realtek_mst_i2c_spi_write_data] or
    [realtek_mst_i2c_spi_read_data]: the I2C address, the bytes sent (or the
    length asked for and the bytes stored in the buffer), and the status the
    call returned. *)
Inductive event : Type :=
| Write (addr : Z) (data : list Z) (status : Z)
| Read (addr : Z) (len : Z) (data : list Z) (status : Z).

Record world (D : Type) : Type := mkWorld { dev : D; log : list event }.
Arguments mkWorld {D} _ _.
Arguments dev {D} _.
Arguments log {D} _.

(** A computation of the driver: it threads the world and may run out of
    the fuel given to a loop ([None]). *)
Definition M (D A : Type) : Type := world D -> option (A * world D).

Definition Return {D A} (a : A) : M D A := fun w => Some (a, w).

Definition bind {D A B} (m : M D A) (k : A -> M D B) : M D B :=
  fun w => match m w with
           | Some (a, w') => k a w'
           | None => None
           end.

Notation "x <- m ;; k" := (bind m (fun x => k))
  (at level 61, m at next level, right associativity).
Notation "' p <- m ;; k" := (bind m (fun x => let p := x in k))
  (at level 61, p pattern, m at next level, right associativity).

(** The collaborators of the driver: the I2C helper ([i2c_helper.h]) and the
    generic SPI routines of the host, none of which is part of the sources.
    [i2c_buffer_t_fill] only looks at the buffer pointer and the length; the
    driver never passes a null buffer, so the length is its argument.
    [i2c_write] and [i2c_read] return the number of bytes transferred (or a
    negative error), [i2c_read] also the bytes it stored. *)
Class host (D : Type) : Type := {
  i2c_buffer_t_fill : Z -> Z;
  i2c_write : Z -> Z -> list Z -> D -> Z * D;
  i2c_read : Z -> Z -> Z -> D -> Z * list Z * D;
  default_spi_read :
    option flashctx -> list Z -> Z -> Z -> M D (Z * list Z);
  default_spi_write_256 :
    option flashctx -> list Z -> Z -> Z -> M D Z
}.

(** [store buf off data]: [buf] after [data] was written at offset [off]. *)
Definition store (buf : list Z) (off : nat) (data : list Z) : list Z :=
  firstn off buf ++ data ++ skipn (off + length data) buf.

(** The [len] bytes of [buf] from offset [off] on. *)
Definition bytes_at (buf : list Z) (off len : Z) : list Z :=
  firstn (Z.to_nat len) (skipn (Z.to_nat off) buf).

Section Driver.

Context {H : spi_h} {D : Type} {T : host D}.

Definition emit (e : event) (d : D) (w : world D) : world D :=
  {| dev := d; log := log w ++ [e] |}.

(** [ret |= m] *)
Definition or_into (ret : Z) (m : M D Z) : M D Z :=
  r <- m ;; Return (Z.lor ret r).

(** [for (i = from; i < from + n; ++i) s = body i s] *)
Fixpoint for_upto {S : Type} (n : nat) (i : Z) (body : Z -> S -> M D S)
    (s : S) : M D S :=
  match n with
  | O => Return s
  | S n' => s' <- body i s ;; for_upto n' (i + 1) body s'
  end.

Definition realtek_mst_i2c_spi_write_data (fd addr : Z) (buf : list Z)
    (len : Z) : M D Z :=
  fun w =>
    let len := uint16_t len in
    let data := firstn (Z.to_nat len) buf in
    if negb (i2c_buffer_t_fill len =? 0) then
      Some (SPI_GENERIC_ERROR,
            emit (Write addr data SPI_GENERIC_ERROR) (dev w) w)
    else
      let '(n, d) := i2c_write fd addr data (dev w) in
      let status := if n =? len then 0 else SPI_GENERIC_ERROR in
      Some (status, emit (Write addr data status) d w).

(** Returns the status and the bytes the transfer stored in the buffer. *)
Definition realtek_mst_i2c_spi_read_data (fd addr : Z) (len : Z)
    : M D (Z * list Z) :=
  fun w =>
    let len := uint16_t len in
    if negb (i2c_buffer_t_fill len =? 0) then
      Some ((SPI_GENERIC_ERROR, []),
            emit (Read addr len [] SPI_GENERIC_ERROR) (dev w) w)
    else
      let '(n, data, d) := i2c_read fd addr len (dev w) in
      let data := firstn (Z.to_nat len) data in
      let status := if n =? len then 0 else SPI_GENERIC_ERROR in
      Some ((status, data), emit (Read addr len data status) d w).

Definition get_fd_from_context (flash : option flashctx) : Z :=
  match flash with
  | Some {| mst := Some {| spi_data := Some data |} |} => fd data
  | _ => SPI_GENERIC_ERROR
  end.

Definition realtek_mst_i2c_spi_write_register (fd reg value : Z) : M D Z :=
  let command := [uint8_t reg; uint8_t value] in
  realtek_mst_i2c_spi_write_data fd REGISTER_ADDRESS command 2.

(** [value] is what the caller's byte held before; the result carries what
    it holds afterwards. *)
Definition realtek_mst_i2c_spi_read_register (fd reg value : Z)
    : M D (Z * Z) :=
  let command := [uint8_t reg] in
  ret <- realtek_mst_i2c_spi_write_data fd REGISTER_ADDRESS command 1 ;;
  '(r, data) <- realtek_mst_i2c_spi_read_data fd REGISTER_ADDRESS 1 ;;
  let ret := Z.lor ret r in
  let value := match data with b :: _ => uint8_t b | [] => value end in
  Return (if ret =? 0 then 0 else SPI_GENERIC_ERROR, value).

(** The [do ... while] of the poller; [tried], [ret] and [val] are the
    locals of the function. *)
Fixpoint wait_command_done_loop (fuel : nat) (fd offset mask target
    multiplier tried ret val : Z) : M D (Z * Z * Z) :=
  match fuel with
  | O => fun _ => None
  | S fuel' =>
      '(r, val) <- realtek_mst_i2c_spi_read_register fd offset val ;;
      let ret := Z.lor ret r in
      if (ret =? 0) && negb (Z.land val mask =? target) then
        let tried := tried + 1 in
        if tried <? MAX_SPI_WAIT_RETRIES * multiplier then
          wait_command_done_loop fuel' fd offset mask target multiplier
            tried ret val
        else Return (tried, ret, val)
      else Return (tried, ret, val)
  end.

(** [val] is not initialised in the source; it is read before being stored
    to only when the first transfer stores nothing, and then [ret] is not 0
    and both branches of the last line return [SPI_GENERIC_ERROR]. *)
Definition realtek_mst_i2c_spi_wait_command_done (fd offset mask target
    multiplier : Z) : M D Z :=
  let val := 0 in
  let tried := 0 in
  let ret := 0 in
  '(tried, ret, val) <-
    wait_command_done_loop
      (Z.to_nat (Z.max 1 (MAX_SPI_WAIT_RETRIES * multiplier)))
      fd offset mask target multiplier tried ret val ;;
  if tried =? MAX_SPI_WAIT_RETRIES then Return (- MAX_SPI_WAIT_RETRIES)
  else Return (if negb (Z.land val mask =? target)
               then SPI_GENERIC_ERROR else ret).

Definition realtek_mst_i2c_spi_enter_isp_mode (fd : Z) : M D Z :=
  ret <- realtek_mst_i2c_spi_write_register fd MCU_MODE ENTER_ISP_MODE ;;
  ret <- or_into ret (realtek_mst_i2c_spi_write_register fd 0xF4 0x9F) ;;
  ret <- or_into ret (realtek_mst_i2c_spi_write_register fd 0xF5 0x06) ;;
  ret <- or_into ret (realtek_mst_i2c_spi_write_register fd 0xF4 0xA0) ;;
  ret <- or_into ret (realtek_mst_i2c_spi_write_register fd 0xF5 0x74) ;;
  Return ret.

Definition realtek_mst_i2c_execute_write (fd : Z) : M D Z :=
  ret <- realtek_mst_i2c_spi_write_register fd MCU_MODE START_WRITE_XFER ;;
  ret <- or_into ret
    (realtek_mst_i2c_spi_wait_command_done fd MCU_MODE
       WRITE_XFER_STATUS_MASK 0 1) ;;
  Return ret.

Definition realtek_mst_i2c_spi_reset_mpu (fd : Z) : M D Z :=
  let ret := 0 in
  let val := 0 in
  '(r, val) <- realtek_mst_i2c_spi_read_register fd 0xEE val ;;
  let ret := Z.lor ret r in
  ret <- or_into ret
    (realtek_mst_i2c_spi_write_register fd 0xEE
       (Z.lor (Z.land val 0xFD) 0x02)) ;;
  Return ret.

Definition realtek_mst_i2c_spi_disable_protection (fd : Z) : M D Z :=
  let ret := 0 in
  let val := 0 in
  ret <- or_into ret (realtek_mst_i2c_spi_write_register fd 0xF4 0x9F) ;;
  ret <- or_into ret (realtek_mst_i2c_spi_write_register fd 0xF5 0x10) ;;
  ret <- or_into ret (realtek_mst_i2c_spi_write_register fd 0xF4 0xAB) ;;
  '(r, val) <- realtek_mst_i2c_spi_read_register fd 0xF5 val ;;
  let ret := Z.lor ret r in
  ret <- or_into ret (realtek_mst_i2c_spi_write_register fd 0xF4 0x9F) ;;
  ret <- or_into ret (realtek_mst_i2c_spi_write_register fd 0xF5 0x10) ;;
  ret <- or_into ret (realtek_mst_i2c_spi_write_register fd 0xF4 0xAB) ;;
  ret <- or_into ret
    (realtek_mst_i2c_spi_write_register fd 0xF5
       (Z.lor (Z.land val 0xF8) 0x01)) ;;
  '(r, val) <- realtek_mst_i2c_spi_read_register fd 0xD7 val ;;
  let ret := Z.lor ret r in
  ret <- or_into ret
    (realtek_mst_i2c_spi_write_register fd 0xD7
       (Z.lor (Z.land val 0xFE) 0x01)) ;;
  Return ret.

(** The [switch] on the opcode in [send_command]: it either returns from
    the function or falls out with the control word and the multiplier. *)
Inductive switch_outcome : Type :=
| SwitchReturn (r : Z)
| SwitchBreak (ctrl_reg_val max_timeout_mul : Z).

Definition opcode_switch (opcode ctrl_reg_val max_timeout_mul : Z)
    : switch_outcome :=
  if opcode =? JEDEC_WREN then SwitchReturn 0
  else if opcode =? JEDEC_WRSR then
    let ctrl_reg_val := Z.lor ctrl_reg_val (Z.shiftl 1 5) in
    let ctrl_reg_val := Z.lor ctrl_reg_val (Z.shiftl 2 5) in
    SwitchBreak ctrl_reg_val max_timeout_mul
  else
    let erasure max_timeout_mul :=
      let ctrl_reg_val := Z.lor ctrl_reg_val (Z.shiftl 1 5) in
      let ctrl_reg_val := Z.lor ctrl_reg_val (Z.shiftl 4 5) in
      SwitchBreak ctrl_reg_val max_timeout_mul in
    if opcode =? JEDEC_CE_C7 then erasure (max_timeout_mul * 20)
    else if (opcode =? JEDEC_CE_60) || (opcode =? JEDEC_BE_52)
            || (opcode =? JEDEC_BE_D8) || (opcode =? JEDEC_BE_D7)
            || (opcode =? JEDEC_SE) then erasure max_timeout_mul
    else SwitchBreak (Z.lor ctrl_reg_val (Z.shiftl 2 5)) max_timeout_mul.

(** The result carries the status and [readarr] as the call leaves it. *)
Definition realtek_mst_i2c_spi_send_command (flash : option flashctx)
    (writecnt readcnt : Z) (writearr readarr : list Z) : M D (Z * list Z) :=
  let max_timeout_mul := 1 in
  let ret := 0 in
  if (writecnt >? 4) || (readcnt >? 3) || (writecnt =? 0) then
    Return (SPI_GENERIC_ERROR, readarr)
  else
  let fd := get_fd_from_context flash in
  if fd <? 0 then Return (SPI_GENERIC_ERROR, readarr) else
  let writecnt := unsigned (writecnt - 1) in
  let ctrl_reg_val :=
    uint8_t (Z.lor (Z.shiftl writecnt 3) (Z.shiftl readcnt 1)) in
  match opcode_switch (nth 0 writearr 0) ctrl_reg_val max_timeout_mul with
  | SwitchReturn r => Return (r, readarr)
  | SwitchBreak ctrl_reg_val max_timeout_mul =>
      ret <- or_into ret
        (realtek_mst_i2c_spi_write_register fd 0x60 ctrl_reg_val) ;;
      ret <- or_into ret
        (realtek_mst_i2c_spi_write_register fd 0x61 (nth 0 writearr 0)) ;;
      ret <- for_upto (Z.to_nat writecnt) 0
        (fun i ret =>
           or_into ret
             (realtek_mst_i2c_spi_write_register fd (0x64 + i)
                (nth (Z.to_nat (i + 1)) writearr 0))) ret ;;
      ret <- or_into ret
        (realtek_mst_i2c_spi_write_register fd 0x60
           (Z.lor ctrl_reg_val 0x1)) ;;
      if negb (ret =? 0) then Return (ret, readarr) else
      ret <- realtek_mst_i2c_spi_wait_command_done fd 0x60 0x01 0
        max_timeout_mul ;;
      if negb (ret =? 0) then Return (ret, readarr) else
      for_upto (Z.to_nat readcnt) 0
        (fun i '(ret, readarr) =>
           '(r, b) <- realtek_mst_i2c_spi_read_register fd (0x67 + i)
                        (nth (Z.to_nat i) readarr 0) ;;
           Return (Z.lor ret r, store readarr (Z.to_nat i) [b]))
        (ret, readarr)
  end.

Definition realtek_mst_i2c_spi_map_page (fd block_idx page_idx byte_idx : Z)
    : M D Z :=
  let ret := 0 in
  ret <- or_into ret
    (realtek_mst_i2c_spi_write_register fd MAP_PAGE_BYTE2 block_idx) ;;
  ret <- or_into ret
    (realtek_mst_i2c_spi_write_register fd MAP_PAGE_BYTE1 page_idx) ;;
  ret <- or_into ret
    (realtek_mst_i2c_spi_write_register fd MAP_PAGE_BYTE0 byte_idx) ;;
  Return (if ret =? 0 then 0 else SPI_GENERIC_ERROR).

(** [buf] holds the [len] bytes to send; [wbuf] is the data-port register
    followed by them. *)
Definition realtek_mst_i2c_spi_write_page (fd reg : Z) (buf : list Z)
    (len : Z) : M D Z :=
  if len >? PAGE_SIZE then Return SPI_GENERIC_ERROR else
  let wbuf := MCU_DATA_PORT :: firstn (Z.to_nat len) buf in
  realtek_mst_i2c_spi_write_data fd REGISTER_ADDRESS wbuf (len + 1).

(** The chunk loop of the bulk read, [for (i = ...; i < len; i += PAGE_SIZE)]. *)
Fixpoint read_loop (fuel : nat) (fd len i ret : Z) (buf : list Z)
    : M D (Z * list Z) :=
  if negb (i <? len) then Return (ret, buf) else
  match fuel with
  | O => fun _ => None
  | S fuel' =>
      '(r, data) <- realtek_mst_i2c_spi_read_data fd REGISTER_ADDRESS
                      (min (unsigned (len - i)) PAGE_SIZE) ;;
      let buf := store buf (Z.to_nat i) data in
      let ret := Z.lor ret r in
      if negb (ret =? 0) then Return (ret, buf) else
      read_loop fuel' fd len (unsigned (i + PAGE_SIZE)) ret buf
  end.

Definition realtek_mst_i2c_spi_read (flash : option flashctx)
    (buf : list Z) (start len : Z) : M D (Z * list Z) :=
  let ret := 0 in
  if negb (Z.land start 0xff =? 0) then
    default_spi_read flash buf start len
  else
  let fd := get_fd_from_context flash in
  if fd <? 0 then Return (SPI_GENERIC_ERROR, buf) else
  let start := unsigned (start - 1) in
  ret <- or_into ret (realtek_mst_i2c_spi_write_register fd 0x60 0x46) ;;
  ret <- or_into ret
    (realtek_mst_i2c_spi_write_register fd 0x61 OPCODE_READ) ;;
  let block_idx := uint8_t (Z.shiftr start 16) in
  let page_idx := uint8_t (Z.shiftr start 8) in
  let byte_idx := uint8_t start in
  ret <- or_into ret
    (realtek_mst_i2c_spi_map_page fd block_idx page_idx byte_idx) ;;
  ret <- or_into ret (realtek_mst_i2c_spi_write_register fd 0x6a 0x03) ;;
  ret <- or_into ret (realtek_mst_i2c_spi_write_register fd 0x60 0x47) ;;
  if negb (ret =? 0) then Return (ret, buf) else
  ret <- realtek_mst_i2c_spi_wait_command_done fd 0x60 0x01 0 1 ;;
  if negb (ret =? 0) then Return (ret, buf) else
  let dummy := 0 in
  _ <- realtek_mst_i2c_spi_read_register fd MCU_DATA_PORT dummy ;;
  read_loop (Z.to_nat (len / PAGE_SIZE + 1)) fd len 0 ret buf.

(** The chunk loop of the bulk write; [break] leaves it with [ret]. *)
Fixpoint write_256_loop (fuel : nat) (fd : Z) (buf : list Z)
    (start len i ret : Z) : M D Z :=
  if negb (i <? len) then Return ret else
  match fuel with
  | O => fun _ => None
  | S fuel' =>
      let page_len := uint16_t (min (unsigned (len - i)) PAGE_SIZE) in
      ret <- (if unsigned (len - i) <? PAGE_SIZE then
                or_into ret
                  (realtek_mst_i2c_spi_write_register fd 0x71 (page_len - 1))
              else Return ret) ;;
      let block_idx := uint8_t (Z.shiftr (unsigned (start + i)) 16) in
      let page_idx := uint8_t (Z.shiftr (unsigned (start + i)) 8) in
      ret <- or_into ret
        (realtek_mst_i2c_spi_map_page fd block_idx page_idx 0) ;;
      if negb (ret =? 0) then Return ret else
      ret <- or_into ret
        (realtek_mst_i2c_spi_wait_command_done fd MCU_MODE 0x10 0x10 1) ;;
      if negb (ret =? 0) then Return ret else
      ret <- or_into ret
        (realtek_mst_i2c_spi_write_page fd MCU_DATA_PORT
           (skipn (Z.to_nat i) buf) page_len) ;;
      if negb (ret =? 0) then Return ret else
      ret <- or_into ret (realtek_mst_i2c_execute_write fd) ;;
      if negb (ret =? 0) then Return ret else
      write_256_loop fuel' fd buf start len (unsigned (i + PAGE_SIZE)) ret
  end.

Definition realtek_mst_i2c_spi_write_256 (flash : option flashctx)
    (buf : list Z) (start len : Z) : M D Z :=
  if negb (Z.land start 0xff =? 0) then
    default_spi_write_256 flash buf start len
  else
  let fd := get_fd_from_context flash in
  if fd <? 0 then Return SPI_GENERIC_ERROR else
  ret <- realtek_mst_i2c_spi_disable_protection fd ;;
  if negb (ret =? 0) then Return ret else
  ret <- or_into ret (realtek_mst_i2c_spi_write_register fd 0x6D 0x02) ;;
  ret <- or_into ret
    (realtek_mst_i2c_spi_write_register fd 0x71 (PAGE_SIZE - 1)) ;;
  write_256_loop (Z.to_nat (len / PAGE_SIZE + 1)) fd buf start len 0 ret.

Definition realtek_mst_i2c_spi_write_aai (flash : option flashctx)
    (buf : list Z) (start len : Z) : M D Z :=
  Return SPI_GENERIC_ERROR.

End Driver.

(** ** Concrete collaborators

    The values of the flashrom headers, and a few small buses on which the
    driver can be run. *)

Definition flashrom_spi_h : spi_h := {|
  SPI_GENERIC_ERROR := -1;
  JEDEC_WREN := 0x06;
  JEDEC_WRSR := 0x01;
  JEDEC_CE_C7 := 0xc7;
  JEDEC_CE_60 := 0x60;
  JEDEC_BE_52 := 0x52;
  JEDEC_BE_D8 := 0xd8;
  JEDEC_BE_D7 := 0xd7;
  JEDEC_SE := 0x20
|}.

(** A bus on which every transfer succeeds and every byte read is [v]. The
    fallback routines of the host do nothing and fail. *)
Definition steady_bus (v : Z) : host unit := {|
  i2c_buffer_t_fill := fun len => if len =? 0 then -1 else 0;
  i2c_write := fun _ _ data d => (Z.of_nat (length data), d);
  i2c_read := fun _ _ len d => (len, repeat v (Z.to_nat len), d);
  default_spi_read := fun _ buf _ _ => Return (-1, buf);
  default_spi_write_256 := fun _ _ _ _ => Return (-1)
|}.

(** A bus whose first [i2c_write] transfers nothing; the state counts the
    writes seen so far. *)
Definition first_write_fails : host nat := {|
  i2c_buffer_t_fill := fun len => if len =? 0 then -1 else 0;
  i2c_write := fun _ _ data n =>
    (match n with O => 0 | S _ => Z.of_nat (length data) end, S n);
  i2c_read := fun _ _ len n => (len, repeat 0 (Z.to_nat len), n);
  default_spi_read := fun _ buf _ _ => Return (-1, buf);
  default_spi_write_256 := fun _ _ _ _ => Return (-1)
|}.

(** A flash context whose master data holds descriptor [n]. *)
Definition flash_with_fd (n : Z) : option flashctx :=
  Some {| mst := Some {| spi_data := Some {| fd := n |} |} |}.

Definition start_world {D : Type} (d : D) : world D :=
  {| dev := d; log := [] |}.

(** ** Observations on the log *)

Definition is_read (e : event) : bool :=
  match e with Read _ _ _ _ => true | Write _ _ _ => false end.

(** Number of [read_data] calls among the events. *)
Definition read_attempts (evs : list event) : nat :=
  length (filter is_read evs).

Definition status_of (e : event) : Z :=
  match e with Write _ _ s => s | Read _ _ _ s => s end.

(** What a call sent on the bus, if it was a write. *)
Definition sent (e : event) : option (list Z) :=
  match e with Write _ data _ => Some data | Read _ _ _ _ => None end.

(** The two transfers of a register read: the one-byte register selector,
    then the one-byte read. Everything the poller does is of this kind. *)
Definition polling (e : event) : bool :=
  match e with
  | Write _ [_] _ => true
  | Write _ _ _ => false
  | Read _ _ _ _ => true
  end.

(** Writes of a value to the page-size register [0x71], and writes of
    payload bytes to the data port. *)
Definition page_traffic (e : event) : bool :=
  match e with
  | Write _ (b :: _ :: _) _ => (b =? MCU_DATA_PORT) || (b =? 0x71)
  | _ => false
  end.

(** Status of a register read whose two transfers returned [s1] and [s2]. *)
Definition read_register_status {H : spi_h} (s1 s2 : Z) : Z :=
  if Z.lor s1 s2 =? 0 then 0 else SPI_GENERIC_ERROR.

(** The byte a register read leaves in its destination. *)
Definition stored_byte (data : list Z) (before : Z) : Z :=
  match data with b :: _ => uint8_t b | [] => before end.

(** The register writes that stage a command: the control word, the
    opcode, then the [n] data bytes in the registers from [0x64] on. *)
Definition data_write (writearr : list Z) (i : Z) : list Z :=
  [uint8_t (0x64 + i); uint8_t (nth (Z.to_nat (i + 1)) writearr 0)].

Definition staged (ctrl : Z) (writearr : list Z) (n : nat)
    : list (list Z) :=
  [0x60; ctrl] :: [0x61; uint8_t (nth 0 writearr 0)]
  :: map (fun k => data_write writearr (Z.of_nat k)) (seq 0 n).

Definition succeeded (e : event) : bool := status_of e =? 0.

(** ** Buses that behave in a known way *)

Section Behaviours.

Context {H : spi_h} {D : Type} {T : host D}.

(** As long as [I] holds of the world, a read of register [offset] succeeds,
    the value it delivers never satisfies [(value & mask) == target], and [I]
    holds again afterwards. *)
Definition never_done (fd offset mask target : Z) (I : world D -> Prop)
    : Prop :=
  forall w val, I w ->
    exists v w1,
      realtek_mst_i2c_spi_read_register fd offset val w = Some ((0, v), w1)
      /\ Z.land v mask <> target /\ I w1.

(** As long as [I] holds, every register write succeeds and keeps [I]. *)
Definition writes_succeed (fd : Z) (I : world D -> Prop) : Prop :=
  forall w reg value, I w ->
    exists w1,
      realtek_mst_i2c_spi_write_register fd reg value w = Some (0, w1)
      /\ I w1.

End Behaviours.

(** ** A fault in the dummy read

    [fail_dummy sel rd T] is the bus [T] with a fault injected in the
    register read of the data port: where [T] reports [n] bytes for the
    transfer that selects the register (the one-byte write of
    [MCU_DATA_PORT]), the faulty bus reports [sel n], and for the read that
    follows it [rd n]. A transfer of one byte that reports anything but 1
    has failed, so [sel] or [rd] never being 1 makes the select or the read
    fail, whatever [T] does. The device behind the bus moves exactly as it
    does under [T]; the flag of the state says that the selector was just
    seen. *)

Definition is_dummy_select (data : list Z) : bool :=
  match data with
  | [b] => b =? MCU_DATA_PORT
  | _ => false
  end.

Definition forget {D : Type} (w : world (D * bool)) : world D :=
  {| dev := fst (dev w); log := log w |}.

Definition inject {D : Type} (w : world D) : world (D * bool) :=
  {| dev := (dev w, false); log := log w |}.

Definition lift_fallback {D A : Type} (m : M D A) : M (D * bool) A :=
  fun w => match m (forget w) with
           | Some (a, w1) => Some (a, inject w1)
           | None => None
           end.

Definition fail_dummy {D : Type} (sel rd : Z -> Z) (T : host D)
    : host (D * bool) := {|
  i2c_buffer_t_fill := i2c_buffer_t_fill (host := T);
  i2c_write := fun fd addr data '(d, _) =>
    let '(n, d1) := i2c_write fd addr data d in
    if is_dummy_select data then (sel n, (d1, true)) else (n, (d1, false));
  i2c_read := fun fd addr len '(d, pending) =>
    let '(n, data, d1) := i2c_read fd addr len d in
    ((if pending then rd n else n), data, (d1, false));
  default_spi_read := fun flash buf start len =>
    lift_fallback (default_spi_read flash buf start len);
  default_spi_write_256 := fun flash buf start len =>
    lift_fallback (default_spi_write_256 flash buf start len)
|}.

(** Two runs, one over [T] and one over the faulty bus, agree: both run out
    of fuel, or both return, with results related by [R] and the same device
    state. *)
Definition agree {D A B : Type} (R : A -> B -> Prop)
    (m : M D A) (m' : M (D * bool) B) : Prop :=
  forall w w', dev w' = (dev w, false) ->
    match m w, m' w' with
    | Some (a, w1), Some (b, w1') => R a b /\ dev w1' = (dev w1, false)
    | None, None => True
    | _, _ => False
    end.

(** What a caller of the bulk read sees: the status and the buffer. *)
Definition outcome {D A : Type} (x : option (A * world D)) : option A :=
  match x with Some (a, _) => Some a | None => None end.

(** ** Further observations on the log *)

(** The length a [read_data] call asked for. *)
Definition read_len (e : event) : Z :=
  match e with Read _ len _ _ => len | Write _ _ _ => 0 end.

(** The payload bytes of a write to the data port. *)
Definition payload (e : event) : list Z :=
  match e with
  | Write _ (b :: data) _ => if b =? MCU_DATA_PORT then data else []
  | _ => []
  end.

(** The values written to register [reg], in order. *)
Definition writes_to (reg : Z) (evs : list event) : list Z :=
  flat_map
    (fun e => match e with
              | Write _ [b; v] _ => if b =? reg then [v] else []
              | _ => []
              end) evs.

(** Writes to the three page-window registers, and writes of payload bytes
    to the data port. *)
Definition window_or_data (e : event) : bool :=
  match e with
  | Write _ (b :: _ :: _) _ =>
      (b =? MAP_PAGE_BYTE2) || (b =? MAP_PAGE_BYTE1) || (b =? MAP_PAGE_BYTE0)
      || (b =? MCU_DATA_PORT)
  | _ => false
  end.

(** The offsets at which the chunks of a transfer of [len] bytes start. *)
Definition chunk_offsets (len : Z) : list Z :=
  map (fun k => PAGE_SIZE * Z.of_nat k)
    (seq 0 (Z.to_nat ((len + (PAGE_SIZE - 1)) / PAGE_SIZE))).

(** What one chunk of a bulk write puts in the page window and in the data
    port, when every transfer succeeds. *)
Definition chunk_events (buf : list Z) (start len off : Z) : list event :=
  [Write REGISTER_ADDRESS
     [MAP_PAGE_BYTE2; uint8_t (Z.shiftr (unsigned (start + off)) 16)] 0;
   Write REGISTER_ADDRESS
     [MAP_PAGE_BYTE1; uint8_t (Z.shiftr (unsigned (start + off)) 8)] 0;
   Write REGISTER_ADDRESS [MAP_PAGE_BYTE0; 0] 0;
   Write REGISTER_ADDRESS
     (MCU_DATA_PORT :: bytes_at buf off (min (len - off) PAGE_SIZE)) 0].

(** The bytes a [read_data] call stored in its buffer. *)
Definition delivered (e : event) : list Z :=
  match e with Read _ _ data _ => data | Write _ _ _ => [] end.

(** A read that stored as many bytes as it asked for. *)
Definition in_full (e : event) : bool :=
  Z.of_nat (length (delivered e)) =? read_len e.

(** The sum of the lengths asked for. *)
Definition total_read (evs : list event) : Z :=
  fold_right Z.add 0 (map read_len evs).

Section MoreBehaviours.

Context {H : spi_h} {D : Type} {T : host D}.


End MoreBehaviours.


(** ** Start-up and shutdown

    The collaborators of [realtek_mst_i2c_spi_init] and of the shutdown
    hook, none of which is part of the sources: the programmer parameters,
    [strtol] of the C library in base 10 (the value, the rest of the string
    from the end pointer on, and [errno] afterwards, 0 when it was not set),
    opening and closing the I2C device, whether [calloc] returns memory,
    and what the two registration calls of the host return. *)
Class programmer_h (D : Type) : Type := {
  extract_programmer_param : String.string -> option String.string;
  strtol : String.string -> Z * String.string * Z;
  i2c_open : Z -> Z -> Z -> D -> Z * D;
  i2c_close : Z -> D -> D;
  calloc : bool;
  register_shutdown : realtek_mst_i2c_spi_data -> Z;
  register_spi_master : realtek_mst_i2c_spi_data -> Z
}.

(** The conversion of the [long] that [strtol] returns to [int]. *)
Definition int_of_long (x : Z) : Z := (x + 2 ^ 31) mod 2 ^ 32 - 2 ^ 31.

Section Lifecycle.

Context {H : spi_h} {D : Type} {T : host D} {P : programmer_h D}.

(** The result carries the status and [*i2c_bus] as the call leaves it.
    The end pointer equals the start of the string exactly when the rest is
    the whole string. *)
Definition get_params (i2c_bus : Z) : Z * Z :=
  let ret := SPI_GENERIC_ERROR in
  match extract_programmer_param "bus"%string with
  | Some bus_str =>
      let '(value, bus_suffix, errno) := strtol bus_str in
      let bus := int_of_long value in
      if negb (errno =? 0) || String.eqb bus_str bus_suffix then
        (ret, i2c_bus)
      else if (bus <? 0) || (bus >? 255) then (ret, i2c_bus)
      else if (0 <? Z.of_nat (String.length bus_suffix)) then (ret, i2c_bus)
      else (0, bus)
  | None => (ret, i2c_bus)
  end.

Definition realtek_mst_i2c_spi_shutdown (data : realtek_mst_i2c_spi_data)
    : M D Z :=
  let ret := 0 in
  let fd := fd data in
  ret <- or_into ret (realtek_mst_i2c_spi_reset_mpu fd) ;;
  fun w => Some (ret, {| dev := i2c_close fd (dev w); log := log w |}).

Definition realtek_mst_i2c_spi_init : M D Z :=
  let ret := 0 in
  let i2c_bus := 0 in
  let '(r, i2c_bus) := get_params i2c_bus in
  if negb (r =? 0) then Return SPI_GENERIC_ERROR else
  fun w =>
    let '(fd, d) := i2c_open i2c_bus REGISTER_ADDRESS 0 (dev w) in
    (if fd <? 0 then Return fd else
     ret <- or_into ret (realtek_mst_i2c_spi_reset_mpu fd) ;;
     if negb (ret =? 0) then Return ret else
     ret <- or_into ret (realtek_mst_i2c_spi_enter_isp_mode fd) ;;
     if negb (ret =? 0) then Return ret else
     if negb calloc then Return SPI_GENERIC_ERROR else
     let data := {| fd := fd |} in
     let ret := Z.lor ret (register_shutdown data) in
     let ret := Z.lor ret (register_spi_master data) in
     Return ret) {| dev := d; log := log w |}.

End Lifecycle.

(** A host on which start-up goes through: the parameter is ["7"], the
    device opens as descriptor 3, and both registrations return 0. *)
Definition plain_programmer {D : Type} : programmer_h D := {|
  extract_programmer_param := fun name =>
    if String.eqb name "bus"%string then Some "7"%string else None;
  strtol := fun s =>
    if String.eqb s "7"%string then (7, ""%string, 0) else (0, s, 0);
  i2c_open := fun _ _ _ d => (3, d);
  i2c_close := fun _ d => d;
  calloc := true;
  register_shutdown := fun _ => 0;
  register_spi_master := fun _ => 0
|}.

(** The transfers of [reset_mpu] and of [enter_isp_mode], with the status of
    each. *)
Definition reset_events (s1 s2 s3 : Z) (data : list Z) : list event :=
  [Write REGISTER_ADDRESS [0xEE] s1;
   Read REGISTER_ADDRESS 1 data s2;
   Write REGISTER_ADDRESS [0xEE; Z.lor (stored_byte data 0) 2] s3].

Definition isp_events (t1 t2 t3 t4 t5 : Z) : list event :=
  [Write REGISTER_ADDRESS [MCU_MODE; ENTER_ISP_MODE] t1;
   Write REGISTER_ADDRESS [0xF4; 0x9F] t2;
   Write REGISTER_ADDRESS [0xF5; 0x06] t3;
   Write REGISTER_ADDRESS [0xF4; 0xA0] t4;
   Write REGISTER_ADDRESS [0xF5; 0x74] t5].

(** * Facts *)

Section Facts.

Context {H : spi_h} {D : Type} {T : host D}.

Lemma uint8_t_small (x : Z) : 0 <= x < 256 -> uint8_t x = x.
Proof. intros Hx. unfold uint8_t. apply Z.mod_small. lia. Qed.

Lemma uint8_t_range (x : Z) : 0 <= uint8_t x < 256.
Proof. unfold uint8_t. apply Z.mod_pos_bound. lia. Qed.

Lemma uint16_t_small (x : Z) : 0 <= x < 65536 -> uint16_t x = x.
Proof. intros Hx. unfold uint16_t. apply Z.mod_small. lia. Qed.

Lemma unsigned_small (x : Z) : 0 <= x < 2 ^ 32 -> unsigned x = x.
Proof. intros Hx. unfold unsigned. apply Z.mod_small. lia. Qed.

Lemma lor_zero (a b : Z) : Z.lor a b = 0 <-> a = 0 /\ b = 0.
Proof. apply Z.lor_eq_0_iff. Qed.

Lemma bind_run {A B : Type} (m : M D A) (k : A -> M D B) w a w1 :
  m w = Some (a, w1) -> bind m k w = k a w1.
Proof. intros E. unfold bind. now rewrite E. Qed.

Lemma or_into_run (ret : Z) (m : M D Z) w r w1 :
  m w = Some (r, w1) -> or_into ret m w = Some (Z.lor ret r, w1).
Proof. intros E. unfold or_into. now rewrite (bind_run _ _ _ _ _ E). Qed.

(** *** The register access primitives *)

Lemma write_data_run fd addr buf len w :
  exists s w1,
    realtek_mst_i2c_spi_write_data fd addr buf len w = Some (s, w1)
    /\ log w1 =
        log w ++ [Write addr (firstn (Z.to_nat (uint16_t len)) buf) s]
    /\ (s = 0 \/ s = SPI_GENERIC_ERROR).
Proof.
  unfold realtek_mst_i2c_spi_write_data.
  destruct (negb (i2c_buffer_t_fill (uint16_t len) =? 0)).
  - eexists _, _. split; [reflexivity|]. split; [reflexivity|]. now right.
  - destruct (i2c_write fd addr _ (dev w)) as [n d].
    eexists _, _. split; [reflexivity|]. split; [reflexivity|].
    destruct (n =? uint16_t len); [now left | now right].
Qed.

Lemma read_data_run fd addr len w :
  exists s data w1,
    realtek_mst_i2c_spi_read_data fd addr len w = Some ((s, data), w1)
    /\ log w1 = log w ++ [Read addr (uint16_t len) data s]
    /\ (s = 0 \/ s = SPI_GENERIC_ERROR).
Proof.
  unfold realtek_mst_i2c_spi_read_data.
  destruct (negb (i2c_buffer_t_fill (uint16_t len) =? 0)).
  - eexists _, _, _. split; [reflexivity|]. split; [reflexivity|]. now right.
  - destruct (i2c_read fd addr _ (dev w)) as [[n data] d].
    eexists _, _, _. split; [reflexivity|]. split; [reflexivity|].
    destruct (n =? uint16_t len); [now left | now right].
Qed.

Lemma write_register_run fd reg value w :
  exists s w1,
    realtek_mst_i2c_spi_write_register fd reg value w = Some (s, w1)
    /\ log w1 =
        log w ++ [Write REGISTER_ADDRESS [uint8_t reg; uint8_t value] s]
    /\ (s = 0 \/ s = SPI_GENERIC_ERROR).
Proof.
  unfold realtek_mst_i2c_spi_write_register.
  destruct (write_data_run fd REGISTER_ADDRESS
              [uint8_t reg; uint8_t value] 2 w) as (s & w1 & E & L & Hs).
  exists s, w1. auto.
Qed.

Lemma read_register_run fd reg value w :
  exists s1 s2 data w1,
    realtek_mst_i2c_spi_read_register fd reg value w
      = Some ((read_register_status s1 s2, stored_byte data value), w1)
    /\ log w1 =
        log w ++ [Write REGISTER_ADDRESS [uint8_t reg] s1;
                  Read REGISTER_ADDRESS 1 data s2].
Proof.
  unfold realtek_mst_i2c_spi_read_register.
  destruct (write_data_run fd REGISTER_ADDRESS [uint8_t reg] 1 w)
    as (s1 & w1 & E1 & L1 & _).
  destruct (read_data_run fd REGISTER_ADDRESS 1 w1)
    as (s2 & data & w2 & E2 & L2 & _).
  exists s1, s2, data, w2. split.
  - rewrite (bind_run _ _ _ _ _ E1), (bind_run _ _ _ _ _ E2). reflexivity.
  - rewrite L2, L1, <- app_assoc. reflexivity.
Qed.

Lemma read_register_status_cases (s1 s2 : Z) :
  read_register_status s1 s2 = 0
  \/ read_register_status s1 s2 = SPI_GENERIC_ERROR.
Proof. unfold read_register_status. destruct (_ =? 0); auto. Qed.

(** *** The command-done poller *)

Lemma read_attempts_app (l1 l2 : list event) :
  read_attempts (l1 ++ l2) = (read_attempts l1 + read_attempts l2)%nat.
Proof. unfold read_attempts. now rewrite filter_app, length_app. Qed.

(** The loop of the poller returns when given the fuel the function gives
    it, and all it does is read the register. *)
Lemma wait_command_done_loop_run fd offset mask target multiplier :
  forall fuel tried ret val w,
    1 <= Z.of_nat fuel ->
    MAX_SPI_WAIT_RETRIES * multiplier - tried <= Z.of_nat fuel ->
    exists out w1 evs,
      wait_command_done_loop fuel fd offset mask target multiplier
        tried ret val w = Some (out, w1)
      /\ log w1 = log w ++ evs
      /\ forallb polling evs = true.
Proof.
  induction fuel as [|fuel IH]; intros tried ret val w Hf1 Hf; [lia|].
  cbn [wait_command_done_loop].
  destruct (read_register_run fd offset val w)
    as (s1 & s2 & data & w1 & E & L).
  rewrite (bind_run _ _ _ _ _ E). cbv beta iota.
  destruct ((Z.lor ret (read_register_status s1 s2) =? 0)
            && negb (Z.land (stored_byte data val) mask =? target)).
  - destruct (tried + 1 <? MAX_SPI_WAIT_RETRIES * multiplier) eqn:Hlt.
    + apply Z.ltb_lt in Hlt.
      destruct (IH (tried + 1) (Z.lor ret (read_register_status s1 s2))
                  (stored_byte data val) w1) as (out & w2 & evs & E2 & L2 & P);
        [lia | lia |].
      exists out, w2, (Write REGISTER_ADDRESS [uint8_t offset] s1
                       :: Read REGISTER_ADDRESS 1 data s2 :: evs).
      split; [exact E2|]. split.
      * rewrite L2, L, <- app_assoc. reflexivity.
      * cbn [forallb polling]. exact P.
    + eexists _, w1, _. split; [reflexivity|]. split; [exact L|reflexivity].
  - eexists _, w1, _. split; [reflexivity|]. split; [exact L|reflexivity].
Qed.

Lemma wait_command_done_run fd offset mask target multiplier w :
  exists r w1 evs,
    realtek_mst_i2c_spi_wait_command_done fd offset mask target multiplier w
      = Some (r, w1)
    /\ log w1 = log w ++ evs
    /\ forallb polling evs = true.
Proof.
  unfold realtek_mst_i2c_spi_wait_command_done.
  destruct (wait_command_done_loop_run fd offset mask target multiplier
              (Z.to_nat (Z.max 1 (MAX_SPI_WAIT_RETRIES * multiplier)))
              0 0 0 w) as ([[tried ret] val] & w1 & evs & E & L & P);
    [lia | lia |].
  rewrite (bind_run _ _ _ _ _ E). cbv beta iota.
  destruct (tried =? MAX_SPI_WAIT_RETRIES);
    eexists _, w1, evs; (split; [reflexivity|]); auto.
Qed.

(** On a bus where the condition never holds the loop runs to its bound:
    one read per value of [tried] below [MAX_SPI_WAIT_RETRIES * multiplier]. *)
Lemma wait_command_done_loop_never_done fd offset mask target multiplier
    (I : world D -> Prop) :
  never_done fd offset mask target I ->
  forall fuel tried val w,
    I w ->
    tried < MAX_SPI_WAIT_RETRIES * multiplier ->
    MAX_SPI_WAIT_RETRIES * multiplier - tried <= Z.of_nat fuel ->
    exists v w1 evs,
      wait_command_done_loop fuel fd offset mask target multiplier
        tried 0 val w
        = Some ((MAX_SPI_WAIT_RETRIES * multiplier, 0, v), w1)
      /\ Z.land v mask <> target
      /\ I w1
      /\ log w1 = log w ++ evs
      /\ Z.of_nat (read_attempts evs)
         = MAX_SPI_WAIT_RETRIES * multiplier - tried.
Proof.
  intros Hnd.
  induction fuel as [|fuel IH]; intros tried val w HI Hlt Hf; [lia|].
  cbn [wait_command_done_loop].
  destruct (Hnd w val HI) as (v & w1 & E & Hv & HI1).
  destruct (read_register_run fd offset val w)
    as (s1 & s2 & data & w1' & E' & L).
  rewrite E in E'. injection E' as Es Ev Ew. subst w1'.
  rewrite (bind_run _ _ _ _ _ E). cbv beta iota.
  change (Z.lor 0 0) with 0.
  apply Z.eqb_neq in Hv as Hvb. rewrite Hvb. cbn [Z.eqb andb negb].
  destruct (tried + 1 <? MAX_SPI_WAIT_RETRIES * multiplier) eqn:Hlt1.
  - apply Z.ltb_lt in Hlt1.
    destruct (IH (tried + 1) v w1 HI1 Hlt1) as (v2 & w2 & evs & E2 & Hv2
                                                 & HI2 & L2 & C2); [lia|].
    exists v2, w2, (Write REGISTER_ADDRESS [uint8_t offset] s1
                    :: Read REGISTER_ADDRESS 1 data s2 :: evs).
    split; [exact E2|]. split; [exact Hv2|]. split; [exact HI2|]. split.
    + rewrite L2, L, <- app_assoc. reflexivity.
    + change (read_attempts (_ :: _ :: evs)) with (S (read_attempts evs)).
      lia.
  - apply Z.ltb_ge in Hlt1.
    assert (tried + 1 = MAX_SPI_WAIT_RETRIES * multiplier) as -> by lia.
    exists v, w1, [Write REGISTER_ADDRESS [uint8_t offset] s1;
                   Read REGISTER_ADDRESS 1 data s2].
    split; [reflexivity|]. split; [exact Hv|]. split; [exact HI1|].
    split; [exact L|].
    change (read_attempts [_; _]) with 1%nat. lia.
Qed.

(** What the poller returns when the condition never holds: the timeout
    status for multiplier 1, and [SPI_GENERIC_ERROR] for every larger one,
    because [tried] is compared with [MAX_SPI_WAIT_RETRIES] and not with
    the bound of the loop. *)
Lemma wait_command_done_never_done fd offset mask target multiplier
    (I : world D -> Prop) w :
  never_done fd offset mask target I ->
  I w ->
  1 <= multiplier ->
  exists w1 evs,
    realtek_mst_i2c_spi_wait_command_done fd offset mask target multiplier w
      = Some ((if multiplier =? 1 then - MAX_SPI_WAIT_RETRIES
               else SPI_GENERIC_ERROR), w1)
    /\ I w1
    /\ log w1 = log w ++ evs
    /\ Z.of_nat (read_attempts evs) = MAX_SPI_WAIT_RETRIES * multiplier.
Proof.
  intros Hnd HI Hm.
  unfold realtek_mst_i2c_spi_wait_command_done.
  assert (HM : MAX_SPI_WAIT_RETRIES = 1000) by reflexivity.
  destruct (wait_command_done_loop_never_done fd offset mask target
              multiplier I Hnd
              (Z.to_nat (Z.max 1 (MAX_SPI_WAIT_RETRIES * multiplier)))
              0 0 w HI) as (v & w1 & evs & E & Hv & HI1 & L & C);
    [lia | lia |].
  rewrite (bind_run _ _ _ _ _ E). cbv beta iota.
  exists w1, evs. split; [|split; [exact HI1|split; [exact L|lia]]].
  destruct (multiplier =? 1) eqn:Hm1.
  - apply Z.eqb_eq in Hm1. subst multiplier.
    rewrite Z.mul_1_r, Z.eqb_refl. reflexivity.
  - apply Z.eqb_neq in Hm1.
    assert (Hne : (MAX_SPI_WAIT_RETRIES * multiplier
                   =? MAX_SPI_WAIT_RETRIES) = false) by (apply Z.eqb_neq; lia).
    rewrite Hne. apply Z.eqb_neq in Hv. rewrite Hv. reflexivity.
Qed.

(** *** The opcode emulator *)

Lemma forallb_app_true {A : Type} (f : A -> bool) (l1 l2 : list A) :
  forallb f l1 = true -> forallb f l2 = true -> forallb f (l1 ++ l2) = true.
Proof. intros H1 H2. rewrite forallb_app, H1, H2. reflexivity. Qed.

(** The loop that stages the data bytes. *)
Lemma stage_loop_run fd writearr :
  forall n i ret w,
    exists ret' w1 evs,
      for_upto n i
        (fun i ret =>
           or_into ret
             (realtek_mst_i2c_spi_write_register fd (0x64 + i)
                (nth (Z.to_nat (i + 1)) writearr 0))) ret w
        = Some (ret', w1)
      /\ log w1 = log w ++ evs
      /\ map sent evs
         = map (fun k => Some (data_write writearr (i + Z.of_nat k)))
             (seq 0 n)
      /\ (ret' = 0 <-> ret = 0 /\ forallb succeeded evs = true).
Proof.
  induction n as [|n IH]; intros i ret w.
  - exists ret, w, []. cbn. rewrite app_nil_r. intuition.
  - cbn [for_upto].
    destruct (write_register_run fd (0x64 + i)
                (nth (Z.to_nat (i + 1)) writearr 0) w)
      as (s & w1 & E & L & _).
    rewrite (bind_run _ _ _ _ _ (or_into_run ret _ _ _ _ E)).
    destruct (IH (i + 1) (Z.lor ret s) w1)
      as (ret' & w2 & evs & E2 & L2 & S2 & Z2).
    exists ret', w2, (Write REGISTER_ADDRESS
                        [uint8_t (0x64 + i);
                         uint8_t (nth (Z.to_nat (i + 1)) writearr 0)] s
                      :: evs).
    split; [exact E2|]. split; [|split].
    + rewrite L2, L, <- app_assoc. reflexivity.
    + cbn [map sent seq]. f_equal.
      * unfold data_write. change (Z.of_nat 0) with 0.
        rewrite Z.add_0_r. reflexivity.
      * rewrite S2, <- seq_shift, map_map. apply map_ext. intros k.
        replace (i + Z.of_nat (S k)) with (i + 1 + Z.of_nat k) by lia.
        reflexivity.
    + rewrite Z2, lor_zero. cbn [forallb]. unfold succeeded at 2.
      cbn [status_of]. rewrite andb_true_iff, Z.eqb_eq. tauto.
Qed.

(** The loop that reads the response back only reads registers. *)
Lemma readback_loop_run fd :
  forall n i ret readarr w,
    exists out w1 evs,
      for_upto n i
        (fun i '(ret, readarr) =>
           '(r, b) <- realtek_mst_i2c_spi_read_register fd (0x67 + i)
                        (nth (Z.to_nat i) readarr 0) ;;
           Return (Z.lor ret r, store readarr (Z.to_nat i) [b]))
        (ret, readarr) w
        = Some (out, w1)
      /\ log w1 = log w ++ evs
      /\ forallb polling evs = true.
Proof.
  induction n as [|n IH]; intros i ret readarr w.
  - exists (ret, readarr), w, []. cbn. rewrite app_nil_r. auto.
  - cbn [for_upto].
    destruct (read_register_run fd (0x67 + i) (nth (Z.to_nat i) readarr 0) w)
      as (s1 & s2 & data & w1 & E & L).
    rewrite (bind_run _ _ _ _ _ (bind_run _ _ _ _ _ E)).
    cbv beta iota. unfold Return at 1.
    match goal with
    | |- context [for_upto n (i + 1) _ (?r, ?ra) w1] =>
        destruct (IH (i + 1) r ra w1) as (out & w2 & evs & E2 & L2 & P2)
    end.
    exists out, w2, (Write REGISTER_ADDRESS [uint8_t (0x67 + i)] s1
                     :: Read REGISTER_ADDRESS 1 data s2 :: evs).
    split; [exact E2|]. split.
    + rewrite L2, L, <- app_assoc. reflexivity.
    + cbn [forallb polling]. exact P2.
Qed.

Lemma counts_accepted (writecnt readcnt : Z) :
  1 <= writecnt <= 4 -> 0 <= readcnt <= 3 ->
  (writecnt >? 4) || (readcnt >? 3) || (writecnt =? 0) = false.
Proof.
  intros Hw Hr.
  destruct (Z.gtb_spec writecnt 4); [lia|].
  destruct (Z.gtb_spec readcnt 3); [lia|].
  destruct (Z.eqb_spec writecnt 0); [lia|]. reflexivity.
Qed.

(** A call that passes the guards and whose opcode is forwarded: the
    staging writes, then the trigger write whatever the staging returned,
    then (only if all of them succeeded) the poll and the read-back. *)
Lemma send_command_run flash writecnt readcnt writearr readarr w
    ctrl mul :
  1 <= writecnt <= 4 -> 0 <= readcnt <= 3 ->
  0 <= get_fd_from_context flash ->
  opcode_switch (nth 0 writearr 0)
    (uint8_t (Z.lor (Z.shiftl (writecnt - 1) 3) (Z.shiftl readcnt 1))) 1
    = SwitchBreak ctrl mul ->
  exists out w1 stage st rest,
    realtek_mst_i2c_spi_send_command flash writecnt readcnt writearr
      readarr w = Some (out, w1)
    /\ log w1 =
        log w ++ stage
        ++ Write REGISTER_ADDRESS [0x60; uint8_t (Z.lor ctrl 1)] st :: rest
    /\ map sent stage
       = map Some (staged (uint8_t ctrl) writearr (Z.to_nat (writecnt - 1)))
    /\ forallb polling rest = true
    /\ (forallb succeeded
          (stage ++ [Write REGISTER_ADDRESS [0x60; uint8_t (Z.lor ctrl 1)] st])
        = false ->
        rest = [] /\ fst out <> 0 /\ snd out = readarr)
    /\ (exists s0,
          hd_error stage
          = Some (Write REGISTER_ADDRESS [0x60; uint8_t ctrl] s0)).
Proof.
  intros Hw Hr Hfd Hsw.
  unfold realtek_mst_i2c_spi_send_command.
  rewrite (counts_accepted _ _ Hw Hr).
  destruct (Z.ltb_spec (get_fd_from_context flash) 0) as [|_]; [lia|].
  rewrite (unsigned_small (writecnt - 1)) by lia.
  rewrite Hsw.
  set (fd := get_fd_from_context flash).
  destruct (write_register_run fd 0x60 ctrl w) as (s0 & w0 & E0 & L0 & _).
  rewrite (bind_run _ _ _ _ _ (or_into_run 0 _ _ _ _ E0)).
  destruct (write_register_run fd 0x61 (nth 0 writearr 0) w0)
    as (s1 & w1 & E1 & L1 & _).
  rewrite (bind_run _ _ _ _ _ (or_into_run _ _ _ _ _ E1)).
  destruct (stage_loop_run fd writearr (Z.to_nat (writecnt - 1)) 0
              (Z.lor (Z.lor 0 s0) s1) w1)
    as (ret2 & w2 & evs & E2 & L2 & S2 & Z2).
  rewrite (bind_run _ _ _ _ _ E2).
  destruct (write_register_run fd 0x60 (Z.lor ctrl 1) w2)
    as (st & w3 & E3 & L3 & _).
  rewrite (bind_run _ _ _ _ _ (or_into_run _ _ _ _ _ E3)).
  set (stage := Write REGISTER_ADDRESS [0x60; uint8_t ctrl] s0
                :: Write REGISTER_ADDRESS
                     [0x61; uint8_t (nth 0 writearr 0)] s1 :: evs).
  assert (L : log w3 =
              log w ++ stage
              ++ [Write REGISTER_ADDRESS [0x60; uint8_t (Z.lor ctrl 1)] st]).
  { rewrite L3, L2, L1, L0. unfold stage.
    rewrite <- !app_assoc. reflexivity. }
  assert (S : map sent stage
              = map Some
                  (staged (uint8_t ctrl) writearr (Z.to_nat (writecnt - 1)))).
  { unfold stage, staged. cbn [map sent]. rewrite S2, map_map.
    do 2 f_equal. }
  assert (Zr : Z.lor ret2 st = 0 <->
               forallb succeeded
                 (stage ++ [Write REGISTER_ADDRESS
                              [0x60; uint8_t (Z.lor ctrl 1)] st]) = true).
  { unfold stage. rewrite lor_zero, Z2, !lor_zero.
    cbn [app forallb]. rewrite forallb_app. cbn [forallb].
    unfold succeeded. cbn [status_of].
    rewrite !andb_true_iff, !Z.eqb_eq. intuition auto. }
  destruct (Z.eqb_spec (Z.lor ret2 st) 0) as [Hz|Hnz]; cbn [negb].
  - destruct (wait_command_done_run fd 0x60 0x01 0 mul w3)
      as (r & w4 & pevs & E4 & L4 & P4).
    rewrite (bind_run _ _ _ _ _ E4).
    assert (Hok : forallb succeeded
                    (stage ++ [Write REGISTER_ADDRESS
                                 [0x60; uint8_t (Z.lor ctrl 1)] st]) = true)
      by now apply Zr.
    destruct (Z.eqb_spec r 0) as [Hr0|Hr0]; cbn [negb].
    + destruct (readback_loop_run fd (Z.to_nat readcnt) 0 r readarr w4)
        as (out & w5 & revs & E5 & L5 & P5).
      exists out, w5, stage, st, (pevs ++ revs).
      split; [exact E5|]. split; [|split; [exact S|split]].
      * rewrite L5, L4, L, <- !app_assoc. reflexivity.
      * now apply forallb_app_true.
      * split; [rewrite Hok; discriminate|]. now exists s0.
    + exists (r, readarr), w4, stage, st, pevs.
      split; [reflexivity|]. split; [|split; [exact S|split]].
      * rewrite L4, L, <- !app_assoc. reflexivity.
      * exact P4.
      * split; [rewrite Hok; discriminate|]. now exists s0.
  - exists (Z.lor ret2 st, readarr), w3, stage, st, [].
    split; [reflexivity|]. split; [exact L|]. split; [exact S|].
    split; [reflexivity|]. split; [|now exists s0].
    intros _. cbn [fst snd]. auto.
Qed.

(** The [switch] on the opcode. *)
Lemma opcode_switch_wren (c m : Z) :
  opcode_switch JEDEC_WREN c m = SwitchReturn 0.
Proof. unfold opcode_switch. now rewrite Z.eqb_refl. Qed.

Lemma opcode_switch_forwarded (opcode c m : Z) :
  opcode <> JEDEC_WREN ->
  exists ctrl mul,
    opcode_switch opcode c m = SwitchBreak ctrl mul
    /\ (ctrl = Z.lor (Z.lor c 32) 64 \/ ctrl = Z.lor (Z.lor c 32) 128
        \/ ctrl = Z.lor c 64).
Proof.
  intros Hop. unfold opcode_switch.
  apply Z.eqb_neq in Hop. rewrite Hop.
  destruct (opcode =? JEDEC_WRSR); [eexists _, _; split; [reflexivity|auto]|].
  destruct (opcode =? JEDEC_CE_C7);
    [eexists _, _; split; [reflexivity|auto]|].
  destruct ((opcode =? JEDEC_CE_60) || (opcode =? JEDEC_BE_52)
            || (opcode =? JEDEC_BE_D8) || (opcode =? JEDEC_BE_D7)
            || (opcode =? JEDEC_SE));
    eexists _, _; split; try reflexivity; auto.
Qed.

Lemma opcode_switch_ce_c7 {OK : spi_h_ok H} (c m : Z) :
  opcode_switch JEDEC_CE_C7 c m
  = SwitchBreak (Z.lor (Z.lor c 32) 128) (m * 20).
Proof.
  pose proof case_labels_distinct as ND.
  unfold opcode_switch.
  destruct (Z.eqb_spec JEDEC_CE_C7 JEDEC_WREN) as [e|_].
  { exfalso. inversion ND as [|? ? N1 _]. apply N1. rewrite <- e.
    cbn. auto. }
  destruct (Z.eqb_spec JEDEC_CE_C7 JEDEC_WRSR) as [e|_].
  { exfalso. inversion ND as [|? ? _ ND1]. inversion ND1 as [|? ? N2 _].
    apply N2. rewrite <- e. cbn. auto. }
  rewrite Z.eqb_refl. reflexivity.
Qed.

Lemma opcode_switch_ce_60 {OK : spi_h_ok H} (c m : Z) :
  opcode_switch JEDEC_CE_60 c m = SwitchBreak (Z.lor (Z.lor c 32) 128) m.
Proof.
  pose proof case_labels_distinct as ND.
  unfold opcode_switch.
  destruct (Z.eqb_spec JEDEC_CE_60 JEDEC_WREN) as [e|_].
  { exfalso. inversion ND as [|? ? N1 _]. apply N1. rewrite <- e.
    cbn. auto. }
  destruct (Z.eqb_spec JEDEC_CE_60 JEDEC_WRSR) as [e|_].
  { exfalso. inversion ND as [|? ? _ ND1]. inversion ND1 as [|? ? N2 _].
    apply N2. rewrite <- e. cbn. auto. }
  destruct (Z.eqb_spec JEDEC_CE_60 JEDEC_CE_C7) as [e|_].
  { exfalso. inversion ND as [|? ? _ ND1]. inversion ND1 as [|? ? _ ND2].
    inversion ND2 as [|? ? N3 _]. apply N3. rewrite <- e. cbn. auto. }
  rewrite Z.eqb_refl. reflexivity.
Qed.

(** The count bits of the control word survive the opcode tag and the
    start/end bit. *)
Lemma control_word_counts (writecnt readcnt ctrl : Z) :
  1 <= writecnt <= 4 -> 0 <= readcnt <= 3 ->
  let c := uint8_t (Z.lor (Z.shiftl (writecnt - 1) 3) (Z.shiftl readcnt 1)) in
  ctrl = Z.lor (Z.lor c 32) 64 \/ ctrl = Z.lor (Z.lor c 32) 128
  \/ ctrl = Z.lor c 64 ->
  forall v, v = uint8_t ctrl \/ v = uint8_t (Z.lor ctrl 1) ->
    Z.land (Z.shiftr v 3) 3 = writecnt - 1
    /\ Z.land (Z.shiftr v 1) 3 = readcnt.
Proof.
  intros Hw Hr c Hc v Hv.
  assert (Cw : writecnt = 1 \/ writecnt = 2 \/ writecnt = 3 \/ writecnt = 4)
    by lia.
  assert (Cr : readcnt = 0 \/ readcnt = 1 \/ readcnt = 2 \/ readcnt = 3)
    by lia.
  subst c.
  destruct Cw as [->|[->|[->| ->]]]; destruct Cr as [->|[->|[->| ->]]];
    destruct Hc as [->|[->| ->]]; destruct Hv as [->| ->];
    split; reflexivity.
Qed.

(** *** Buses on which the poll never completes *)

Lemma write_register_succeeds fd (I : world D -> Prop) reg value w :
  writes_succeed fd I -> I w ->
  exists w1,
    realtek_mst_i2c_spi_write_register fd reg value w = Some (0, w1)
    /\ I w1
    /\ log w1 =
        log w ++ [Write REGISTER_ADDRESS [uint8_t reg; uint8_t value] 0].
Proof.
  intros Hws HI.
  destruct (Hws w reg value HI) as (w1 & E & HI1).
  destruct (write_register_run fd reg value w) as (s & w1' & E' & L & _).
  rewrite E in E'. injection E' as <- <-.
  exists w1. auto.
Qed.

Lemma stage_loop_succeeds fd writearr (I : world D -> Prop) :
  writes_succeed fd I ->
  forall n i w, I w ->
    exists w1 evs,
      for_upto n i
        (fun i ret =>
           or_into ret
             (realtek_mst_i2c_spi_write_register fd (0x64 + i)
                (nth (Z.to_nat (i + 1)) writearr 0))) 0 w
        = Some (0, w1)
      /\ I w1
      /\ log w1 = log w ++ evs
      /\ read_attempts evs = 0%nat.
Proof.
  intros Hws. induction n as [|n IH]; intros i w HI.
  - exists w, []. cbn. rewrite app_nil_r. auto.
  - cbn [for_upto].
    destruct (write_register_succeeds fd I (0x64 + i)
                (nth (Z.to_nat (i + 1)) writearr 0) w Hws HI)
      as (w1 & E & HI1 & L).
    rewrite (bind_run _ _ _ _ _ (or_into_run 0 _ _ _ _ E)).
    change (Z.lor 0 0) with 0.
    destruct (IH (i + 1) w1 HI1) as (w2 & evs & E2 & HI2 & L2 & C2).
    eexists w2, (_ :: evs). split; [exact E2|]. split; [exact HI2|]. split.
    + rewrite L2, L, <- app_assoc. reflexivity.
    + exact C2.
Qed.

(** With every register write succeeding and the done bit never clearing,
    the emulator stages, triggers and then polls to the bound given by the
    multiplier the [switch] chose. *)
Lemma send_command_never_done {OK : spi_h_ok H} flash writecnt readcnt
    writearr readarr (I : world D -> Prop) w ctrl mul :
  1 <= writecnt <= 4 -> 0 <= readcnt <= 3 ->
  0 <= get_fd_from_context flash ->
  opcode_switch (nth 0 writearr 0)
    (uint8_t (Z.lor (Z.shiftl (writecnt - 1) 3) (Z.shiftl readcnt 1))) 1
    = SwitchBreak ctrl mul ->
  1 <= mul ->
  writes_succeed (get_fd_from_context flash) I ->
  never_done (get_fd_from_context flash) 0x60 0x01 0 I ->
  I w ->
  exists w1 evs,
    realtek_mst_i2c_spi_send_command flash writecnt readcnt writearr
      readarr w
    = Some ((if mul =? 1 then - MAX_SPI_WAIT_RETRIES else SPI_GENERIC_ERROR,
             readarr), w1)
    /\ log w1 = log w ++ evs
    /\ Z.of_nat (read_attempts evs) = MAX_SPI_WAIT_RETRIES * mul.
Proof.
  intros Hw Hr Hfd Hsw Hmul Hws Hnd HI.
  unfold realtek_mst_i2c_spi_send_command.
  rewrite (counts_accepted _ _ Hw Hr).
  destruct (Z.ltb_spec (get_fd_from_context flash) 0) as [|_]; [lia|].
  rewrite (unsigned_small (writecnt - 1)) by lia.
  rewrite Hsw.
  set (fd := get_fd_from_context flash) in *.
  destruct (write_register_succeeds fd I 0x60 ctrl w Hws HI)
    as (w0 & E0 & HI0 & L0).
  rewrite (bind_run _ _ _ _ _ (or_into_run 0 _ _ _ _ E0)).
  destruct (write_register_succeeds fd I 0x61 (nth 0 writearr 0) w0 Hws HI0)
    as (w1 & E1 & HI1 & L1).
  rewrite (bind_run _ _ _ _ _ (or_into_run _ _ _ _ _ E1)).
  change (Z.lor (Z.lor 0 0) 0) with 0.
  destruct (stage_loop_succeeds fd writearr I Hws
              (Z.to_nat (writecnt - 1)) 0 w1 HI1)
    as (w2 & evs & E2 & HI2 & L2 & C2).
  rewrite (bind_run _ _ _ _ _ E2).
  destruct (write_register_succeeds fd I 0x60 (Z.lor ctrl 1) w2 Hws HI2)
    as (w3 & E3 & HI3 & L3).
  rewrite (bind_run _ _ _ _ _ (or_into_run _ _ _ _ _ E3)).
  change (Z.lor 0 0) with 0. cbn [Z.eqb negb].
  destruct (wait_command_done_never_done fd 0x60 0x01 0 mul I w3
              Hnd HI3 Hmul) as (w4 & pevs & E4 & HI4 & L4 & C4).
  rewrite (bind_run _ _ _ _ _ E4).
  assert (Hne : (if mul =? 1 then - MAX_SPI_WAIT_RETRIES
                 else SPI_GENERIC_ERROR) <> 0).
  { destruct (mul =? 1); [discriminate|].
    pose proof generic_error_negative. lia. }
  apply Z.eqb_neq in Hne. rewrite Hne. cbn [negb].
  eexists w4, _. split; [reflexivity|]. split.
  - rewrite L4, L3, L2, L1, L0, <- !app_assoc. reflexivity.
  - rewrite !read_attempts_app, C2.
    change (read_attempts [Write _ _ _]) with 0%nat. lia.
Qed.

(** *** Calls of the emulator that touch no register *)

Lemma send_command_rejected flash writecnt readcnt writearr readarr w :
  writecnt = 0 \/ writecnt > 4 \/ readcnt > 3 ->
  realtek_mst_i2c_spi_send_command flash writecnt readcnt writearr readarr w
  = Some ((SPI_GENERIC_ERROR, readarr), w).
Proof.
  intros Hbad. unfold realtek_mst_i2c_spi_send_command.
  assert (Hb : (writecnt >? 4) || (readcnt >? 3) || (writecnt =? 0) = true).
  { rewrite !orb_true_iff, !Z.gtb_lt, Z.eqb_eq. lia. }
  rewrite Hb. reflexivity.
Qed.

Lemma send_command_no_descriptor flash writecnt readcnt writearr readarr w :
  1 <= writecnt <= 4 -> 0 <= readcnt <= 3 ->
  get_fd_from_context flash < 0 ->
  realtek_mst_i2c_spi_send_command flash writecnt readcnt writearr readarr w
  = Some ((SPI_GENERIC_ERROR, readarr), w).
Proof.
  intros Hw Hr Hfd. unfold realtek_mst_i2c_spi_send_command.
  rewrite (counts_accepted _ _ Hw Hr).
  apply Z.ltb_lt in Hfd. rewrite Hfd. reflexivity.
Qed.

Lemma send_command_wren flash writecnt readcnt writearr readarr w :
  1 <= writecnt <= 4 -> 0 <= readcnt <= 3 ->
  0 <= get_fd_from_context flash ->
  nth 0 writearr 0 = JEDEC_WREN ->
  realtek_mst_i2c_spi_send_command flash writecnt readcnt writearr readarr w
  = Some ((0, readarr), w).
Proof.
  intros Hw Hr Hfd Hop. unfold realtek_mst_i2c_spi_send_command.
  rewrite (counts_accepted _ _ Hw Hr).
  destruct (Z.ltb_spec (get_fd_from_context flash) 0) as [|_]; [lia|].
  rewrite Hop, opcode_switch_wren. reflexivity.
Qed.

(** No staged write other than the control word goes to register [0x60]. *)
Lemma staged_control_word (ctrl : Z) writearr (n : nat) (v : Z) :
  (n <= 3)%nat ->
  In [0x60; v] (staged ctrl writearr n) -> v = ctrl.
Proof.
  intros Hn [E|[E|Hin]].
  - now injection E.
  - discriminate E.
  - apply in_map_iff in Hin as (k & E & Hk). apply in_seq in Hk.
    unfold data_write in E. injection E as E _.
    assert (Ck : (k = 0 \/ k = 1 \/ k = 2)%nat) by lia.
    destruct Ck as [->|[->| ->]]; discriminate E.
Qed.

End Facts.

(** * The claims *)

Lemma flashrom_spi_h_ok : spi_h_ok flashrom_spi_h.
Proof.
  split.
  - reflexivity.
  - discriminate.
  - repeat (constructor; [cbn; intuition discriminate|]). constructor.
Qed.

(** On [steady_bus 0xFF] the done bit of register [0x60] never clears. *)
Lemma steady_bus_never_done fd :
  never_done (H := flashrom_spi_h) (T := steady_bus 0xFF) fd 0x60 0x01 0
    (fun _ => True).
Proof.
  intros w val _. eexists _, _. split; [cbv; reflexivity|].
  split; [discriminate|exact I].
Qed.

Lemma steady_bus_writes_succeed v fd :
  writes_succeed (H := flashrom_spi_h) (T := steady_bus v) fd (fun _ => True).
Proof.
  intros w reg value _. eexists. split; [|exact I].
  unfold realtek_mst_i2c_spi_write_register, realtek_mst_i2c_spi_write_data.
  reflexivity.
Qed.

(** C1 (what the code does where the claim fails). On a bus where every
    read of the polled register succeeds and the condition
    [(value & mask) == target] never holds, the poller makes exactly
    [1000 * multiplier] read attempts; it returns the timeout status
    [-1000] only for multiplier 1, and for every larger multiplier it
    returns [SPI_GENERIC_ERROR], which is a different status. *)
Theorem wait_command_done_exhausted (H : spi_h) (OK : spi_h_ok H)
    (D : Type) (T : host D) (fd offset mask target multiplier : Z)
    (I : world D -> Prop) (w : world D) :
  never_done fd offset mask target I ->
  I w ->
  1 <= multiplier ->
  MAX_SPI_WAIT_RETRIES * multiplier <= 2147483647 ->
  exists w1 evs,
    realtek_mst_i2c_spi_wait_command_done fd offset mask target multiplier w
      = Some ((if multiplier =? 1 then - MAX_SPI_WAIT_RETRIES
               else SPI_GENERIC_ERROR), w1)
    /\ SPI_GENERIC_ERROR <> - MAX_SPI_WAIT_RETRIES
    /\ log w1 = log w ++ evs
    /\ Z.of_nat (read_attempts evs) = 1000 * multiplier.
Proof.
  intros Hnd HI Hm _.
  destruct (wait_command_done_never_done fd offset mask target multiplier
              I w Hnd HI Hm) as (w1 & evs & E & _ & L & C).
  exists w1, evs. split; [exact E|].
  split; [apply generic_error_not_timeout|]. split; [exact L|exact C].
Qed.

Lemma wait_command_done_exhausted_witness :
  never_done (H := flashrom_spi_h) (T := steady_bus 0xFF) 3 0x60 0x01 0
    (fun _ => True)
  /\ 1 <= 20
  /\ MAX_SPI_WAIT_RETRIES * 20 <= 2147483647
  /\ exists w1 evs,
       realtek_mst_i2c_spi_wait_command_done (H := flashrom_spi_h)
         (T := steady_bus 0xFF) 3 0x60 0x01 0 20 (start_world tt)
       = Some (-1, w1)
       /\ -1 <> - MAX_SPI_WAIT_RETRIES
       /\ log w1 = [] ++ evs
       /\ Z.of_nat (read_attempts evs) = 1000 * 20.
Proof.
  split; [apply steady_bus_never_done|].
  split; [lia|]. split; [unfold MAX_SPI_WAIT_RETRIES; lia|].
  apply (wait_command_done_exhausted flashrom_spi_h flashrom_spi_h_ok unit
           (steady_bus 0xFF) 3 0x60 0x01 0 20 (fun _ => True)
           (start_world tt)).
  - apply steady_bus_never_done.
  - exact I.
  - lia.
  - unfold MAX_SPI_WAIT_RETRIES. lia.
Defined.

(** C2 (counterexample). The first staging write, of the control word to
    register [0x60], fails; the opcode and the data byte are staged all the
    same and the control word with the start/end bit set ([0x49]) is
    written, which triggers execution. Only then does the call return the
    error. *)
Lemma send_command_triggers_after_failed_staging :
  realtek_mst_i2c_spi_send_command (H := flashrom_spi_h)
    (T := first_write_fails) (flash_with_fd 3) 2 0 [0x9F; 7] []
    (start_world O)
  = Some ((-1, []),
          {| dev := 4%nat;
             log := [Write 0x4A [0x60; 0x48] (-1);
                     Write 0x4A [0x61; 0x9F] 0;
                     Write 0x4A [0x64; 7] 0;
                     Write 0x4A [0x60; 0x49] 0] |}).
Proof. vm_compute. reflexivity. Qed.

(** C2 (amended). In [send_command] with accepted counts, a usable
    descriptor and an opcode other than write-enable, the staging writes
    (control word to [0x60], opcode to [0x61], data bytes to [0x64 + i]) and
    the trigger write (control word with the start/end bit set) are all
    issued, whatever their statuses; if any of them failed, the call
    returns a nonzero status right after the trigger write, without polling
    and without reading anything back. *)
Theorem send_command_checks_after_trigger (H : spi_h) (D : Type)
    (T : host D) (flash : option flashctx) (writecnt readcnt : Z)
    (writearr readarr : list Z) (w : world D) :
  1 <= writecnt <= 4 -> 0 <= readcnt <= 3 ->
  0 <= get_fd_from_context flash ->
  nth 0 writearr 0 <> JEDEC_WREN ->
  exists out w1 ctrl stage st rest,
    realtek_mst_i2c_spi_send_command flash writecnt readcnt writearr
      readarr w = Some (out, w1)
    /\ log w1 =
       log w ++ stage
       ++ Write REGISTER_ADDRESS [0x60; uint8_t (Z.lor ctrl 1)] st :: rest
    /\ map sent stage
       = map Some (staged (uint8_t ctrl) writearr (Z.to_nat (writecnt - 1)))
    /\ (forallb succeeded
          (stage ++ [Write REGISTER_ADDRESS [0x60; uint8_t (Z.lor ctrl 1)] st])
        = false ->
        rest = [] /\ fst out <> 0 /\ snd out = readarr).
Proof.
  intros Hw Hr Hfd Hop.
  destruct (opcode_switch_forwarded (nth 0 writearr 0)
              (uint8_t (Z.lor (Z.shiftl (writecnt - 1) 3)
                          (Z.shiftl readcnt 1))) 1 Hop)
    as (ctrl & mul & Hsw & _).
  destruct (send_command_run flash writecnt readcnt writearr readarr w
              ctrl mul Hw Hr Hfd Hsw)
    as (out & w1 & stage & st & rest & E & L & S & _ & F & _).
  exists out, w1, ctrl, stage, st, rest. auto.
Qed.

Lemma send_command_checks_after_trigger_witness :
  1 <= 2 <= 4 /\ 0 <= 0 <= 3
  /\ 0 <= get_fd_from_context (H := flashrom_spi_h) (flash_with_fd 3)
  /\ nth 0 [0x9F; 7] 0 <> JEDEC_WREN (spi_h := flashrom_spi_h)
  /\ exists out w1 ctrl stage st rest,
       realtek_mst_i2c_spi_send_command (H := flashrom_spi_h)
         (T := first_write_fails) (flash_with_fd 3) 2 0 [0x9F; 7] []
         (start_world O) = Some (out, w1)
       /\ log w1 =
          [] ++ stage
          ++ Write REGISTER_ADDRESS [0x60; uint8_t (Z.lor ctrl 1)] st :: rest
       /\ map sent stage
          = map Some (staged (uint8_t ctrl) [0x9F; 7] (Z.to_nat (2 - 1)))
       /\ (forallb succeeded
             (stage
              ++ [Write REGISTER_ADDRESS [0x60; uint8_t (Z.lor ctrl 1)] st])
           = false ->
           rest = [] /\ fst out <> 0 /\ snd out = []).
Proof.
  split; [lia|]. split; [lia|]. split; [cbn; lia|].
  split; [discriminate|].
  apply (send_command_checks_after_trigger flashrom_spi_h nat
           first_write_fails (flash_with_fd 3) 2 0 [0x9F; 7] []
           (start_world O)).
  - lia.
  - lia.
  - cbn. lia.
  - discriminate.
Defined.

(** C3 (what the code does where the claim fails). With every register
    write succeeding and the done bit never clearing, a command whose
    opcode is the chip erase [JEDEC_CE_60] is polled 1000 times, the budget
    of any ordinary opcode, and ends in the timeout status; only the chip
    erase [JEDEC_CE_C7] gets 20 times that, 20000 polls. *)
Theorem send_command_chip_erase_budget (H : spi_h) (OK : spi_h_ok H)
    (D : Type) (T : host D) (flash : option flashctx)
    (writecnt readcnt : Z) (writearr readarr : list Z)
    (I : world D -> Prop) (w : world D) :
  1 <= writecnt <= 4 -> 0 <= readcnt <= 3 ->
  0 <= get_fd_from_context flash ->
  writes_succeed (get_fd_from_context flash) I ->
  never_done (get_fd_from_context flash) 0x60 0x01 0 I ->
  I w ->
  (nth 0 writearr 0 = JEDEC_CE_60 ->
   exists w1 evs,
     realtek_mst_i2c_spi_send_command flash writecnt readcnt writearr
       readarr w = Some ((- MAX_SPI_WAIT_RETRIES, readarr), w1)
     /\ log w1 = log w ++ evs
     /\ Z.of_nat (read_attempts evs) = 1000)
  /\ (nth 0 writearr 0 = JEDEC_CE_C7 ->
      exists w1 evs,
        realtek_mst_i2c_spi_send_command flash writecnt readcnt writearr
          readarr w = Some ((SPI_GENERIC_ERROR, readarr), w1)
        /\ log w1 = log w ++ evs
        /\ Z.of_nat (read_attempts evs) = 20000).
Proof.
  intros Hw Hr Hfd Hws Hnd HI. split; intros Hop.
  - destruct (send_command_never_done flash writecnt readcnt writearr
                readarr I w _ 1 Hw Hr Hfd
                ltac:(rewrite Hop; apply opcode_switch_ce_60)
                ltac:(lia) Hws Hnd HI) as (w1 & evs & E & L & C).
    exists w1, evs. auto.
  - destruct (send_command_never_done flash writecnt readcnt writearr
                readarr I w _ (1 * 20) Hw Hr Hfd
                ltac:(rewrite Hop; apply opcode_switch_ce_c7)
                ltac:(lia) Hws Hnd HI) as (w1 & evs & E & L & C).
    exists w1, evs. auto.
Qed.

Lemma send_command_chip_erase_budget_witness :
  (1 <= 1 <= 4 /\ 0 <= 0 <= 3
   /\ 0 <= get_fd_from_context (H := flashrom_spi_h) (flash_with_fd 3)
   /\ nth 0 [0x60] 0 = JEDEC_CE_60 (spi_h := flashrom_spi_h))
  /\ exists w1 evs,
       realtek_mst_i2c_spi_send_command (H := flashrom_spi_h)
         (T := steady_bus 0xFF) (flash_with_fd 3) 1 0 [0x60] []
         (start_world tt) = Some ((-1000, []), w1)
       /\ log w1 = [] ++ evs
       /\ Z.of_nat (read_attempts evs) = 1000.
Proof.
  split; [repeat split; cbn; lia|].
  apply (send_command_chip_erase_budget flashrom_spi_h flashrom_spi_h_ok
           unit (steady_bus 0xFF) (flash_with_fd 3) 1 0 [0x60] []
           (fun _ => True) (start_world tt)).
  - lia.
  - lia.
  - cbn. lia.
  - apply steady_bus_writes_succeed.
  - apply steady_bus_never_done.
  - exact I.
  - reflexivity.
Defined.

(** C4. For every call of [send_command] with [writecnt] in [1,4] and
    [readcnt] in [0,3], every control word the call writes to register
    [0x60] carries [writecnt - 1] in bits 3-4 and [readcnt] in bits 1-2
    (and when the descriptor is usable and the opcode is forwarded, the
    first thing the call does is write such a word); every call with
    [writecnt = 0], [writecnt > 4] or [readcnt > 3] returns
    [SPI_GENERIC_ERROR] and leaves the world, log included, as it was. *)
Theorem send_command_control_word (H : spi_h) (D : Type) (T : host D)
    (flash : option flashctx) (writecnt readcnt : Z)
    (writearr readarr : list Z) (w : world D) :
  (1 <= writecnt <= 4 -> 0 <= readcnt <= 3 ->
   exists out w1 evs,
     realtek_mst_i2c_spi_send_command flash writecnt readcnt writearr
       readarr w = Some (out, w1)
     /\ log w1 = log w ++ evs
     /\ (forall v s,
           In (Write REGISTER_ADDRESS [0x60; v] s) evs ->
           Z.land (Z.shiftr v 3) 3 = writecnt - 1
           /\ Z.land (Z.shiftr v 1) 3 = readcnt)
     /\ (0 <= get_fd_from_context flash ->
         nth 0 writearr 0 <> JEDEC_WREN ->
         exists v s,
           hd_error evs = Some (Write REGISTER_ADDRESS [0x60; v] s)))
  /\ (writecnt = 0 \/ writecnt > 4 \/ readcnt > 3 ->
      realtek_mst_i2c_spi_send_command flash writecnt readcnt writearr
        readarr w = Some ((SPI_GENERIC_ERROR, readarr), w)).
Proof.
  split; [|apply send_command_rejected].
  intros Hw Hr.
  destruct (Z.lt_ge_cases (get_fd_from_context flash) 0) as [Hfd|Hfd].
  { exists (SPI_GENERIC_ERROR, readarr), w, [].
    split; [now apply send_command_no_descriptor|].
    split; [now rewrite app_nil_r|]. split; [intros v s []|lia]. }
  destruct (Z.eq_dec (nth 0 writearr 0) JEDEC_WREN) as [Hop|Hop].
  { exists (0, readarr), w, [].
    split; [now apply send_command_wren|].
    split; [now rewrite app_nil_r|]. split; [intros v s []|tauto]. }
  destruct (opcode_switch_forwarded (nth 0 writearr 0)
              (uint8_t (Z.lor (Z.shiftl (writecnt - 1) 3)
                          (Z.shiftl readcnt 1))) 1 Hop)
    as (ctrl & mul & Hsw & Hc).
  destruct (send_command_run flash writecnt readcnt writearr readarr w
              ctrl mul Hw Hr Hfd Hsw)
    as (out & w1 & stage & st & rest & E & L & S & P & _ & s0 & Hhd).
  pose proof (control_word_counts writecnt readcnt ctrl Hw Hr Hc) as Bits.
  exists out, w1,
    (stage ++ Write REGISTER_ADDRESS [0x60; uint8_t (Z.lor ctrl 1)] st
     :: rest).
  split; [exact E|]. split; [exact L|]. split.
  - intros v s Hin. apply Bits.
    apply in_app_or in Hin as [Hin|[Hin|Hin]].
    + left. apply (in_map sent) in Hin. rewrite S in Hin. cbn [sent] in Hin.
      apply in_map_iff in Hin as (data & Hd & Hin). injection Hd as ->.
      apply staged_control_word in Hin; [exact Hin|lia].
    + right. now injection Hin.
    + rewrite forallb_forall in P. now apply P in Hin.
  - intros _ _. exists (uint8_t ctrl), s0.
    destruct stage as [|e stage]; [discriminate Hhd|].
    cbn [app hd_error] in *. exact Hhd.
Qed.

Lemma send_command_control_word_witness :
  (1 <= 1 <= 4 /\ 0 <= 3 <= 3
   /\ exists out w1 evs,
        realtek_mst_i2c_spi_send_command (H := flashrom_spi_h)
          (T := steady_bus 0x10) (flash_with_fd 3) 1 3 [0x9F] [0; 0; 0]
          (start_world tt) = Some (out, w1)
        /\ log w1 = [] ++ evs
        /\ (forall v s,
              In (Write REGISTER_ADDRESS [0x60; v] s) evs ->
              Z.land (Z.shiftr v 3) 3 = 1 - 1
              /\ Z.land (Z.shiftr v 1) 3 = 3)
        /\ (0 <= get_fd_from_context (H := flashrom_spi_h) (flash_with_fd 3) ->
            nth 0 [0x9F] 0 <> JEDEC_WREN (spi_h := flashrom_spi_h) ->
            exists v s,
              hd_error evs = Some (Write REGISTER_ADDRESS [0x60; v] s)))
  /\ ((0 = 0 \/ 0 > 4 \/ 0 > 3)
      /\ realtek_mst_i2c_spi_send_command (H := flashrom_spi_h)
           (T := steady_bus 0x10) (flash_with_fd 3) 0 0 [] []
           (start_world tt)
         = Some ((-1, []), start_world tt)).
Proof.
  split.
  - split; [lia|]. split; [lia|].
    apply (proj1 (send_command_control_word flashrom_spi_h unit
                    (steady_bus 0x10) (flash_with_fd 3) 1 3 [0x9F]
                    [0; 0; 0] (start_world tt))); lia.
  - split; [now left|].
    apply (proj2 (send_command_control_word flashrom_spi_h unit
                    (steady_bus 0x10) (flash_with_fd 3) 0 0 [] []
                    (start_world tt))).
    now left.
Defined.

(** C8 (counterexample). A write-enable command with accepted counts whose
    flash context carries no master data: the call returns
    [SPI_GENERIC_ERROR], not success. *)
Lemma send_command_wren_without_descriptor :
  realtek_mst_i2c_spi_send_command (H := flashrom_spi_h)
    (T := steady_bus 0x10) None 1 0 [JEDEC_WREN (spi_h := flashrom_spi_h)]
    [] (start_world tt)
  = Some ((-1, []), start_world tt)
  /\ -1 <> 0.
Proof. split; [vm_compute; reflexivity|discriminate]. Qed.

(** C8 (amended). For every call of [send_command] whose counts are
    accepted, whose flash context yields a descriptor that is not negative
    and whose opcode is write-enable, the call returns 0, leaves [readarr]
    alone and leaves the world, log included, as it was: no register is
    read or written. *)
Theorem send_command_write_enable (H : spi_h) (D : Type) (T : host D)
    (flash : option flashctx) (writecnt readcnt : Z)
    (writearr readarr : list Z) (w : world D) :
  1 <= writecnt <= 4 -> 0 <= readcnt <= 3 ->
  0 <= get_fd_from_context flash ->
  nth 0 writearr 0 = JEDEC_WREN ->
  realtek_mst_i2c_spi_send_command flash writecnt readcnt writearr readarr w
  = Some ((0, readarr), w).
Proof. intros Hw Hr Hfd Hop. now apply send_command_wren. Qed.

Lemma send_command_write_enable_witness :
  1 <= 1 <= 4 /\ 0 <= 0 <= 3
  /\ 0 <= get_fd_from_context (H := flashrom_spi_h) (flash_with_fd 3)
  /\ nth 0 [0x06] 0 = JEDEC_WREN (spi_h := flashrom_spi_h)
  /\ realtek_mst_i2c_spi_send_command (H := flashrom_spi_h)
       (T := steady_bus 0x10) (flash_with_fd 3) 1 0 [0x06] []
       (start_world tt)
     = Some ((0, []), start_world tt).
Proof.
  split; [lia|]. split; [lia|]. split; [cbn; lia|]. split; [reflexivity|].
  apply (send_command_write_enable flashrom_spi_h unit (steady_bus 0x10)
           (flash_with_fd 3) 1 0 [0x06] [] (start_world tt)).
  - lia.
  - lia.
  - cbn. lia.
  - reflexivity.
Defined.

(** C6. For every [start] whose low byte is not zero, the bulk read is the
    host's [default_spi_read] and the bulk write is the host's
    [default_spi_write_256], on the same arguments: same result, same
    effect on the world, and so no register traffic of their own. *)
Theorem unaligned_start_delegates (H : spi_h) (D : Type) (T : host D)
    (flash : option flashctx) (buf : list Z) (start len : Z) :
  Z.land start 0xff <> 0 ->
  realtek_mst_i2c_spi_read flash buf start len
  = default_spi_read flash buf start len
  /\ realtek_mst_i2c_spi_write_256 flash buf start len
     = default_spi_write_256 flash buf start len.
Proof.
  intros Hs. apply Z.eqb_neq in Hs.
  unfold realtek_mst_i2c_spi_read, realtek_mst_i2c_spi_write_256.
  rewrite Hs. split; reflexivity.
Qed.

Lemma unaligned_start_delegates_witness :
  Z.land 0x1234 0xff <> 0
  /\ realtek_mst_i2c_spi_read (H := flashrom_spi_h) (T := steady_bus 0x10)
       (flash_with_fd 3) [1; 2] 0x1234 2
     = default_spi_read (host := steady_bus 0x10) (flash_with_fd 3) [1; 2]
         0x1234 2
  /\ realtek_mst_i2c_spi_write_256 (H := flashrom_spi_h)
       (T := steady_bus 0x10) (flash_with_fd 3) [1; 2] 0x1234 2
     = default_spi_write_256 (host := steady_bus 0x10) (flash_with_fd 3)
         [1; 2] 0x1234 2.
Proof.
  split; [discriminate|].
  apply (unaligned_start_delegates flashrom_spi_h unit (steady_bus 0x10)
           (flash_with_fd 3) [1; 2] 0x1234 2).
  discriminate.
Defined.

Section ProtectionFacts.

Context {H : spi_h} {D : Type} {T : host D}.

(** Forcing the low three bits of a byte to 001 keeps its other bits. *)
Lemma low_bits_forced (val : Z) :
  0 <= val < 256 ->
  Z.land (uint8_t (Z.lor (Z.land val 0xF8) 0x01)) 7 = 1
  /\ Z.land (uint8_t (Z.lor (Z.land val 0xF8) 0x01)) 0xF8 = Z.land val 0xF8.
Proof.
  intros Hv.
  assert (All : forallb
                  (fun v =>
                     (Z.land (uint8_t (Z.lor (Z.land v 0xF8) 0x01)) 7 =? 1)
                     && (Z.land (uint8_t (Z.lor (Z.land v 0xF8) 0x01)) 0xF8
                         =? Z.land v 0xF8))
                  (map Z.of_nat (seq 0 256)) = true)
    by (vm_compute; reflexivity).
  rewrite forallb_forall in All.
  specialize (All val).
  rewrite andb_true_iff, !Z.eqb_eq in All. apply All.
  apply in_map_iff. exists (Z.to_nat val). split; [lia|].
  apply in_seq. lia.
Qed.

Lemma stored_byte_range (data : list Z) (before : Z) :
  0 <= before < 256 -> 0 <= stored_byte data before < 256.
Proof.
  intros Hb. destruct data as [|b data]; [exact Hb|apply uint8_t_range].
Qed.

(** The twelve transfers of [disable_protection], whatever each returns. *)
Lemma disable_protection_run fd w :
  exists s1 s2 s3 r1 r1' d1 s4 s5 s6 s7 r2 r2' d2 s8 w1,
    let val := stored_byte d1 0 in
    let val' := stored_byte d2 val in
    realtek_mst_i2c_spi_disable_protection fd w
    = Some (fold_left Z.lor
              [s1; s2; s3; read_register_status r1 r1'; s4; s5; s6; s7;
               read_register_status r2 r2'; s8] 0,
            w1)
    /\ log w1 =
       log w
       ++ [Write REGISTER_ADDRESS [0xF4; 0x9F] s1;
           Write REGISTER_ADDRESS [0xF5; 0x10] s2;
           Write REGISTER_ADDRESS [0xF4; 0xAB] s3;
           Write REGISTER_ADDRESS [0xF5] r1;
           Read REGISTER_ADDRESS 1 d1 r1';
           Write REGISTER_ADDRESS [0xF4; 0x9F] s4;
           Write REGISTER_ADDRESS [0xF5; 0x10] s5;
           Write REGISTER_ADDRESS [0xF4; 0xAB] s6;
           Write REGISTER_ADDRESS
             [0xF5; uint8_t (Z.lor (Z.land val 0xF8) 0x01)] s7;
           Write REGISTER_ADDRESS [0xD7] r2;
           Read REGISTER_ADDRESS 1 d2 r2';
           Write REGISTER_ADDRESS
             [0xD7; uint8_t (Z.lor (Z.land val' 0xFE) 0x01)] s8].
Proof.
  unfold realtek_mst_i2c_spi_disable_protection.
  destruct (write_register_run fd 0xF4 0x9F w) as (s1 & w1 & E1 & L1 & _).
  rewrite (bind_run _ _ _ _ _ (or_into_run _ _ _ _ _ E1)).
  destruct (write_register_run fd 0xF5 0x10 w1) as (s2 & w2 & E2 & L2 & _).
  rewrite (bind_run _ _ _ _ _ (or_into_run _ _ _ _ _ E2)).
  destruct (write_register_run fd 0xF4 0xAB w2) as (s3 & w3 & E3 & L3 & _).
  rewrite (bind_run _ _ _ _ _ (or_into_run _ _ _ _ _ E3)).
  destruct (read_register_run fd 0xF5 0 w3)
    as (r1 & r1' & d1 & w4 & E4 & L4).
  rewrite (bind_run _ _ _ _ _ E4). cbv beta iota.
  destruct (write_register_run fd 0xF4 0x9F w4) as (s4 & w5 & E5 & L5 & _).
  rewrite (bind_run _ _ _ _ _ (or_into_run _ _ _ _ _ E5)).
  destruct (write_register_run fd 0xF5 0x10 w5) as (s5 & w6 & E6 & L6 & _).
  rewrite (bind_run _ _ _ _ _ (or_into_run _ _ _ _ _ E6)).
  destruct (write_register_run fd 0xF4 0xAB w6) as (s6 & w7 & E7 & L7 & _).
  rewrite (bind_run _ _ _ _ _ (or_into_run _ _ _ _ _ E7)).
  destruct (write_register_run fd 0xF5
              (Z.lor (Z.land (stored_byte d1 0) 0xF8) 0x01) w7)
    as (s7 & w8 & E8 & L8 & _).
  rewrite (bind_run _ _ _ _ _ (or_into_run _ _ _ _ _ E8)).
  destruct (read_register_run fd 0xD7 (stored_byte d1 0) w8)
    as (r2 & r2' & d2 & w9 & E9 & L9).
  rewrite (bind_run _ _ _ _ _ E9). cbv beta iota.
  destruct (write_register_run fd 0xD7
              (Z.lor (Z.land (stored_byte d2 (stored_byte d1 0)) 0xFE) 0x01)
              w9)
    as (s8 & w10 & E10 & L10 & _).
  rewrite (bind_run _ _ _ _ _ (or_into_run _ _ _ _ _ E10)).
  exists s1, s2, s3, r1, r1', d1, s4, s5, s6, s7, r2, r2', d2, s8, w10.
  split; [reflexivity|].
  rewrite L10, L9, L8, L7, L6, L5, L4, L3, L2, L1, <- !app_assoc.
  reflexivity.
Qed.

End ProtectionFacts.

(** C7. Every call of [disable_protection] makes the address-setup writes
    [0xF4=0x9F], [0xF5=0x10], [0xF4=0xAB] twice, with one register read, of
    [0xF5], between the two; it then writes to [0xF5] the value read with
    its low three bits forced to 001 (and sets bit 0 of [0xD7] by a read
    and a write). Every step runs whatever the earlier ones returned, and
    the result is the bitwise OR of the statuses of all the steps. *)
Theorem disable_protection_sequence (H : spi_h) (D : Type) (T : host D)
    (fd : Z) (w : world D) :
  exists s1 s2 s3 r1 r1' d1 s4 s5 s6 s7 r2 r2' d2 s8 w1 val written written',
    realtek_mst_i2c_spi_disable_protection fd w
    = Some (fold_left Z.lor
              [s1; s2; s3; read_register_status r1 r1'; s4; s5; s6; s7;
               read_register_status r2 r2'; s8] 0,
            w1)
    /\ log w1 =
       log w
       ++ [Write REGISTER_ADDRESS [0xF4; 0x9F] s1;
           Write REGISTER_ADDRESS [0xF5; 0x10] s2;
           Write REGISTER_ADDRESS [0xF4; 0xAB] s3;
           Write REGISTER_ADDRESS [0xF5] r1;
           Read REGISTER_ADDRESS 1 d1 r1';
           Write REGISTER_ADDRESS [0xF4; 0x9F] s4;
           Write REGISTER_ADDRESS [0xF5; 0x10] s5;
           Write REGISTER_ADDRESS [0xF4; 0xAB] s6;
           Write REGISTER_ADDRESS [0xF5; written] s7;
           Write REGISTER_ADDRESS [0xD7] r2;
           Read REGISTER_ADDRESS 1 d2 r2';
           Write REGISTER_ADDRESS [0xD7; written'] s8]
    /\ val = stored_byte d1 0
    /\ Z.land written 7 = 1
    /\ Z.land written 0xF8 = Z.land val 0xF8.
Proof.
  destruct (disable_protection_run fd w)
    as (s1 & s2 & s3 & r1 & r1' & d1 & s4 & s5 & s6 & s7 & r2 & r2' & d2
        & s8 & w1 & E & L).
  exists s1, s2, s3, r1, r1', d1, s4, s5, s6, s7, r2, r2', d2, s8, w1.
  eexists (stored_byte d1 0), _, _.
  split; [exact E|]. split; [exact L|]. split; [reflexivity|].
  apply low_bits_forced. apply stored_byte_range. lia.
Qed.

Section BulkFacts.

Context {H : spi_h} {D : Type} {T : host D}.

Lemma map_page_run fd block_idx page_idx byte_idx w :
  exists s1 s2 s3 w1,
    realtek_mst_i2c_spi_map_page fd block_idx page_idx byte_idx w
    = Some ((if Z.lor (Z.lor (Z.lor 0 s1) s2) s3 =? 0 then 0
             else SPI_GENERIC_ERROR), w1)
    /\ log w1 =
       log w
       ++ [Write REGISTER_ADDRESS [MAP_PAGE_BYTE2; uint8_t block_idx] s1;
           Write REGISTER_ADDRESS [MAP_PAGE_BYTE1; uint8_t page_idx] s2;
           Write REGISTER_ADDRESS [MAP_PAGE_BYTE0; uint8_t byte_idx] s3].
Proof.
  unfold realtek_mst_i2c_spi_map_page.
  destruct (write_register_run fd MAP_PAGE_BYTE2 block_idx w)
    as (s1 & w1 & E1 & L1 & _).
  rewrite (bind_run _ _ _ _ _ (or_into_run _ _ _ _ _ E1)).
  destruct (write_register_run fd MAP_PAGE_BYTE1 page_idx w1)
    as (s2 & w2 & E2 & L2 & _).
  rewrite (bind_run _ _ _ _ _ (or_into_run _ _ _ _ _ E2)).
  destruct (write_register_run fd MAP_PAGE_BYTE0 byte_idx w2)
    as (s3 & w3 & E3 & L3 & _).
  rewrite (bind_run _ _ _ _ _ (or_into_run _ _ _ _ _ E3)).
  exists s1, s2, s3, w3. split; [reflexivity|].
  rewrite L3, L2, L1, <- !app_assoc. reflexivity.
Qed.

Lemma fuel_for_pages (len : Z) :
  0 <= len -> len <= PAGE_SIZE * Z.of_nat (Z.to_nat (len / PAGE_SIZE + 1)).
Proof.
  intros Hl. unfold PAGE_SIZE.
  pose proof (Z.div_mod len 256 ltac:(lia)).
  pose proof (Z.mod_pos_bound len 256 ltac:(lia)).
  assert (0 <= len / 256) by (apply Z.div_pos; lia).
  lia.
Qed.

(** The chunk loop of the bulk read returns for every length that keeps
    [i + PAGE_SIZE] from wrapping, and it only issues reads. *)
Lemma read_loop_run fd len :
  len <= 2 ^ 32 - PAGE_SIZE ->
  forall fuel i ret buf w,
    0 <= i ->
    len - i <= PAGE_SIZE * Z.of_nat fuel ->
    exists out w1 evs,
      read_loop fuel fd len i ret buf w = Some (out, w1)
      /\ log w1 = log w ++ evs
      /\ forallb polling evs = true.
Proof.
  intros Hlen. unfold PAGE_SIZE in Hlen.
  induction fuel as [|fuel IH]; intros i ret buf w Hi Hf;
    unfold PAGE_SIZE in Hf.
  - cbn [read_loop]. destruct (Z.ltb_spec i len) as [Hlt|Hge]; [lia|].
    exists (ret, buf), w, []. cbn. rewrite app_nil_r. auto.
  - cbn [read_loop]. destruct (Z.ltb_spec i len) as [Hlt|Hge]; cbn [negb].
    + destruct (read_data_run fd REGISTER_ADDRESS
                  (min (unsigned (len - i)) PAGE_SIZE) w)
        as (s & data & w1 & E & L & _).
      rewrite (bind_run _ _ _ _ _ E). cbv beta iota.
      destruct (negb (Z.lor ret s =? 0)).
      * eexists _, w1, _. split; [reflexivity|]. split; [exact L|].
        reflexivity.
      * rewrite (unsigned_small (i + PAGE_SIZE)) by (unfold PAGE_SIZE; lia).
        destruct (IH (i + PAGE_SIZE) (Z.lor ret s)
                    (store buf (Z.to_nat i) data) w1)
          as (out & w2 & evs & E2 & L2 & P2);
          [unfold PAGE_SIZE; lia | unfold PAGE_SIZE; lia |].
        eexists out, w2, (_ :: evs). split; [exact E2|]. split.
        -- rewrite L2, L, <- app_assoc. reflexivity.
        -- cbn [forallb polling]. exact P2.
    + exists (ret, buf), w, []. cbn. rewrite app_nil_r. auto.
Qed.

(** An aligned bulk read with a usable descriptor: the seven writes that
    set the transfer up, then, if they all succeeded, polls and reads. *)
Lemma read_run flash buf start len w :
  Z.land start 0xff = 0 ->
  0 <= get_fd_from_context flash ->
  0 <= len <= 2 ^ 32 - PAGE_SIZE ->
  exists out w1 s1 s2 s3 s4 s5 s6 s7 tail,
    realtek_mst_i2c_spi_read flash buf start len w = Some (out, w1)
    /\ log w1 =
       log w
       ++ Write REGISTER_ADDRESS [0x60; 0x46] s1
       :: Write REGISTER_ADDRESS [0x61; OPCODE_READ] s2
       :: Write REGISTER_ADDRESS
            [MAP_PAGE_BYTE2;
             uint8_t (uint8_t (Z.shiftr (unsigned (start - 1)) 16))] s3
       :: Write REGISTER_ADDRESS
            [MAP_PAGE_BYTE1;
             uint8_t (uint8_t (Z.shiftr (unsigned (start - 1)) 8))] s4
       :: Write REGISTER_ADDRESS
            [MAP_PAGE_BYTE0; uint8_t (uint8_t (unsigned (start - 1)))] s5
       :: Write REGISTER_ADDRESS [0x6a; 0x03] s6
       :: Write REGISTER_ADDRESS [0x60; 0x47] s7
       :: tail
    /\ forallb polling tail = true.
Proof.
  intros Hal Hfd Hlen.
  unfold realtek_mst_i2c_spi_read.
  rewrite Hal. cbn [Z.eqb negb].
  destruct (Z.ltb_spec (get_fd_from_context flash) 0) as [|_]; [lia|].
  set (fd := get_fd_from_context flash).
  destruct (write_register_run fd 0x60 0x46 w) as (s1 & w1 & E1 & L1 & _).
  rewrite (bind_run _ _ _ _ _ (or_into_run _ _ _ _ _ E1)).
  destruct (write_register_run fd 0x61 OPCODE_READ w1)
    as (s2 & w2 & E2 & L2 & _).
  rewrite (bind_run _ _ _ _ _ (or_into_run _ _ _ _ _ E2)).
  destruct (map_page_run fd
              (uint8_t (Z.shiftr (unsigned (start - 1)) 16))
              (uint8_t (Z.shiftr (unsigned (start - 1)) 8))
              (uint8_t (unsigned (start - 1))) w2)
    as (s3 & s4 & s5 & w3 & E3 & L3).
  rewrite (bind_run _ _ _ _ _ (or_into_run _ _ _ _ _ E3)).
  destruct (write_register_run fd 0x6a 0x03 w3) as (s6 & w4 & E4 & L4 & _).
  rewrite (bind_run _ _ _ _ _ (or_into_run _ _ _ _ _ E4)).
  destruct (write_register_run fd 0x60 0x47 w4) as (s7 & w5 & E5 & L5 & _).
  rewrite (bind_run _ _ _ _ _ (or_into_run _ _ _ _ _ E5)).
  assert (L : forall (w6 : world D) tail, log w6 = log w5 ++ tail ->
              log w6 =
              log w
              ++ Write REGISTER_ADDRESS [0x60; 0x46] s1
              :: Write REGISTER_ADDRESS [0x61; OPCODE_READ] s2
              :: Write REGISTER_ADDRESS
                   [MAP_PAGE_BYTE2;
                    uint8_t (uint8_t (Z.shiftr (unsigned (start - 1)) 16))]
                   s3
              :: Write REGISTER_ADDRESS
                   [MAP_PAGE_BYTE1;
                    uint8_t (uint8_t (Z.shiftr (unsigned (start - 1)) 8))] s4
              :: Write REGISTER_ADDRESS
                   [MAP_PAGE_BYTE0; uint8_t (uint8_t (unsigned (start - 1)))]
                   s5
              :: Write REGISTER_ADDRESS [0x6a; 0x03] s6
              :: Write REGISTER_ADDRESS [0x60; 0x47] s7
              :: tail).
  { intros w6 tail L6. rewrite L6, L5, L4, L3, L2, L1, <- !app_assoc.
    reflexivity. }
  match goal with
  | |- context [negb (?r =? 0)] => destruct (negb (r =? 0))
  end.
  { eexists _, w5, s1, s2, s3, s4, s5, s6, s7, [].
    split; [reflexivity|]. split; [|reflexivity].
    apply L. now rewrite app_nil_r. }
  destruct (wait_command_done_run fd 0x60 0x01 0 1 w5)
    as (r & w6 & pevs & E6 & L6 & P6).
  rewrite (bind_run _ _ _ _ _ E6).
  destruct (negb (r =? 0)).
  { eexists _, w6, s1, s2, s3, s4, s5, s6, s7, pevs.
    split; [reflexivity|]. split; [|exact P6]. now apply L. }
  destruct (read_register_run fd MCU_DATA_PORT 0 w6)
    as (d1 & d2 & dd & w7 & E7 & L7).
  rewrite (bind_run _ _ _ _ _ E7).
  destruct (read_loop_run fd len ltac:(lia)
              (Z.to_nat (len / PAGE_SIZE + 1)) 0 r buf w7 ltac:(lia))
    as (out & w8 & revs & E8 & L8 & P8).
  { rewrite Z.sub_0_r. apply fuel_for_pages. lia. }
  exists out, w8, s1, s2, s3, s4, s5, s6, s7,
    (pevs ++ Write REGISTER_ADDRESS [uint8_t MCU_DATA_PORT] d1
          :: Read REGISTER_ADDRESS 1 dd d2 :: revs).
  split; [exact E8|]. split.
  - apply L. rewrite L8, L7, L6, <- !app_assoc. reflexivity.
  - apply forallb_app_true; [exact P6|]. cbn [forallb polling]. exact P8.
Qed.

End BulkFacts.

(** C9. An aligned bulk read programs the page window from
    [(start - 1) mod 2^32]: every value it writes to the block, page and
    byte index registers is bits 16-23, 8-15 and 0-7 of that number, and
    with a usable descriptor it does write them, in this order, between
    the opcode and the transfer size. For [start = 0] the decrement wraps
    and all three are [0xFF]. *)
Theorem read_window_from_wrapped_start (H : spi_h) (D : Type) (T : host D)
    (flash : option flashctx) (buf : list Z) (start len : Z)
    (w : world D) :
  Z.land start 0xff = 0 ->
  0 <= len <= 2 ^ 32 - PAGE_SIZE ->
  let block_idx := uint8_t (Z.shiftr ((start - 1) mod 2 ^ 32) 16) in
  let page_idx := uint8_t (Z.shiftr ((start - 1) mod 2 ^ 32) 8) in
  let byte_idx := uint8_t ((start - 1) mod 2 ^ 32) in
  (exists out w1 evs,
     realtek_mst_i2c_spi_read flash buf start len w = Some (out, w1)
     /\ log w1 = log w ++ evs
     /\ (forall v s,
           (In (Write REGISTER_ADDRESS [MAP_PAGE_BYTE2; v] s) evs ->
            v = block_idx)
           /\ (In (Write REGISTER_ADDRESS [MAP_PAGE_BYTE1; v] s) evs ->
               v = page_idx)
           /\ (In (Write REGISTER_ADDRESS [MAP_PAGE_BYTE0; v] s) evs ->
               v = byte_idx))
     /\ (0 <= get_fd_from_context flash ->
         exists s1 s2 s3 s4 s5 s6 s7 tail,
           evs =
           Write REGISTER_ADDRESS [0x60; 0x46] s1
           :: Write REGISTER_ADDRESS [0x61; OPCODE_READ] s2
           :: Write REGISTER_ADDRESS [MAP_PAGE_BYTE2; block_idx] s3
           :: Write REGISTER_ADDRESS [MAP_PAGE_BYTE1; page_idx] s4
           :: Write REGISTER_ADDRESS [MAP_PAGE_BYTE0; byte_idx] s5
           :: Write REGISTER_ADDRESS [0x6a; 0x03] s6
           :: Write REGISTER_ADDRESS [0x60; 0x47] s7
           :: tail
           /\ forallb polling tail = true))
  /\ (start = 0 ->
      block_idx = 0xFF /\ page_idx = 0xFF /\ byte_idx = 0xFF).
Proof.
  intros Hal Hlen block_idx page_idx byte_idx.
  split; [|intros ->; repeat split; reflexivity].
  destruct (Z.lt_ge_cases (get_fd_from_context flash) 0) as [Hfd|Hfd].
  { exists (SPI_GENERIC_ERROR, buf), w, []. split.
    - unfold realtek_mst_i2c_spi_read. rewrite Hal. cbn [Z.eqb negb].
      apply Z.ltb_lt in Hfd. rewrite Hfd. reflexivity.
    - split; [now rewrite app_nil_r|].
      split; [intros v s; repeat split; intros []|lia]. }
  destruct (read_run flash buf start len w Hal Hfd Hlen)
    as (out & w1 & s1 & s2 & s3 & s4 & s5 & s6 & s7 & tail & E & L & P).
  assert (Eb : uint8_t (uint8_t (Z.shiftr (unsigned (start - 1)) 16))
               = block_idx)
    by (unfold block_idx, unsigned, uint8_t; now rewrite Z.mod_mod by lia).
  assert (Ep : uint8_t (uint8_t (Z.shiftr (unsigned (start - 1)) 8))
               = page_idx)
    by (unfold page_idx, unsigned, uint8_t; now rewrite Z.mod_mod by lia).
  assert (Ey : uint8_t (uint8_t (unsigned (start - 1))) = byte_idx)
    by (unfold byte_idx, unsigned, uint8_t; now rewrite Z.mod_mod by lia).
  rewrite Eb, Ep, Ey in L.
  eexists out, w1, _. split; [exact E|]. split; [exact L|]. split.
  - rewrite forallb_forall in P.
    intros v s; repeat split; intros Hin;
      repeat (destruct Hin as [Hin|Hin];
              [first [discriminate Hin | now injection Hin]|]);
      now apply P in Hin.
  - intros _. exists s1, s2, s3, s4, s5, s6, s7, tail. auto.
Qed.

Lemma read_window_from_wrapped_start_witness :
  Z.land 0 0xff = 0
  /\ 0 <= 5 <= 2 ^ 32 - PAGE_SIZE
  /\ exists out w1 evs,
       realtek_mst_i2c_spi_read (H := flashrom_spi_h)
         (T := steady_bus 0x10) (flash_with_fd 3) (repeat 0 5) 0 5
         (start_world tt) = Some (out, w1)
       /\ log w1 = [] ++ evs
       /\ (forall v s,
             (In (Write REGISTER_ADDRESS [MAP_PAGE_BYTE2; v] s) evs ->
              v = 0xFF)
             /\ (In (Write REGISTER_ADDRESS [MAP_PAGE_BYTE1; v] s) evs ->
                 v = 0xFF)
             /\ (In (Write REGISTER_ADDRESS [MAP_PAGE_BYTE0; v] s) evs ->
                 v = 0xFF))
       /\ (0 <= get_fd_from_context (H := flashrom_spi_h) (flash_with_fd 3)
           ->
           exists s1 s2 s3 s4 s5 s6 s7 tail,
             evs =
             Write REGISTER_ADDRESS [0x60; 0x46] s1
             :: Write REGISTER_ADDRESS [0x61; OPCODE_READ] s2
             :: Write REGISTER_ADDRESS [MAP_PAGE_BYTE2; 0xFF] s3
             :: Write REGISTER_ADDRESS [MAP_PAGE_BYTE1; 0xFF] s4
             :: Write REGISTER_ADDRESS [MAP_PAGE_BYTE0; 0xFF] s5
             :: Write REGISTER_ADDRESS [0x6a; 0x03] s6
             :: Write REGISTER_ADDRESS [0x60; 0x47] s7
             :: tail
             /\ forallb polling tail = true).
Proof.
  split; [reflexivity|]. split; [unfold PAGE_SIZE; lia|].
  apply (read_window_from_wrapped_start flashrom_spi_h unit
           (steady_bus 0x10) (flash_with_fd 3) (repeat 0 5) 0 5
           (start_world tt)).
  - reflexivity.
  - unfold PAGE_SIZE. lia.
Defined.

Section FaultFacts.

Context {H : spi_h} {D : Type} {T : host D} {sel rd : Z -> Z}.

Lemma agree_ret {A B : Type} (R : A -> B -> Prop) (a : A) (b : B) :
  R a b -> agree R (Return (D := D) a) (Return (D := D * bool) b).
Proof. intros HR w w' Hd. cbn. auto. Qed.

Lemma agree_bind {A B A' B' : Type} (R : A -> A' -> Prop)
    (S : B -> B' -> Prop) (m : M D A) (m' : M (D * bool) A')
    (k : A -> M D B) (k' : A' -> M (D * bool) B') :
  agree R m m' ->
  (forall a a', R a a' -> agree S (k a) (k' a')) ->
  agree S (bind m k) (bind m' k').
Proof.
  intros Hm Hk w w' Hd. specialize (Hm w w' Hd). unfold bind.
  destruct (m w) as [[a w1]|], (m' w') as [[a' w1']|];
    try contradiction; [|exact Logic.I].
  destruct Hm as [HR Hd1]. exact (Hk _ _ HR _ _ Hd1).
Qed.

Lemma agree_or_into (ret : Z) (m : M D Z) (m' : M (D * bool) Z) :
  agree eq m m' -> agree eq (or_into ret m) (or_into ret m').
Proof.
  intros Hm. unfold or_into.
  apply (agree_bind eq eq _ _ _ _ Hm).
  intros a a' <-. now apply agree_ret.
Qed.

Lemma agree_write_data fd addr buf len :
  is_dummy_select (firstn (Z.to_nat (uint16_t len)) buf) = false ->
  agree eq
    (realtek_mst_i2c_spi_write_data (T := T) fd addr buf len)
    (realtek_mst_i2c_spi_write_data (T := fail_dummy sel rd T) fd addr buf len).
Proof.
  intros Hnd w w' Hd.
  unfold realtek_mst_i2c_spi_write_data.
  cbn [i2c_buffer_t_fill i2c_write fail_dummy].
  destruct (negb (i2c_buffer_t_fill (uint16_t len) =? 0)).
  - cbn. auto.
  - rewrite Hd.
    destruct (i2c_write fd addr _ (dev w)) as [n d1].
    rewrite Hnd. cbn. auto.
Qed.

Lemma agree_read_data fd addr len :
  agree eq
    (realtek_mst_i2c_spi_read_data (T := T) fd addr len)
    (realtek_mst_i2c_spi_read_data (T := fail_dummy sel rd T) fd addr len).
Proof.
  intros w w' Hd.
  unfold realtek_mst_i2c_spi_read_data.
  cbn [i2c_buffer_t_fill i2c_read fail_dummy].
  destruct (negb (i2c_buffer_t_fill (uint16_t len) =? 0)).
  - cbn. auto.
  - rewrite Hd.
    destruct (i2c_read fd addr _ (dev w)) as [[n data] d1].
    cbn. auto.
Qed.

Lemma agree_write_register fd reg value :
  agree eq
    (realtek_mst_i2c_spi_write_register (T := T) fd reg value)
    (realtek_mst_i2c_spi_write_register (T := fail_dummy sel rd T) fd reg value).
Proof.
  unfold realtek_mst_i2c_spi_write_register.
  apply agree_write_data. reflexivity.
Qed.

Lemma agree_read_register fd reg value :
  uint8_t reg <> MCU_DATA_PORT ->
  agree eq
    (realtek_mst_i2c_spi_read_register (T := T) fd reg value)
    (realtek_mst_i2c_spi_read_register (T := fail_dummy sel rd T) fd reg value).
Proof.
  intros Hreg. unfold realtek_mst_i2c_spi_read_register.
  eapply agree_bind.
  - apply agree_write_data. cbn. now apply Z.eqb_neq.
  - intros a a' <-. eapply agree_bind; [apply agree_read_data|].
    intros [r data] ? <-. now apply agree_ret.
Qed.

(** The faulty dummy read: whatever the two runs return, the device ends
    in the same state. *)
Lemma agree_dummy_read fd value value' :
  agree (fun _ _ => True)
    (realtek_mst_i2c_spi_read_register (T := T) fd MCU_DATA_PORT value)
    (realtek_mst_i2c_spi_read_register (T := fail_dummy sel rd T) fd MCU_DATA_PORT
       value').
Proof.
  intros w w' Hd.
  unfold realtek_mst_i2c_spi_read_register, bind,
    realtek_mst_i2c_spi_write_data, realtek_mst_i2c_spi_read_data.
  cbn [i2c_buffer_t_fill i2c_write i2c_read fail_dummy].
  destruct (negb (i2c_buffer_t_fill (uint16_t 1) =? 0)).
  - cbn. auto.
  - rewrite Hd.
    destruct (i2c_write fd REGISTER_ADDRESS _ (dev w)) as [n d1].
    cbn.
    destruct (i2c_read _ _ _ d1) as [[m data] d2] eqn:Er.
    change (Pos.to_nat 1) with 1%nat. cbn [firstn is_dummy_select].
    change (112 =? MCU_DATA_PORT) with true. cbn [emit dev].
    rewrite Er. cbn. auto.
Qed.

Lemma agree_wait_command_done_loop fd offset mask target multiplier :
  uint8_t offset <> MCU_DATA_PORT ->
  forall fuel tried ret val,
    agree eq
      (wait_command_done_loop (T := T) fuel fd offset mask target
         multiplier tried ret val)
      (wait_command_done_loop (T := fail_dummy sel rd T) fuel fd offset mask
         target multiplier tried ret val).
Proof.
  intros Hreg. induction fuel as [|fuel IH]; intros tried ret val.
  - intros w w' _. exact Logic.I.
  - cbn [wait_command_done_loop].
    eapply agree_bind; [now apply agree_read_register|].
    intros [r v] ? <-. cbv beta iota.
    destruct ((Z.lor ret r =? 0) && negb (Z.land v mask =? target)).
    + destruct (tried + 1 <? MAX_SPI_WAIT_RETRIES * multiplier).
      * apply IH.
      * now apply agree_ret.
    + now apply agree_ret.
Qed.

Lemma agree_wait_command_done fd offset mask target multiplier :
  uint8_t offset <> MCU_DATA_PORT ->
  agree eq
    (realtek_mst_i2c_spi_wait_command_done (T := T) fd offset mask target
       multiplier)
    (realtek_mst_i2c_spi_wait_command_done (T := fail_dummy sel rd T) fd offset
       mask target multiplier).
Proof.
  intros Hreg. unfold realtek_mst_i2c_spi_wait_command_done.
  eapply agree_bind; [now apply agree_wait_command_done_loop|].
  intros [[tried ret] val] ? <-. cbv beta iota.
  destruct (tried =? MAX_SPI_WAIT_RETRIES); now apply agree_ret.
Qed.

Lemma agree_map_page fd block_idx page_idx byte_idx :
  agree eq
    (realtek_mst_i2c_spi_map_page (T := T) fd block_idx page_idx byte_idx)
    (realtek_mst_i2c_spi_map_page (T := fail_dummy sel rd T) fd block_idx page_idx
       byte_idx).
Proof.
  unfold realtek_mst_i2c_spi_map_page.
  repeat (eapply agree_bind;
          [apply agree_or_into, agree_write_register | intros ? ? <-]).
  now apply agree_ret.
Qed.

Lemma agree_read_loop fd len :
  forall fuel i ret buf,
    agree eq
      (read_loop (T := T) fuel fd len i ret buf)
      (read_loop (T := fail_dummy sel rd T) fuel fd len i ret buf).
Proof.
  induction fuel as [|fuel IH]; intros i ret buf; cbn [read_loop].
  - destruct (negb (i <? len)); [now apply agree_ret|].
    intros w w' _. exact Logic.I.
  - destruct (negb (i <? len)); [now apply agree_ret|].
    eapply agree_bind; [apply agree_read_data|].
    intros [r data] ? <-. cbv beta iota.
    destruct (negb (Z.lor ret r =? 0)); [now apply agree_ret|].
    apply IH.
Qed.

(** The aligned bulk read does not see the fault. *)
Lemma agree_read flash buf start len :
  Z.land start 0xff = 0 ->
  agree eq
    (realtek_mst_i2c_spi_read (T := T) flash buf start len)
    (realtek_mst_i2c_spi_read (T := fail_dummy sel rd T) flash buf start len).
Proof.
  intros Hal. unfold realtek_mst_i2c_spi_read.
  rewrite Hal. cbn [Z.eqb negb].
  destruct (get_fd_from_context flash <? 0); [now apply agree_ret|].
  eapply agree_bind; [apply agree_or_into, agree_write_register|].
  intros ? ? <-.
  eapply agree_bind; [apply agree_or_into, agree_write_register|].
  intros ? ? <-.
  eapply agree_bind; [apply agree_or_into, agree_map_page|].
  intros ? ? <-.
  eapply agree_bind; [apply agree_or_into, agree_write_register|].
  intros ? ? <-.
  eapply agree_bind; [apply agree_or_into, agree_write_register|].
  intros ret ? <-.
  destruct (negb (ret =? 0)); [now apply agree_ret|].
  eapply agree_bind; [apply agree_wait_command_done; discriminate|].
  intros r ? <-.
  destruct (negb (r =? 0)); [now apply agree_ret|].
  eapply agree_bind; [apply agree_dummy_read|].
  intros _ _ _. apply agree_read_loop.
Qed.

(** The two transfers of the dummy read on the faulty bus: the select
    failed when [sel] is never 1, the read when [rd] is never 1. *)
Lemma dummy_read_events fd value (w : world (D * bool)) :
  exists s1 s2 data w1,
    realtek_mst_i2c_spi_read_register (T := fail_dummy sel rd T) fd
      MCU_DATA_PORT value w
    = Some ((read_register_status s1 s2, stored_byte data value), w1)
    /\ log w1 =
       log w ++ [Write REGISTER_ADDRESS [MCU_DATA_PORT] s1;
                 Read REGISTER_ADDRESS 1 data s2]
    /\ ((forall n, sel n <> 1) -> s1 = SPI_GENERIC_ERROR)
    /\ ((forall n, rd n <> 1) -> s2 = SPI_GENERIC_ERROR).
Proof.
  unfold realtek_mst_i2c_spi_read_register, bind,
    realtek_mst_i2c_spi_write_data, realtek_mst_i2c_spi_read_data.
  cbn [i2c_buffer_t_fill i2c_write i2c_read fail_dummy].
  change (uint16_t 1) with 1. change (uint8_t MCU_DATA_PORT) with 112.
  change (Z.to_nat 1) with 1%nat. cbn [firstn is_dummy_select].
  change (112 =? MCU_DATA_PORT) with true.
  destruct (negb (i2c_buffer_t_fill 1 =? 0)).
  - exists SPI_GENERIC_ERROR, SPI_GENERIC_ERROR, []. eexists.
    unfold Return, emit. cbn [dev log].
    split; [reflexivity|]. split; [|split; reflexivity].
    rewrite <- app_assoc. reflexivity.
  - destruct (dev w) as [d p].
    destruct (i2c_write fd REGISTER_ADDRESS [112] d) as [n d1].
    unfold emit. cbn [dev log].
    destruct (i2c_read fd REGISTER_ADDRESS 1 d1) as [[m data] d2].
    exists (if sel n =? 1 then 0 else SPI_GENERIC_ERROR),
      (if rd m =? 1 then 0 else SPI_GENERIC_ERROR), (firstn 1 data).
    eexists. unfold Return. cbn [dev log].
    split; [reflexivity|]. split; [|split].
    + rewrite <- app_assoc. reflexivity.
    + intros F. destruct (Z.eqb_spec (sel n) 1) as [e|_]; [|reflexivity].
      now apply F in e.
    + intros F. destruct (Z.eqb_spec (rd m) 1) as [e|_]; [|reflexivity].
      now apply F in e.
Qed.

(** With such a fault the dummy read reports failure. *)
Lemma dummy_read_fails fd value (w : world (D * bool)) :
  (forall n, sel n <> 1) \/ (forall n, rd n <> 1) ->
  exists b w1,
    realtek_mst_i2c_spi_read_register (T := fail_dummy sel rd T) fd
      MCU_DATA_PORT value w = Some ((SPI_GENERIC_ERROR, b), w1).
Proof.
  intros F.
  destruct (dummy_read_events fd value w)
    as (s1 & s2 & data & w1 & E & _ & F1 & F2).
  exists (stored_byte data value), w1. rewrite E. do 3 f_equal.
  unfold read_register_status.
  destruct (Z.eqb_spec (Z.lor s1 s2) 0) as [e|_]; [|reflexivity].
  apply lor_zero in e as [e1 e2].
  destruct F as [F|F]; [rewrite <- (F1 F)|rewrite <- (F2 F)]; congruence.
Qed.

End FaultFacts.

Section WriteFacts.

Context {H : spi_h} {OK : spi_h_ok H} {D : Type} {T : host D}.

Lemma generic_error_nonzero : SPI_GENERIC_ERROR <> 0.
Proof. pose proof generic_error_negative. lia. Qed.

Lemma polling_not_page_traffic (evs : list event) :
  forallb polling evs = true -> filter page_traffic evs = [].
Proof.
  induction evs as [|e evs IH]; [reflexivity|].
  cbn [forallb filter]. rewrite andb_true_iff. intros [Pe P].
  rewrite (IH P).
  destruct e as [a [|b [|c l]] s|a n data s]; cbn in *;
    try reflexivity; discriminate.
Qed.

Lemma write_page_run fd reg buf len w :
  0 <= len <= PAGE_SIZE ->
  exists s w1,
    realtek_mst_i2c_spi_write_page fd reg buf len w = Some (s, w1)
    /\ log w1 =
       log w
       ++ [Write REGISTER_ADDRESS
             (MCU_DATA_PORT :: firstn (Z.to_nat len) buf) s]
    /\ (s = 0 \/ s = SPI_GENERIC_ERROR).
Proof.
  intros Hl. unfold PAGE_SIZE in Hl. unfold realtek_mst_i2c_spi_write_page.
  destruct (Z.gtb_spec len PAGE_SIZE) as [Hgt|_];
    [unfold PAGE_SIZE in Hgt; lia|].
  destruct (write_data_run fd REGISTER_ADDRESS
              (MCU_DATA_PORT :: firstn (Z.to_nat len) buf) (len + 1) w)
    as (s & w1 & E & L & Hs).
  exists s, w1. split; [exact E|]. split; [|exact Hs].
  rewrite L. do 3 f_equal.
  rewrite uint16_t_small by lia.
  replace (Z.to_nat (len + 1)) with (S (Z.to_nat len)) by lia.
  cbn [firstn]. f_equal. rewrite firstn_firstn. f_equal. lia.
Qed.

Lemma execute_write_run fd w :
  exists s r w1 evs,
    realtek_mst_i2c_execute_write fd w = Some (Z.lor s r, w1)
    /\ log w1 =
       log w ++ Write REGISTER_ADDRESS [MCU_MODE; START_WRITE_XFER] s :: evs
    /\ forallb polling evs = true.
Proof.
  unfold realtek_mst_i2c_execute_write.
  destruct (write_register_run fd MCU_MODE START_WRITE_XFER w)
    as (s & w1 & E1 & L1 & _).
  rewrite (bind_run _ _ _ _ _ E1).
  destruct (wait_command_done_run fd MCU_MODE WRITE_XFER_STATUS_MASK 0 1 w1)
    as (r & w2 & evs & E2 & L2 & P2).
  rewrite (bind_run _ _ _ _ _ (or_into_run _ _ _ _ _ E2)).
  exists s, r, w2, evs. split; [reflexivity|]. split; [|exact P2].
  rewrite L2, L1, <- app_assoc. reflexivity.
Qed.

(** One turn of the chunk loop of the bulk write that ends well: what it
    sends to the page-size register and to the data port. *)
Lemma write_256_loop_step fuel fd buf start len i ret w w' :
  0 <= i < len -> len <= 2 ^ 32 - PAGE_SIZE ->
  len <= Z.of_nat (length buf) ->
  write_256_loop (S fuel) fd buf start len i ret w = Some (0, w') ->
  ret = 0
  /\ exists w1 evs,
       write_256_loop fuel fd buf start len (i + PAGE_SIZE) 0 w1
       = Some (0, w')
       /\ log w1 = log w ++ evs
       /\ filter page_traffic evs
          = (if len - i <? PAGE_SIZE
             then [Write REGISTER_ADDRESS [0x71; uint8_t (len - i - 1)] 0]
             else [])
            ++ [Write REGISTER_ADDRESS
                  (MCU_DATA_PORT
                   :: bytes_at buf i (min (len - i) PAGE_SIZE)) 0].
Proof.
  intros Hi Hlen Hbuf Hrun. unfold PAGE_SIZE in Hlen.
  pose proof generic_error_nonzero as Hge.
  cbn [write_256_loop] in Hrun.
  destruct (Z.ltb_spec i len) as [_|]; [|lia]. cbn [negb] in Hrun.
  rewrite (unsigned_small (len - i)) in Hrun by lia.
  rewrite (unsigned_small (i + PAGE_SIZE)) in Hrun
    by (unfold PAGE_SIZE; lia).
  assert (Hmin : 1 <= min (len - i) PAGE_SIZE <= 256).
  { unfold min, PAGE_SIZE. destruct (Z.ltb_spec (len - i) 256); lia. }
  rewrite (uint16_t_small (min (len - i) PAGE_SIZE)) in Hrun by lia.
  (* the page-size register, for a short chunk *)
  assert (S0 : exists ret1 w1 evs0,
             (if len - i <? PAGE_SIZE
              then or_into ret
                     (realtek_mst_i2c_spi_write_register fd 0x71
                        (min (len - i) PAGE_SIZE - 1))
              else Return ret) w = Some (ret1, w1)
             /\ log w1 = log w ++ evs0
             /\ (ret1 = 0 ->
                 ret = 0
                 /\ evs0 = if len - i <? PAGE_SIZE
                           then [Write REGISTER_ADDRESS
                                   [0x71; uint8_t (len - i - 1)] 0]
                           else [])).
  { destruct (Z.ltb_spec (len - i) PAGE_SIZE) as [Hs|Hs].
    - destruct (write_register_run fd 0x71 (min (len - i) PAGE_SIZE - 1) w)
        as (s & w1 & E & L & _).
      exists (Z.lor ret s), w1, [Write REGISTER_ADDRESS
                                   [0x71; uint8_t (len - i - 1)] s].
      split; [now apply or_into_run|]. split.
      + rewrite L. unfold min. apply Z.ltb_lt in Hs. rewrite Hs.
        reflexivity.
      + intros Hz. apply lor_zero in Hz as [-> ->]. auto.
    - exists ret, w, []. split; [reflexivity|].
      split; [now rewrite app_nil_r|auto]. }
  destruct S0 as (ret1 & w1 & evs0 & E0 & L0 & Z0).
  rewrite (bind_run _ _ _ _ _ E0) in Hrun.
  (* the page window *)
  destruct (map_page_run fd
              (uint8_t (Z.shiftr (unsigned (start + i)) 16))
              (uint8_t (Z.shiftr (unsigned (start + i)) 8)) 0 w1)
    as (m1 & m2 & m3 & w2 & E1 & L1).
  rewrite (bind_run _ _ _ _ _ (or_into_run _ _ _ _ _ E1)) in Hrun.
  match type of Hrun with
  | context [negb (?r =? 0)] => destruct (Z.eqb_spec r 0) as [R1|R1]
  end; cbn [negb] in Hrun;
    [|exfalso; injection Hrun as Hr _; now apply R1].
  rewrite R1 in Hrun. apply lor_zero in R1 as [R1 _].
  destruct (Z0 R1) as [Hret Hevs0].
  (* wait for the empty buffer *)
  destruct (wait_command_done_run fd MCU_MODE 0x10 0x10 1 w2)
    as (r & w3 & pevs & E2 & L2 & P2).
  rewrite (bind_run _ _ _ _ _ (or_into_run _ _ _ _ _ E2)) in Hrun.
  destruct (Z.eqb_spec (Z.lor 0 r) 0) as [R2|R2]; cbn [negb] in Hrun;
    [|exfalso; injection Hrun as Hr _; now apply R2].
  rewrite R2 in Hrun.
  (* the chunk *)
  destruct (write_page_run fd MCU_DATA_PORT (skipn (Z.to_nat i) buf)
              (min (len - i) PAGE_SIZE) w3 ltac:(unfold PAGE_SIZE in *; lia))
    as (sp & w4 & E3 & L3 & _).
  rewrite (bind_run _ _ _ _ _ (or_into_run _ _ _ _ _ E3)) in Hrun.
  destruct (Z.eqb_spec (Z.lor 0 sp) 0) as [R3|R3]; cbn [negb] in Hrun;
    [|exfalso; injection Hrun as Hr _; now apply R3].
  rewrite R3 in Hrun. apply lor_zero in R3 as [_ ->].
  (* execute *)
  destruct (execute_write_run fd w4) as (sx & rx & w5 & xevs & E4 & L4 & P4).
  rewrite (bind_run _ _ _ _ _ (or_into_run _ _ _ _ _ E4)) in Hrun.
  destruct (Z.eqb_spec (Z.lor 0 (Z.lor sx rx)) 0) as [R4|R4];
    cbn [negb] in Hrun;
    [|exfalso; injection Hrun as Hr _; now apply R4].
  rewrite R4 in Hrun.
  split; [exact Hret|].
  eexists w5, _. split; [exact Hrun|]. split.
  - rewrite L4, L3, L2, L1, L0, <- !app_assoc. reflexivity.
  - rewrite !filter_app, (polling_not_page_traffic _ P2), Hevs0.
    cbn [app].
    assert (Hchunk : exists b rest,
               firstn (Z.to_nat (min (len - i) PAGE_SIZE))
                 (skipn (Z.to_nat i) buf) = b :: rest).
    { destruct (skipn (Z.to_nat i) buf) as [|b l] eqn:Es.
      - apply (f_equal (@length Z)) in Es. rewrite length_skipn in Es.
        cbn in Es. lia.
      - replace (Z.to_nat (min (len - i) PAGE_SIZE))
          with (S (Z.to_nat (min (len - i) PAGE_SIZE - 1))) by lia.
        cbn [firstn]. eauto. }
    destruct Hchunk as (b & rest & Hchunk).
    unfold bytes_at. rewrite Hchunk.
    cbn [filter page_traffic].
    change (MCU_DATA_PORT =? MCU_DATA_PORT) with true. cbn [orb].
    rewrite (polling_not_page_traffic _ P4).
    destruct (len - i <? PAGE_SIZE); reflexivity.
Qed.

End WriteFacts.

(** C5. An aligned bulk write of 300 bytes that returns success (every
    transfer succeeded and every poll was satisfied) sends, to the
    page-size register and the data port, exactly this: [0x71 = 255], the
    first 256 bytes, [0x71 = 43], the last 44 bytes. *)
Theorem write_256_len_300 (H : spi_h) (OK : spi_h_ok H) (D : Type)
    (T : host D) (flash : option flashctx) (buf : list Z) (start : Z)
    (w w1 : world D) :
  Z.land start 0xff = 0 ->
  length buf = 300%nat ->
  realtek_mst_i2c_spi_write_256 flash buf start 300 w = Some (0, w1) ->
  exists evs,
    log w1 = log w ++ evs
    /\ filter page_traffic evs
       = [Write REGISTER_ADDRESS [0x71; 255] 0;
          Write REGISTER_ADDRESS (MCU_DATA_PORT :: firstn 256 buf) 0;
          Write REGISTER_ADDRESS [0x71; 43] 0;
          Write REGISTER_ADDRESS (MCU_DATA_PORT :: skipn 256 buf) 0]
    /\ length (firstn 256 buf) = 256%nat
    /\ length (skipn 256 buf) = 44%nat.
Proof.
  intros Hal Hbuf Hrun.
  pose proof generic_error_nonzero as Hge.
  unfold realtek_mst_i2c_spi_write_256 in Hrun.
  rewrite Hal in Hrun. cbn [Z.eqb negb] in Hrun.
  destruct (get_fd_from_context flash <? 0);
    [exfalso; injection Hrun as Hr _; now apply Hge|].
  set (fd := get_fd_from_context flash) in *.
  destruct (disable_protection_run fd w)
    as (s1 & s2 & s3 & r1 & r1' & d1 & s4 & s5 & s6 & s7 & r2 & r2' & d2
        & s8 & w2 & E0 & L0).
  cbv zeta in E0, L0.
  rewrite (bind_run _ _ _ _ _ E0) in Hrun.
  match type of Hrun with
  | context [negb (?r =? 0)] => destruct (Z.eqb_spec r 0) as [R0|R0]
  end; cbn [negb] in Hrun;
    [|exfalso; injection Hrun as Hr _; now apply R0].
  rewrite R0 in Hrun.
  destruct (write_register_run fd 0x6D 0x02 w2) as (a1 & w3 & E1 & L1 & _).
  rewrite (bind_run _ _ _ _ _ (or_into_run _ _ _ _ _ E1)) in Hrun.
  destruct (write_register_run fd 0x71 (PAGE_SIZE - 1) w3)
    as (a2 & w4 & E2 & L2 & _).
  rewrite (bind_run _ _ _ _ _ (or_into_run _ _ _ _ _ E2)) in Hrun.
  change (Z.to_nat (300 / PAGE_SIZE + 1)) with 2%nat in Hrun.
  apply write_256_loop_step in Hrun as (Hret & w5 & evs1 & Hrun & L3 & F1);
    [|lia|unfold PAGE_SIZE; lia|lia].
  apply lor_zero in Hret as [Ha1 ->]. apply lor_zero in Ha1 as [_ ->].
  change (0 + PAGE_SIZE) with 256 in Hrun.
  apply write_256_loop_step in Hrun as (_ & w6 & evs2 & Hrun & L4 & F2);
    [|lia|unfold PAGE_SIZE; lia|lia].
  cbn in Hrun. injection Hrun as ->.
  eexists. split; [|split; [|split]].
  - rewrite L4, L3, L2, L1, L0, <- !app_assoc. reflexivity.
  - rewrite !filter_app, F1, F2.
    assert (L44 : length (skipn 256 buf) = 44%nat)
      by (rewrite length_skipn; lia).
    unfold bytes_at.
    change (Z.to_nat (min (300 - 256) PAGE_SIZE)) with 44%nat.
    change (Z.to_nat 256) with 256%nat.
    rewrite (firstn_all2 (n := 44) (skipn 256 buf)) by lia.
    reflexivity.
  - rewrite length_firstn. lia.
  - rewrite length_skipn. lia.
Qed.

Lemma write_256_len_300_witness :
  Z.land 0x100 0xff = 0
  /\ length (map Z.of_nat (seq 0 300)) = 300%nat
  /\ exists w1,
       realtek_mst_i2c_spi_write_256 (H := flashrom_spi_h)
         (T := steady_bus 0x10) (flash_with_fd 3) (map Z.of_nat (seq 0 300))
         0x100 300 (start_world tt) = Some (0, w1)
       /\ exists evs,
            log w1 = [] ++ evs
            /\ filter page_traffic evs
               = [Write REGISTER_ADDRESS [0x71; 255] 0;
                  Write REGISTER_ADDRESS
                    (MCU_DATA_PORT
                     :: firstn 256 (map Z.of_nat (seq 0 300))) 0;
                  Write REGISTER_ADDRESS [0x71; 43] 0;
                  Write REGISTER_ADDRESS
                    (MCU_DATA_PORT
                     :: skipn 256 (map Z.of_nat (seq 0 300))) 0]
            /\ length (firstn 256 (map Z.of_nat (seq 0 300))) = 256%nat
            /\ length (skipn 256 (map Z.of_nat (seq 0 300))) = 44%nat.
Proof.
  split; [reflexivity|]. split; [reflexivity|].
  eexists. split; [vm_compute; reflexivity|].
  apply (write_256_len_300 flashrom_spi_h flashrom_spi_h_ok unit
           (steady_bus 0x10) (flash_with_fd 3) (map Z.of_nat (seq 0 300))
           0x100 (start_world tt)).
  - reflexivity.
  - reflexivity.
  - vm_compute. reflexivity.
Defined.

(** * Further properties of the driver *)

Section PollerFacts.

Context {H : spi_h} {OK : spi_h_ok H} {D : Type} {T : host D}.

Lemma read_register_status_zero (s1 s2 : Z) :
  read_register_status s1 s2 = 0 -> s1 = 0 /\ s2 = 0.
Proof.
  unfold read_register_status.
  destruct (Z.eqb_spec (Z.lor s1 s2) 0) as [e|_].
  - intros _. now apply lor_zero.
  - intros e. now apply generic_error_nonzero in e.
Qed.

(** The loop of the poller, started with [ret = 0]: it ends with a register
    read, and every register read before that one succeeded. *)
Lemma wait_command_done_loop_shape fd offset mask target multiplier :
  forall fuel tried val w,
    1 <= Z.of_nat fuel ->
    MAX_SPI_WAIT_RETRIES * multiplier - tried <= Z.of_nat fuel ->
    exists tried' val' w1 pre s1 s2 data,
      wait_command_done_loop fuel fd offset mask target multiplier
        tried 0 val w
      = Some ((tried', read_register_status s1 s2, val'), w1)
      /\ log w1 =
         log w ++ pre
         ++ [Write REGISTER_ADDRESS [uint8_t offset] s1;
             Read REGISTER_ADDRESS 1 data s2]
      /\ forallb succeeded pre = true
      /\ Z.of_nat (read_attempts pre) + 1
         <= Z.max 1 (MAX_SPI_WAIT_RETRIES * multiplier - tried).
Proof.
  induction fuel as [|fuel IH]; intros tried val w Hf1 Hf; [lia|].
  cbn [wait_command_done_loop].
  destruct (read_register_run fd offset val w)
    as (s1 & s2 & data & w1 & E & L).
  rewrite (bind_run _ _ _ _ _ E). cbv beta iota. rewrite Z.lor_0_l.
  destruct (Z.eqb_spec (read_register_status s1 s2) 0) as [Hz|Hnz];
    cbn [andb].
  - destruct (negb (Z.land (stored_byte data val) mask =? target)).
    + destruct (tried + 1 <? MAX_SPI_WAIT_RETRIES * multiplier) eqn:Hlt.
      * apply Z.ltb_lt in Hlt. rewrite Hz.
        destruct (IH (tried + 1) (stored_byte data val) w1)
          as (tried' & val' & w2 & pre & t1 & t2 & data' & E2 & L2 & P2
              & C2); [lia | lia |].
        apply read_register_status_zero in Hz as [-> ->].
        exists tried', val', w2,
          (Write REGISTER_ADDRESS [uint8_t offset] 0
           :: Read REGISTER_ADDRESS 1 data 0 :: pre), t1, t2, data'.
        split; [exact E2|]. split; [|split].
        -- rewrite L2, L, <- !app_assoc. reflexivity.
        -- cbn [forallb]. rewrite P2. reflexivity.
        -- change (read_attempts (_ :: _ :: pre))
             with (S (read_attempts pre)). lia.
      * exists (tried + 1), (stored_byte data val), w1, [], s1, s2, data.
        split; [reflexivity|]. split; [exact L|].
        split; [reflexivity|]. cbn. lia.
    + exists tried, (stored_byte data val), w1, [], s1, s2, data.
      split; [reflexivity|]. split; [exact L|].
      split; [reflexivity|]. cbn. lia.
  - exists tried, (stored_byte data val), w1, [], s1, s2, data.
    split; [reflexivity|]. split; [exact L|].
    split; [reflexivity|]. cbn. lia.
Qed.

Lemma wait_command_done_shape fd offset mask target multiplier w :
  exists r w1 pre s1 s2 data,
    realtek_mst_i2c_spi_wait_command_done fd offset mask target multiplier w
    = Some (r, w1)
    /\ log w1 =
       log w ++ pre
       ++ [Write REGISTER_ADDRESS [uint8_t offset] s1;
           Read REGISTER_ADDRESS 1 data s2]
    /\ forallb succeeded pre = true
    /\ Z.of_nat (read_attempts pre) + 1
       <= Z.max 1 (MAX_SPI_WAIT_RETRIES * multiplier)
    /\ (r = 0 \/ r = - MAX_SPI_WAIT_RETRIES \/ r = SPI_GENERIC_ERROR)
    /\ (r = 0 -> s1 = 0 /\ s2 = 0).
Proof.
  unfold realtek_mst_i2c_spi_wait_command_done.
  destruct (wait_command_done_loop_shape fd offset mask target multiplier
              (Z.to_nat (Z.max 1 (MAX_SPI_WAIT_RETRIES * multiplier)))
              0 0 w)
    as (tried & val & w1 & pre & s1 & s2 & data & E & L & P & C);
    [lia | lia |].
  rewrite (bind_run _ _ _ _ _ E). cbv beta iota.
  rewrite Z.sub_0_r in C.
  destruct (tried =? MAX_SPI_WAIT_RETRIES).
  - exists (- MAX_SPI_WAIT_RETRIES), w1, pre, s1, s2, data.
    split; [reflexivity|]. repeat (split; [assumption|]).
    split; [auto|]. discriminate.
  - destruct (negb (Z.land val mask =? target)).
    + exists SPI_GENERIC_ERROR, w1, pre, s1, s2, data.
      split; [reflexivity|]. repeat (split; [assumption|]).
      split; [auto|]. intros e. now apply generic_error_nonzero in e.
    + exists (read_register_status s1 s2), w1, pre, s1, s2, data.
      split; [reflexivity|]. repeat (split; [assumption|]).
      split; [|apply read_register_status_zero].
      destruct (read_register_status_cases s1 s2) as [->| ->]; auto.
Qed.


End PollerFacts.






Section ModeFacts.

Context {H : spi_h} {D : Type} {T : host D}.

(** Setting bit 1 of a byte by [(val & 0xFD) | 0x02]. *)
Lemma bit_one_set (val : Z) :
  0 <= val < 256 ->
  uint8_t (Z.lor (Z.land val 0xFD) 0x02) = Z.lor val 2.
Proof.
  intros Hv.
  assert (All : forallb
                  (fun v => uint8_t (Z.lor (Z.land v 0xFD) 0x02)
                            =? Z.lor v 2)
                  (map Z.of_nat (seq 0 256)) = true)
    by (vm_compute; reflexivity).
  rewrite forallb_forall in All. apply Z.eqb_eq, All.
  apply in_map_iff. exists (Z.to_nat val). split; [lia|].
  apply in_seq. lia.
Qed.

Lemma reset_mpu_run fd w :
  exists s1 s2 data s3 w1,
    realtek_mst_i2c_spi_reset_mpu fd w
    = Some (Z.lor (Z.lor 0 (read_register_status s1 s2)) s3, w1)
    /\ log w1 =
       log w
       ++ [Write REGISTER_ADDRESS [0xEE] s1;
           Read REGISTER_ADDRESS 1 data s2;
           Write REGISTER_ADDRESS [0xEE; Z.lor (stored_byte data 0) 2] s3].
Proof.
  unfold realtek_mst_i2c_spi_reset_mpu.
  destruct (read_register_run fd 0xEE 0 w)
    as (s1 & s2 & data & w1 & E1 & L1).
  rewrite (bind_run _ _ _ _ _ E1). cbv beta iota.
  destruct (write_register_run fd 0xEE
              (Z.lor (Z.land (stored_byte data 0) 0xFD) 0x02) w1)
    as (s3 & w2 & E2 & L2 & _).
  rewrite (bind_run _ _ _ _ _ (or_into_run _ _ _ _ _ E2)).
  exists s1, s2, data, s3, w2. split; [reflexivity|].
  rewrite L2, L1, <- app_assoc.
  rewrite bit_one_set by (apply stored_byte_range; lia).
  reflexivity.
Qed.

Lemma enter_isp_mode_run fd w :
  exists s1 s2 s3 s4 s5 w1,
    realtek_mst_i2c_spi_enter_isp_mode fd w
    = Some (fold_left Z.lor [s2; s3; s4; s5] s1, w1)
    /\ log w1 =
       log w
       ++ [Write REGISTER_ADDRESS [MCU_MODE; ENTER_ISP_MODE] s1;
           Write REGISTER_ADDRESS [0xF4; 0x9F] s2;
           Write REGISTER_ADDRESS [0xF5; 0x06] s3;
           Write REGISTER_ADDRESS [0xF4; 0xA0] s4;
           Write REGISTER_ADDRESS [0xF5; 0x74] s5].
Proof.
  unfold realtek_mst_i2c_spi_enter_isp_mode.
  destruct (write_register_run fd MCU_MODE ENTER_ISP_MODE w)
    as (s1 & w1 & E1 & L1 & _).
  rewrite (bind_run _ _ _ _ _ E1).
  destruct (write_register_run fd 0xF4 0x9F w1) as (s2 & w2 & E2 & L2 & _).
  rewrite (bind_run _ _ _ _ _ (or_into_run _ _ _ _ _ E2)).
  destruct (write_register_run fd 0xF5 0x06 w2) as (s3 & w3 & E3 & L3 & _).
  rewrite (bind_run _ _ _ _ _ (or_into_run _ _ _ _ _ E3)).
  destruct (write_register_run fd 0xF4 0xA0 w3) as (s4 & w4 & E4 & L4 & _).
  rewrite (bind_run _ _ _ _ _ (or_into_run _ _ _ _ _ E4)).
  destruct (write_register_run fd 0xF5 0x74 w4) as (s5 & w5 & E5 & L5 & _).
  rewrite (bind_run _ _ _ _ _ (or_into_run _ _ _ _ _ E5)).
  exists s1, s2, s3, s4, s5, w5. split; [reflexivity|].
  rewrite L5, L4, L3, L2, L1, <- !app_assoc. reflexivity.
Qed.

End ModeFacts.

(** X3. [reset_mpu] always makes three transfers: it selects and reads
    register [0xEE], then writes back to [0xEE] the value read with bit 1
    set and every other bit as it was read (0 with bit 1 set when the read
    stored nothing). The write is made even when the read failed, and the
    result is the OR of the two step statuses. *)
Theorem reset_mpu_sequence (H : spi_h) (D : Type) (T : host D) (fd : Z)
    (w : world D) :
  exists s1 s2 data s3 w1 written,
    realtek_mst_i2c_spi_reset_mpu fd w
    = Some (Z.lor (read_register_status s1 s2) s3, w1)
    /\ log w1 =
       log w
       ++ [Write REGISTER_ADDRESS [0xEE] s1;
           Read REGISTER_ADDRESS 1 data s2;
           Write REGISTER_ADDRESS [0xEE; written] s3]
    /\ Z.testbit written 1 = true
    /\ (forall i, i <> 1 ->
          Z.testbit written i = Z.testbit (stored_byte data 0) i).
Proof.
  destruct (reset_mpu_run fd w) as (s1 & s2 & data & s3 & w1 & E & L).
  exists s1, s2, data, s3, w1, (Z.lor (stored_byte data 0) 2).
  rewrite Z.lor_0_l in E. split; [exact E|]. split; [exact L|]. split.
  - rewrite Z.lor_spec. change (Z.testbit 2 1) with true. apply orb_true_r.
  - intros i Hi. rewrite Z.lor_spec.
    assert (Z.testbit 2 i = false) as ->; [|apply orb_false_r].
    destruct i as [|p|p]; [reflexivity| |reflexivity].
    destruct p as [p|p|]; try reflexivity. congruence.
Qed.

(** X4. [enter_isp_mode] always makes its five register writes, in order:
    [0x6F=0x80], then the oscillator divider [0xF4=0x9F], [0xF5=0x06],
    [0xF4=0xA0], [0xF5=0x74]. No failure stops the sequence, and the result
    is 0 exactly when all five succeeded. *)
Theorem enter_isp_mode_sequence (H : spi_h) (D : Type) (T : host D)
    (fd : Z) (w : world D) :
  exists r w1 evs,
    realtek_mst_i2c_spi_enter_isp_mode fd w = Some (r, w1)
    /\ log w1 = log w ++ evs
    /\ map sent evs
       = [Some [MCU_MODE; ENTER_ISP_MODE]; Some [0xF4; 0x9F];
          Some [0xF5; 0x06]; Some [0xF4; 0xA0]; Some [0xF5; 0x74]]
    /\ (r = 0 <-> forallb succeeded evs = true).
Proof.
  destruct (enter_isp_mode_run fd w)
    as (s1 & s2 & s3 & s4 & s5 & w1 & E & L).
  eexists _, w1, _. split; [exact E|]. split; [exact L|].
  split; [reflexivity|].
  cbn [fold_left forallb]. unfold succeeded. cbn [status_of].
  rewrite !lor_zero, !andb_true_iff, !Z.eqb_eq. intuition auto.
Qed.

(** X5. [map_page] always makes exactly three register writes, to the
    block, page and byte index registers in this order, each value reduced
    to eight bits; it returns 0 when all three succeeded and
    [SPI_GENERIC_ERROR] otherwise. *)
Theorem map_page_three_writes (H : spi_h) (D : Type) (T : host D)
    (fd block_idx page_idx byte_idx : Z) (w : world D) :
  exists w1 evs,
    realtek_mst_i2c_spi_map_page fd block_idx page_idx byte_idx w
    = Some ((if forallb succeeded evs then 0 else SPI_GENERIC_ERROR), w1)
    /\ log w1 = log w ++ evs
    /\ map sent evs
       = [Some [MAP_PAGE_BYTE2; block_idx mod 256];
          Some [MAP_PAGE_BYTE1; page_idx mod 256];
          Some [MAP_PAGE_BYTE0; byte_idx mod 256]]
    /\ forallb (fun e => negb (is_read e)) evs = true.
Proof.
  destruct (map_page_run fd block_idx page_idx byte_idx w)
    as (s1 & s2 & s3 & w1 & E & L).
  eexists w1, _. split; [|split; [exact L|split; reflexivity]].
  rewrite E. do 2 f_equal.
  cbn [forallb]. unfold succeeded. cbn [status_of]. rewrite Z.lor_0_l.
  destruct (Z.eqb_spec s1 0) as [->|N1];
    [destruct (Z.eqb_spec s2 0) as [->|N2];
     [destruct (Z.eqb_spec s3 0) as [->|N3]|]|]; cbn [andb].
  - reflexivity.
  - destruct (Z.eqb_spec (Z.lor (Z.lor 0 0) s3) 0) as [e|_];
      [|reflexivity].
    apply lor_zero in e as [_ e]. contradiction.
  - destruct (Z.eqb_spec (Z.lor (Z.lor 0 s2) s3) 0) as [e|_];
      [|reflexivity].
    apply lor_zero in e as [e _]. apply lor_zero in e as [_ e].
    contradiction.
  - destruct (Z.eqb_spec (Z.lor (Z.lor s1 s2) s3) 0) as [e|_];
      [|reflexivity].
    apply lor_zero in e as [e _]. apply lor_zero in e as [e _].
    contradiction.
Qed.

(** X6. [write_page] refuses a length above [PAGE_SIZE] with
    [SPI_GENERIC_ERROR] and no transfer. For a length from 0 to [PAGE_SIZE]
    it makes one transfer of [len + 1] bytes: the data-port register
    [0x70] followed by the first [len] bytes of the buffer. *)
Theorem write_page_one_transfer (H : spi_h) (D : Type) (T : host D)
    (fd reg : Z) (buf : list Z) (len : Z) (w : world D) :
  (PAGE_SIZE < len ->
   realtek_mst_i2c_spi_write_page fd reg buf len w
   = Some (SPI_GENERIC_ERROR, w))
  /\ (0 <= len <= PAGE_SIZE -> len <= Z.of_nat (length buf) ->
      exists s w1 data,
        realtek_mst_i2c_spi_write_page fd reg buf len w = Some (s, w1)
        /\ log w1 = log w ++ [Write REGISTER_ADDRESS data s]
        /\ data = MCU_DATA_PORT :: firstn (Z.to_nat len) buf
        /\ Z.of_nat (length data) = len + 1
        /\ (s = 0 \/ s = SPI_GENERIC_ERROR)).
Proof.
  split.
  - intros Hl. unfold realtek_mst_i2c_spi_write_page.
    destruct (Z.gtb_spec len PAGE_SIZE); [reflexivity|lia].
  - intros Hl Hb.
    destruct (write_page_run fd reg buf len w Hl) as (s & w1 & E & L & Hs).
    eexists s, w1, _. split; [exact E|]. split; [exact L|].
    split; [reflexivity|]. split; [|exact Hs].
    cbn [length]. rewrite length_firstn. lia.
Qed.

Lemma write_page_one_transfer_witness :
  (PAGE_SIZE < 257
   /\ realtek_mst_i2c_spi_write_page (H := flashrom_spi_h)
        (T := steady_bus 0x10) 3 MCU_DATA_PORT (repeat 1 257) 257
        (start_world tt)
      = Some (-1, start_world tt))
  /\ (0 <= 2 <= PAGE_SIZE /\ 2 <= Z.of_nat (length [5; 6; 7])
      /\ exists s w1 data,
           realtek_mst_i2c_spi_write_page (H := flashrom_spi_h)
             (T := steady_bus 0x10) 3 MCU_DATA_PORT [5; 6; 7] 2
             (start_world tt) = Some (s, w1)
           /\ log w1 = [] ++ [Write REGISTER_ADDRESS data s]
           /\ data = MCU_DATA_PORT :: firstn (Z.to_nat 2) [5; 6; 7]
           /\ Z.of_nat (length data) = 2 + 1
           /\ (s = 0 \/ s = -1)).
Proof.
  split.
  - split; [reflexivity|].
    apply (proj1 (write_page_one_transfer flashrom_spi_h unit
                    (steady_bus 0x10) 3 MCU_DATA_PORT (repeat 1 257) 257
                    (start_world tt))).
    reflexivity.
  - split; [unfold PAGE_SIZE; lia|]. split; [cbn; lia|].
    apply (proj2 (write_page_one_transfer flashrom_spi_h unit
                    (steady_bus 0x10) 3 MCU_DATA_PORT [5; 6; 7] 2
                    (start_world tt))).
    + unfold PAGE_SIZE. lia.
    + cbn. lia.
Defined.

Section EmulatorFacts.

Context {H : spi_h} {OK : spi_h_ok H} {D : Type} {T : host D}.

(** The three outcomes of the [switch] for an opcode that is forwarded. *)
Lemma opcode_switch_category (opcode c m : Z) :
  (opcode = JEDEC_WRSR ->
   opcode_switch opcode c m = SwitchBreak (Z.lor (Z.lor c 32) 64) m)
  /\ (In opcode [JEDEC_CE_60; JEDEC_BE_52; JEDEC_BE_D8; JEDEC_BE_D7;
                 JEDEC_SE] ->
      opcode_switch opcode c m = SwitchBreak (Z.lor (Z.lor c 32) 128) m)
  /\ (~ In opcode [JEDEC_WREN; JEDEC_WRSR; JEDEC_CE_C7; JEDEC_CE_60;
                   JEDEC_BE_52; JEDEC_BE_D8; JEDEC_BE_D7; JEDEC_SE] ->
      opcode_switch opcode c m = SwitchBreak (Z.lor c 64) m).
Proof.
  pose proof case_labels_distinct as ND.
  repeat match goal with
         | N : NoDup (_ :: _) |- _ => inversion N; subst; clear N
         end.
  cbn [In] in *. unfold opcode_switch.
  repeat split; intros Hop;
    destruct (Z.eqb_spec opcode JEDEC_WREN);
    destruct (Z.eqb_spec opcode JEDEC_WRSR);
    destruct (Z.eqb_spec opcode JEDEC_CE_C7);
    destruct (Z.eqb_spec opcode JEDEC_CE_60);
    destruct (Z.eqb_spec opcode JEDEC_BE_52);
    destruct (Z.eqb_spec opcode JEDEC_BE_D8);
    destruct (Z.eqb_spec opcode JEDEC_BE_D7);
    destruct (Z.eqb_spec opcode JEDEC_SE);
    cbn [orb]; try reflexivity; exfalso; subst; intuition congruence.
Qed.

(** The tag bits and the start/end bit of the control word. *)
Lemma control_word_tag (writecnt readcnt ctrl tag : Z) :
  1 <= writecnt <= 4 -> 0 <= readcnt <= 3 ->
  let c := uint8_t (Z.lor (Z.shiftl (writecnt - 1) 3) (Z.shiftl readcnt 1)) in
  (ctrl = Z.lor (Z.lor c 32) 64 /\ tag = 0x60)
  \/ (ctrl = Z.lor (Z.lor c 32) 128 /\ tag = 0xA0)
  \/ (ctrl = Z.lor c 64 /\ tag = 0x40) ->
  Z.land (uint8_t ctrl) 1 = 0
  /\ uint8_t (Z.lor ctrl 1) = Z.lor (uint8_t ctrl) 1
  /\ Z.land (uint8_t ctrl) 0xE0 = tag.
Proof.
  intros Hw Hr c Hc.
  assert (Cw : writecnt = 1 \/ writecnt = 2 \/ writecnt = 3 \/ writecnt = 4)
    by lia.
  assert (Cr : readcnt = 0 \/ readcnt = 1 \/ readcnt = 2 \/ readcnt = 3)
    by lia.
  subst c.
  destruct Cw as [->|[->|[->| ->]]]; destruct Cr as [->|[->|[->| ->]]];
    destruct Hc as [[-> ->]|[[-> ->]|[-> ->]]];
    repeat split; reflexivity.
Qed.

End EmulatorFacts.

(** X7. In a command that [send_command] forwards, the control word
    written first to register [0x60] has the start/end bit clear and the
    opcode category in bits 5-7: 011 for write-status-register, 101 for
    the six erase opcodes, 010 for any other opcode. The word written to
    trigger execution is the same word with the start/end bit set. *)
Theorem send_command_opcode_tag (H : spi_h) (OK : spi_h_ok H) (D : Type)
    (T : host D) (flash : option flashctx) (writecnt readcnt : Z)
    (writearr readarr : list Z) (w : world D) :
  1 <= writecnt <= 4 -> 0 <= readcnt <= 3 ->
  0 <= get_fd_from_context flash ->
  nth 0 writearr 0 <> JEDEC_WREN ->
  exists out w1 v s0 mid st rest,
    realtek_mst_i2c_spi_send_command flash writecnt readcnt writearr
      readarr w = Some (out, w1)
    /\ log w1 =
       log w
       ++ Write REGISTER_ADDRESS [0x60; v] s0 :: mid
       ++ Write REGISTER_ADDRESS [0x60; Z.lor v 1] st :: rest
    /\ forallb polling rest = true
    /\ Z.land v 1 = 0
    /\ (nth 0 writearr 0 = JEDEC_WRSR -> Z.land v 0xE0 = 0x60)
    /\ (In (nth 0 writearr 0)
          [JEDEC_CE_C7; JEDEC_CE_60; JEDEC_BE_52; JEDEC_BE_D8; JEDEC_BE_D7;
           JEDEC_SE] -> Z.land v 0xE0 = 0xA0)
    /\ (~ In (nth 0 writearr 0)
            [JEDEC_WRSR; JEDEC_CE_C7; JEDEC_CE_60; JEDEC_BE_52;
             JEDEC_BE_D8; JEDEC_BE_D7; JEDEC_SE] -> Z.land v 0xE0 = 0x40).
Proof.
  intros Hw Hr Hfd Hop.
  set (op := nth 0 writearr 0) in *.
  set (c := uint8_t (Z.lor (Z.shiftl (writecnt - 1) 3)
                       (Z.shiftl readcnt 1))).
  destruct (opcode_switch_forwarded op c 1 Hop) as (ctrl & mul & Hsw & _).
  destruct (send_command_run flash writecnt readcnt writearr readarr w
              ctrl mul Hw Hr Hfd Hsw)
    as (out & w1 & stage & st & rest & E & L & _ & P & _ & s0 & Hhd).
  destruct stage as [|e mid]; [discriminate Hhd|].
  cbn [hd_error] in Hhd. injection Hhd as ->.
  destruct (opcode_switch_category op c 1) as (Cw & Ce & Cd).
  assert (Hc : exists tag,
             ((ctrl = Z.lor (Z.lor c 32) 64 /\ tag = 0x60)
              \/ (ctrl = Z.lor (Z.lor c 32) 128 /\ tag = 0xA0)
              \/ (ctrl = Z.lor c 64 /\ tag = 0x40))
             /\ (op = JEDEC_WRSR -> tag = 0x60)
             /\ (In op [JEDEC_CE_C7; JEDEC_CE_60; JEDEC_BE_52; JEDEC_BE_D8;
                        JEDEC_BE_D7; JEDEC_SE] -> tag = 0xA0)
             /\ (~ In op [JEDEC_WRSR; JEDEC_CE_C7; JEDEC_CE_60; JEDEC_BE_52;
                          JEDEC_BE_D8; JEDEC_BE_D7; JEDEC_SE] ->
                 tag = 0x40)).
  { pose proof case_labels_distinct as ND.
    repeat match goal with
           | N : NoDup (_ :: _) |- _ => inversion N; subst; clear N
           end.
    cbn [In] in *.
    destruct (Z.eq_dec op JEDEC_WRSR) as [e|ne].
    { rewrite (Cw e) in Hsw. injection Hsw as <- _.
      exists 0x60. split; [auto|]. rewrite e.
      repeat split; intros; try reflexivity; exfalso; intuition congruence. }
    destruct (Z.eq_dec op JEDEC_CE_C7) as [e|ne7].
    { rewrite e, opcode_switch_ce_c7 in Hsw. injection Hsw as <- _.
      exists 0xA0. split; [auto|]. rewrite e.
      repeat split; intros; try reflexivity; exfalso; intuition congruence. }
    destruct (in_dec Z.eq_dec op
                [JEDEC_CE_60; JEDEC_BE_52; JEDEC_BE_D8; JEDEC_BE_D7;
                 JEDEC_SE]) as [i|ni].
    { rewrite (Ce i) in Hsw. injection Hsw as <- _.
      exists 0xA0. split; [auto|]. cbn [In] in i.
      repeat split; intros; try reflexivity; exfalso; intuition congruence. }
    cbn [In] in ni.
    rewrite Cd in Hsw by (cbn [In]; intuition congruence).
    injection Hsw as <- _.
    exists 0x40. split; [auto|].
    repeat split; intros; try reflexivity; exfalso; intuition congruence. }
  destruct Hc as (tag & Hc & Tw & Te & Td).
  destruct (control_word_tag writecnt readcnt ctrl tag Hw Hr Hc)
    as (B0 & B1 & Bt).
  exists out, w1, (uint8_t ctrl), s0, mid, st, rest.
  split; [exact E|]. split; [|split; [exact P|]].
  - rewrite L, B1. reflexivity.
  - split; [exact B0|]. rewrite Bt. auto.
Qed.

Lemma send_command_opcode_tag_witness :
  1 <= 1 <= 4 /\ 0 <= 3 <= 3
  /\ 0 <= get_fd_from_context (H := flashrom_spi_h) (flash_with_fd 3)
  /\ nth 0 [0x9F] 0 <> (@JEDEC_WREN flashrom_spi_h)
  /\ exists out w1 v s0 mid st rest,
       realtek_mst_i2c_spi_send_command (H := flashrom_spi_h)
         (T := steady_bus 0x10) (flash_with_fd 3) 1 3 [0x9F] [0; 0; 0]
         (start_world tt) = Some (out, w1)
       /\ log w1 =
          [] ++ Write REGISTER_ADDRESS [0x60; v] s0 :: mid
          ++ Write REGISTER_ADDRESS [0x60; Z.lor v 1] st :: rest
       /\ forallb polling rest = true
       /\ Z.land v 1 = 0
       /\ (nth 0 [0x9F] 0 = (@JEDEC_WRSR flashrom_spi_h) ->
           Z.land v 0xE0 = 0x60)
       /\ (In (nth 0 [0x9F] 0)
             [(@JEDEC_CE_C7 flashrom_spi_h); (@JEDEC_CE_60 flashrom_spi_h);
              (@JEDEC_BE_52 flashrom_spi_h); (@JEDEC_BE_D8 flashrom_spi_h); (@JEDEC_BE_D7 flashrom_spi_h); (@JEDEC_SE flashrom_spi_h)] ->
           Z.land v 0xE0 = 0xA0)
       /\ (~ In (nth 0 [0x9F] 0)
               [(@JEDEC_WRSR flashrom_spi_h); (@JEDEC_CE_C7 flashrom_spi_h);
                (@JEDEC_CE_60 flashrom_spi_h); (@JEDEC_BE_52 flashrom_spi_h); (@JEDEC_BE_D8 flashrom_spi_h); (@JEDEC_BE_D7 flashrom_spi_h);
                (@JEDEC_SE flashrom_spi_h)] -> Z.land v 0xE0 = 0x40).
Proof.
  split; [lia|]. split; [lia|]. split; [cbn; lia|].
  split; [discriminate|].
  apply (send_command_opcode_tag flashrom_spi_h flashrom_spi_h_ok unit
           (steady_bus 0x10) (flash_with_fd 3) 1 3 [0x9F] [0; 0; 0]
           (start_world tt)).
  - lia.
  - lia.
  - cbn. lia.
  - discriminate.
Defined.

Section ReadbackFacts.

Context {H : spi_h} {OK : spi_h_ok H} {D : Type} {T : host D}.

Lemma store_length (buf : list Z) (k : nat) (b : Z) :
  (k < length buf)%nat -> length (store buf k [b]) = length buf.
Proof.
  intros Hk. unfold store.
  rewrite !length_app, length_firstn, length_skipn. cbn [length]. lia.
Qed.

Lemma store_firstn (buf : list Z) (k m : nat) (b : Z) :
  (k < length buf)%nat -> (m <= k)%nat ->
  firstn m (store buf k [b]) = firstn m buf.
Proof.
  intros Hk Hm. unfold store.
  rewrite firstn_app, length_firstn.
  replace (m - Nat.min k (length buf))%nat with 0%nat by lia.
  cbn [firstn]. rewrite app_nil_r, firstn_firstn. f_equal. lia.
Qed.

Lemma store_skipn (buf : list Z) (k m : nat) (b : Z) :
  (k < length buf)%nat -> (k < m)%nat ->
  skipn m (store buf k [b]) = skipn m buf.
Proof.
  intros Hk Hm. unfold store. cbn [length app].
  rewrite skipn_app, length_firstn.
  rewrite (skipn_all2 (firstn k buf)) by (rewrite length_firstn; lia).
  replace (m - Nat.min k (length buf))%nat with (S (m - S k)) by lia.
  cbn [app skipn]. rewrite skipn_skipn. f_equal. lia.
Qed.

Lemma store_nth (buf : list Z) (k : nat) (b d : Z) :
  (k < length buf)%nat -> nth k (store buf k [b]) d = b.
Proof.
  intros Hk. unfold store.
  rewrite app_nth2 by (rewrite length_firstn; lia).
  rewrite length_firstn.
  replace (k - Nat.min k (length buf))%nat with 0%nat by lia.
  reflexivity.
Qed.

Lemma nth_firstn_lt (l : list Z) (k m : nat) (d : Z) :
  (k < m)%nat -> nth k (firstn m l) d = nth k l d.
Proof.
  revert k m. induction l as [|a l IH]; intros k m Hk.
  - rewrite firstn_nil. reflexivity.
  - destruct m as [|m]; [lia|]. destruct k as [|k]; [reflexivity|].
    cbn [firstn nth]. apply IH. lia.
Qed.

Lemma nth_skipn_add (l : list Z) (k m : nat) (d : Z) :
  nth k (skipn m l) d = nth (m + k) l d.
Proof.
  revert l. induction m as [|m IH]; intros l; [reflexivity|].
  destruct l as [|a l]; [now destruct k|]. cbn [skipn Nat.add nth].
  apply IH.
Qed.

Lemma flat_map_map {A B C : Type} (f : B -> list C) (g : A -> B)
    (l : list A) :
  flat_map f (map g l) = flat_map (fun x => f (g x)) l.
Proof.
  induction l as [|a l IH]; [reflexivity|]. cbn. now rewrite IH.
Qed.

Lemma flat_map_ext_in {A B : Type} (f g : A -> list B) (l : list A) :
  (forall a, In a l -> f a = g a) -> flat_map f l = flat_map g l.
Proof.
  induction l as [|a l IH]; intros Hfg; [reflexivity|].
  cbn [flat_map]. rewrite (Hfg a) by now left.
  rewrite IH; [reflexivity|]. intros b Hb. apply Hfg. now right.
Qed.

(** The read-back loop in detail: which registers it reads, what it leaves
    in [readarr], and which part of [readarr] it does not touch. *)
Lemma readback_loop_detail fd :
  forall n i ret readarr w,
    0 <= i ->
    (Z.to_nat i + n <= length readarr)%nat ->
    exists ret' ra w1 evs,
      for_upto n i
        (fun i '(ret, readarr) =>
           '(r, b) <- realtek_mst_i2c_spi_read_register fd (0x67 + i)
                        (nth (Z.to_nat i) readarr 0) ;;
           Return (Z.lor ret r, store readarr (Z.to_nat i) [b]))
        (ret, readarr) w
      = Some ((ret', ra), w1)
      /\ log w1 = log w ++ evs
      /\ map sent evs
         = flat_map
             (fun k => [Some [uint8_t (0x67 + (i + Z.of_nat k))]; None])
             (seq 0 n)
      /\ (ret' = 0 <-> ret = 0 /\ forallb succeeded evs = true)
      /\ length ra = length readarr
      /\ firstn (Z.to_nat i) ra = firstn (Z.to_nat i) readarr
      /\ skipn (Z.to_nat i + n) ra = skipn (Z.to_nat i + n) readarr
      /\ (forall k, (k < n)%nat ->
            nth (Z.to_nat i + k) ra 0
            = stored_byte (delivered (nth (2 * k + 1) evs (Write 0 [] 0)))
                (nth (Z.to_nat i + k) readarr 0)).
Proof.
  induction n as [|n IH]; intros i ret readarr w Hi Hlen.
  - exists ret, readarr, w, []. cbn [for_upto].
    split; [reflexivity|]. split; [now rewrite app_nil_r|].
    split; [reflexivity|]. split; [cbn; tauto|].
    split; [reflexivity|]. split; [reflexivity|].
    split; [reflexivity|]. intros k Hk. lia.
  - cbn [for_upto].
    destruct (read_register_run fd (0x67 + i) (nth (Z.to_nat i) readarr 0) w)
      as (s1 & s2 & data & w1 & E & L).
    rewrite (bind_run _ _ _ _ _ (bind_run _ _ _ _ _ E)).
    cbv beta iota. unfold Return at 1.
    set (b := stored_byte data (nth (Z.to_nat i) readarr 0)).
    assert (Hk : (Z.to_nat i < length readarr)%nat) by lia.
    destruct (IH (i + 1) (Z.lor ret (read_register_status s1 s2))
                (store readarr (Z.to_nat i) [b]) w1)
      as (ret' & ra & w2 & evs & E2 & L2 & S2 & Z2 & Len & Fi & Sk & Nt);
      [lia | rewrite store_length by exact Hk; lia |].
    replace (Z.to_nat (i + 1)) with (S (Z.to_nat i)) in * by lia.
    rewrite store_length in Len by exact Hk.
    exists ret', ra, w2,
      (Write REGISTER_ADDRESS [uint8_t (0x67 + i)] s1
       :: Read REGISTER_ADDRESS 1 data s2 :: evs).
    split; [exact E2|]. split; [|split; [|split; [|split; [exact Len|]]]].
    + rewrite L2, L, <- app_assoc. reflexivity.
    + cbn [map sent seq flat_map app]. change (Z.of_nat 0) with 0.
      rewrite Z.add_0_r. do 2 f_equal.
      rewrite S2, <- seq_shift, flat_map_map.
      apply flat_map_ext. intros k.
      replace (i + 1 + Z.of_nat k) with (i + Z.of_nat (S k)) by lia.
      reflexivity.
    + rewrite Z2, lor_zero. cbn [forallb]. unfold succeeded.
      cbn [status_of]. rewrite !andb_true_iff, !Z.eqb_eq.
      split.
      * intros [[Hr Hs] Hf]. apply read_register_status_zero in Hs.
        tauto.
      * intros [Hr [Hs1 [Hs2 Hf]]]. subst s1 s2.
        unfold read_register_status. cbn. tauto.
    + split; [|split].
      * apply (f_equal (firstn (Z.to_nat i))) in Fi.
        rewrite !firstn_firstn in Fi.
        replace (Nat.min (Z.to_nat i) (S (Z.to_nat i)))
          with (Z.to_nat i) in Fi by lia.
        rewrite Fi. apply store_firstn; lia.
      * replace (Z.to_nat i + S n)%nat with (S (Z.to_nat i) + n)%nat by lia.
        rewrite Sk. apply store_skipn; lia.
      * intros [|k] Hlt.
        -- rewrite Nat.add_0_r. cbn [Nat.mul Nat.add nth delivered].
           fold b.
           rewrite <- (nth_firstn_lt ra (Z.to_nat i) (S (Z.to_nat i)))
             by lia.
           rewrite Fi, nth_firstn_lt by lia.
           now apply store_nth.
        -- replace (Z.to_nat i + S k)%nat with (S (Z.to_nat i) + k)%nat
             by lia.
           rewrite Nt by lia.
           replace (2 * S k + 1)%nat with (S (S (2 * k + 1))) by lia.
           cbn [nth]. f_equal.
           rewrite <- !nth_skipn_add.
           rewrite store_skipn by lia. reflexivity.
Qed.

End ReadbackFacts.

(** X8. When [send_command] forwards a command and returns 0, every
    transfer it made succeeded; after the [writecnt + 2] staging and
    trigger writes it polled at least once, and then it read the response registers
    [0x67], [0x68], ... once each, in order, exactly [readcnt] of them.
    Byte [k] of [readarr] is what the [k]-th of these reads stored, and
    [readarr] is not touched from index [readcnt] on. *)
Theorem send_command_success (H : spi_h) (OK : spi_h_ok H) (D : Type)
    (T : host D) (flash : option flashctx) (writecnt readcnt : Z)
    (writearr readarr ra : list Z) (w w1 : world D) :
  1 <= writecnt <= 4 -> 0 <= readcnt <= 3 ->
  0 <= get_fd_from_context flash ->
  nth 0 writearr 0 <> JEDEC_WREN ->
  (Z.to_nat readcnt <= length readarr)%nat ->
  realtek_mst_i2c_spi_send_command flash writecnt readcnt writearr readarr w
  = Some ((0, ra), w1) ->
  exists stage polls reads,
    log w1 = log w ++ stage ++ polls ++ reads
    /\ length stage = (Z.to_nat writecnt + 2)%nat
    /\ forallb (fun e => negb (is_read e)) stage = true
    /\ forallb polling polls = true
    /\ (1 <= read_attempts polls)%nat
    /\ forallb succeeded (stage ++ polls ++ reads) = true
    /\ map sent reads
       = flat_map (fun k => [Some [0x67 + Z.of_nat k]; None])
           (seq 0 (Z.to_nat readcnt))
    /\ length ra = length readarr
    /\ skipn (Z.to_nat readcnt) ra = skipn (Z.to_nat readcnt) readarr
    /\ (forall k, (k < Z.to_nat readcnt)%nat ->
          nth k ra 0
          = stored_byte (delivered (nth (2 * k + 1) reads (Write 0 [] 0)))
              (nth k readarr 0)).
Proof.
  intros Hw Hr Hfd Hop Hlen Hrun.
  destruct (opcode_switch_forwarded (nth 0 writearr 0)
              (uint8_t (Z.lor (Z.shiftl (writecnt - 1) 3)
                          (Z.shiftl readcnt 1))) 1 Hop)
    as (ctrl & mul & Hsw & _).
  unfold realtek_mst_i2c_spi_send_command in Hrun.
  rewrite (counts_accepted _ _ Hw Hr) in Hrun.
  destruct (Z.ltb_spec (get_fd_from_context flash) 0) as [|_]; [lia|].
  rewrite (unsigned_small (writecnt - 1)) in Hrun by lia.
  rewrite Hsw in Hrun.
  set (fd := get_fd_from_context flash) in *.
  destruct (write_register_run fd 0x60 ctrl w) as (s0 & w0 & E0 & L0 & _).
  rewrite (bind_run _ _ _ _ _ (or_into_run 0 _ _ _ _ E0)) in Hrun.
  destruct (write_register_run fd 0x61 (nth 0 writearr 0) w0)
    as (s1 & w2 & E1 & L1 & _).
  rewrite (bind_run _ _ _ _ _ (or_into_run _ _ _ _ _ E1)) in Hrun.
  destruct (stage_loop_run fd writearr (Z.to_nat (writecnt - 1)) 0
              (Z.lor (Z.lor 0 s0) s1) w2)
    as (ret2 & w3 & devs & E2 & L2 & S2 & Z2).
  rewrite (bind_run _ _ _ _ _ E2) in Hrun.
  destruct (write_register_run fd 0x60 (Z.lor ctrl 1) w3)
    as (st & w4 & E3 & L3 & _).
  rewrite (bind_run _ _ _ _ _ (or_into_run _ _ _ _ _ E3)) in Hrun.
  destruct (Z.eqb_spec (Z.lor ret2 st) 0) as [R3|R3]; cbn [negb] in Hrun;
    [|exfalso; injection Hrun as Hr0 _ _; now apply R3].
  apply lor_zero in R3 as [R2 ->]. apply Z2 in R2 as [R1 Sd].
  apply lor_zero in R1 as [R0 ->]. apply lor_zero in R0 as [_ ->].
  destruct (wait_command_done_shape fd 0x60 0x01 0 mul w4)
    as (r & w5 & pre & p1 & p2 & pdata & E4 & L4 & P4 & _ & _ & Z4).
  destruct (wait_command_done_run fd 0x60 0x01 0 mul w4)
    as (r' & w5' & pevs & E4' & L4' & Pol).
  rewrite E4 in E4'. injection E4' as <- <-.
  rewrite L4 in L4'. apply app_inv_head in L4'. rewrite <- L4' in Pol.
  rewrite (bind_run _ _ _ _ _ E4) in Hrun.
  destruct (Z.eqb_spec r 0) as [R4|R4]; cbn [negb] in Hrun;
    [|exfalso; injection Hrun as Hr0 _ _; now apply R4].
  destruct (Z4 R4) as [-> ->].
  destruct (readback_loop_detail fd (Z.to_nat readcnt) 0 r readarr w5
              ltac:(lia) ltac:(cbn; lia))
    as (ret' & ra' & w6 & revs & E5 & L5 & S5 & Z5 & Len & _ & Sk & Nt).
  rewrite E5 in Hrun. injection Hrun as -> -> ->.
  assert (Sr : forallb succeeded revs = true) by now apply Z5.
  exists (Write REGISTER_ADDRESS [uint8_t 0x60; uint8_t ctrl] 0
          :: Write REGISTER_ADDRESS
               [uint8_t 0x61; uint8_t (nth 0 writearr 0)] 0
          :: devs
          ++ [Write REGISTER_ADDRESS
                [uint8_t 0x60; uint8_t (Z.lor ctrl 1)] 0]),
    (pre ++ [Write REGISTER_ADDRESS [uint8_t 0x60] 0;
             Read REGISTER_ADDRESS 1 pdata 0]), revs.
  split; [|split; [|split; [|split; [exact Pol|split; [|split;
    [|split; [|split; [exact Len|split; [exact Sk|exact Nt]]]]]]]]].
  - rewrite L5, L4, L3, L2, L1, L0. cbn [app].
    rewrite <- !app_assoc. reflexivity.
  - cbn [length]. rewrite length_app. cbn [length].
    apply (f_equal (@length _)) in S2.
    rewrite !length_map, length_seq in S2. lia.
  - cbn [forallb is_read negb andb]. rewrite forallb_app.
    cbn [forallb is_read negb andb]. rewrite andb_true_r.
    apply forallb_forall. intros e Hin.
    apply (in_map sent) in Hin. rewrite S2 in Hin.
    apply in_map_iff in Hin as (k & Hk & _).
    destruct e; [reflexivity|discriminate Hk].
  - rewrite read_attempts_app. change (read_attempts [_; _]) with 1%nat.
    lia.
  - cbn [app forallb]. rewrite !forallb_app. cbn [forallb].
    rewrite Sd, P4, Sr. reflexivity.
  - rewrite S5. apply flat_map_ext_in. intros k Hk.
    apply in_seq in Hk. rewrite Z.add_0_l.
    now rewrite uint8_t_small by lia.
Qed.

Lemma send_command_success_witness :
  1 <= 1 <= 4 /\ 0 <= 3 <= 3
  /\ 0 <= get_fd_from_context (H := flashrom_spi_h) (flash_with_fd 3)
  /\ nth 0 [0x9F] 0 <> @JEDEC_WREN flashrom_spi_h
  /\ (Z.to_nat 3 <= length [0; 0; 0; 5])%nat
  /\ exists ra w1,
       realtek_mst_i2c_spi_send_command (H := flashrom_spi_h)
         (T := steady_bus 0x10) (flash_with_fd 3) 1 3 [0x9F] [0; 0; 0; 5]
         (start_world tt) = Some ((0, ra), w1)
       /\ exists stage polls reads,
            log w1 = [] ++ stage ++ polls ++ reads
            /\ length stage = (Z.to_nat 1 + 2)%nat
            /\ forallb (fun e => negb (is_read e)) stage = true
            /\ forallb polling polls = true
            /\ (1 <= read_attempts polls)%nat
            /\ forallb succeeded (stage ++ polls ++ reads) = true
            /\ map sent reads
               = flat_map (fun k => [Some [0x67 + Z.of_nat k]; None])
                   (seq 0 (Z.to_nat 3))
            /\ length ra = length [0; 0; 0; 5]
            /\ skipn (Z.to_nat 3) ra = skipn (Z.to_nat 3) [0; 0; 0; 5]
            /\ (forall k, (k < Z.to_nat 3)%nat ->
                  nth k ra 0
                  = stored_byte
                      (delivered (nth (2 * k + 1) reads (Write 0 [] 0)))
                      (nth k [0; 0; 0; 5] 0)).
Proof.
  split; [lia|]. split; [lia|]. split; [cbn; lia|].
  split; [discriminate|]. split; [cbn; lia|].
  eexists _, _. split; [vm_compute; reflexivity|].
  apply (send_command_success flashrom_spi_h flashrom_spi_h_ok unit
           (steady_bus 0x10) (flash_with_fd 3) 1 3 [0x9F] [0; 0; 0; 5] _
           (start_world tt) _).
  - lia.
  - lia.
  - cbn. lia.
  - discriminate.
  - cbn. lia.
  - vm_compute. reflexivity.
Defined.

(** X9. A flash context without master, without master data, or with a
    negative descriptor never reaches the bus: [send_command] (with
    accepted counts) and the bulk read and write (with an aligned start)
    return [SPI_GENERIC_ERROR] and leave the world, log included, and the
    buffers as they were. *)
Theorem no_descriptor_no_traffic (H : spi_h) (OK : spi_h_ok H) (D : Type)
    (T : host D) (flash : option flashctx) (w : world D) :
  match flash with
  | Some {| mst := Some {| spi_data := Some data |} |} => fd data < 0
  | _ => True
  end ->
  (forall writecnt readcnt writearr readarr,
     1 <= writecnt <= 4 -> 0 <= readcnt <= 3 ->
     realtek_mst_i2c_spi_send_command flash writecnt readcnt writearr
       readarr w = Some ((SPI_GENERIC_ERROR, readarr), w))
  /\ (forall buf start len,
        Z.land start 0xff = 0 ->
        realtek_mst_i2c_spi_read flash buf start len w
        = Some ((SPI_GENERIC_ERROR, buf), w)
        /\ realtek_mst_i2c_spi_write_256 flash buf start len w
           = Some (SPI_GENERIC_ERROR, w)).
Proof.
  intros Hflash.
  assert (Hfd : get_fd_from_context flash < 0).
  { pose proof generic_error_negative.
    destruct flash as [[[[[data|]]|]]|]; cbn; auto. }
  split.
  - intros. now apply send_command_no_descriptor.
  - intros buf start len Hal. apply Z.ltb_lt in Hfd.
    unfold realtek_mst_i2c_spi_read, realtek_mst_i2c_spi_write_256.
    rewrite Hal, Hfd. split; reflexivity.
Qed.

Lemma no_descriptor_no_traffic_witness :
  (forall writecnt readcnt writearr readarr,
     1 <= writecnt <= 4 -> 0 <= readcnt <= 3 ->
     realtek_mst_i2c_spi_send_command (H := flashrom_spi_h)
       (T := steady_bus 0x10) (Some {| mst := None |}) writecnt readcnt
       writearr readarr (start_world tt)
     = Some ((-1, readarr), start_world tt))
  /\ (forall buf start len,
        Z.land start 0xff = 0 ->
        realtek_mst_i2c_spi_read (H := flashrom_spi_h)
          (T := steady_bus 0x10) (Some {| mst := None |}) buf start len
          (start_world tt)
        = Some ((-1, buf), start_world tt)
        /\ realtek_mst_i2c_spi_write_256 (H := flashrom_spi_h)
             (T := steady_bus 0x10) (Some {| mst := None |}) buf start len
             (start_world tt)
           = Some (-1, start_world tt)).
Proof.
  apply (no_descriptor_no_traffic flashrom_spi_h flashrom_spi_h_ok unit
           (steady_bus 0x10) (Some {| mst := None |}) (start_world tt)).
  exact I.
Defined.

Section ReadShape.

Context {H : spi_h} {OK : spi_h_ok H} {D : Type} {T : host D}.

Lemma store_full_chunk (buf data : list Z) (k : nat) :
  (k + length data <= length buf)%nat ->
  length (store buf k data) = length buf
  /\ firstn (k + length data) (store buf k data) = firstn k buf ++ data
  /\ (forall m, (k + length data <= m)%nat ->
        skipn m (store buf k data) = skipn m buf).
Proof.
  intros Hk. unfold store. split; [|split].
  - rewrite !length_app, length_firstn, length_skipn. lia.
  - rewrite app_assoc.
    rewrite firstn_app, firstn_all2
      by (rewrite length_app, length_firstn; lia).
    rewrite length_app, length_firstn.
    replace (k + length data - (Nat.min k (length buf) + length data))%nat
      with 0%nat by lia.
    cbn [firstn]. now rewrite app_nil_r.
  - intros m Hm. rewrite app_assoc, skipn_app.
    rewrite skipn_all2 by (rewrite length_app, length_firstn; lia).
    rewrite length_app, length_firstn, skipn_skipn. cbn [app].
    f_equal. lia.
Qed.

Lemma read_loop_done fuel fd len i ret buf (w : world D) :
  len <= i -> read_loop fuel fd len i ret buf w = Some ((ret, buf), w).
Proof.
  intros Hi. destruct fuel; cbn [read_loop];
    destruct (Z.ltb_spec i len); try lia; reflexivity.
Qed.

(** The chunk loop of the bulk read, started with [ret = 0]. *)
Lemma read_loop_shape fd len :
  len <= 2 ^ 32 - PAGE_SIZE ->
  forall fuel i buf w,
    0 <= i ->
    len - i <= PAGE_SIZE * Z.of_nat fuel ->
    exists r buf' w1 evs,
      read_loop fuel fd len i 0 buf w = Some ((r, buf'), w1)
      /\ log w1 = log w ++ evs
      /\ forallb is_read evs = true
      /\ forallb (fun e => (1 <=? read_len e) && (read_len e <=? PAGE_SIZE))
           evs = true
      /\ forallb succeeded (removelast evs) = true
      /\ (r = 0 <-> forallb succeeded evs = true)
      /\ (r = 0 ->
          total_read evs = Z.max 0 (len - i)
          /\ Z.of_nat (length evs)
             = (Z.max 0 (len - i) + (PAGE_SIZE - 1)) / PAGE_SIZE)
      /\ (r = 0 -> forallb in_full evs = true ->
          (Z.to_nat i <= length buf)%nat -> len <= Z.of_nat (length buf) ->
          buf' = firstn (Z.to_nat i) buf ++ concat (map delivered evs)
                 ++ skipn (Z.to_nat (Z.max i len)) buf).
Proof.
  intros Hlen. unfold PAGE_SIZE in *.
  induction fuel as [|fuel IH]; intros i buf w Hi Hf; cbn [read_loop];
    unfold PAGE_SIZE.
  - destruct (Z.ltb_spec i len) as [Hlt|Hge]; [lia|]. cbn [negb].
    exists 0, buf, w, []. split; [reflexivity|].
    split; [now rewrite app_nil_r|]. repeat (split; [reflexivity|]).
    split; [tauto|]. split.
    + intros _. unfold total_read. cbn.
      rewrite Z.max_l by lia. split; reflexivity.
    + intros _ _ _ _. cbn [map concat app].
      rewrite Z.max_l by lia. now rewrite firstn_skipn.
  - destruct (Z.ltb_spec i len) as [Hlt|Hge]; cbn [negb].
    + rewrite (unsigned_small (len - i)) by lia.
      rewrite (unsigned_small (i + 256)) by lia.
      set (c := min (len - i) 256).
      assert (Hc : 1 <= c <= 256
                   /\ (c = 256 /\ 256 <= len - i
                       \/ c = len - i /\ c < 256)).
      { unfold c, min. destruct (Z.ltb_spec (len - i) 256); lia. }
      destruct (read_data_run fd REGISTER_ADDRESS c w)
        as (s & data & w1 & E & L & _).
      rewrite (uint16_t_small c) in L by lia.
      rewrite (bind_run _ _ _ _ _ E). cbv beta iota. rewrite Z.lor_0_l.
      destruct (Z.eqb_spec s 0) as [->|Hs]; cbn [negb].
      * destruct (IH (i + 256) (store buf (Z.to_nat i) data) w1)
          as (r & buf' & w2 & evs & E2 & L2 & Rd & Ln & Rl & Sr & Tot & Bf);
          [lia | lia |].
        exists r, buf', w2, (Read REGISTER_ADDRESS c data 0 :: evs).
        split; [exact E2|]. split; [|split; [|split; [|split; [|split;
          [|split]]]]].
        -- rewrite L2, L, <- app_assoc. reflexivity.
        -- cbn [forallb is_read]. exact Rd.
        -- cbn [forallb read_len]. rewrite Ln.
           destruct (Z.leb_spec 1 c); [|lia].
           destruct (Z.leb_spec c 256); [reflexivity|lia].
        -- destruct evs as [|e evs]; [reflexivity|].
           cbn [removelast forallb] in *. exact Rl.
        -- cbn [forallb]. rewrite Sr. unfold succeeded at 2.
           cbn [status_of Z.eqb andb]. tauto.
        -- intros Hr. destruct (Tot Hr) as [Ts Tc]. split.
           ++ unfold total_read in *. cbn [map fold_right read_len].
              rewrite Ts. lia.
           ++ cbn [length]. rewrite Nat2Z.inj_succ, Tc.
              change (256 - 1) with 255.
              rewrite (Z.max_r 0 (len - i)) by lia.
              destruct (proj2 Hc) as [[C256 Cge]|[Cl C256]].
              ** rewrite Z.max_r by lia.
                 Z.to_euclidean_division_equations. lia.
              ** rewrite Z.max_l by lia.
                 Z.to_euclidean_division_equations. lia.
        -- intros Hr Hfull Hib Hlb. cbn [forallb] in Hfull.
           apply andb_true_iff in Hfull as [Hfe Hfull].
           unfold in_full in Hfe. cbn [delivered read_len] in Hfe.
           apply Z.eqb_eq in Hfe.
           destruct (store_full_chunk buf data (Z.to_nat i)) as (SL & SF & SS);
             [lia|].
           cbn [map concat delivered].
           destruct (proj2 Hc) as [[C256 Cge]|[Cl C256]].
           ++ rewrite (Bf Hr Hfull) by lia.
              replace (Z.to_nat (i + 256))
                with (Z.to_nat i + length data)%nat by lia.
              rewrite SF, SS by lia.
              rewrite <- !app_assoc. do 3 f_equal. f_equal. lia.
           ++ rewrite read_loop_done in E2 by lia.
              injection E2 as _ <- <-.
              rewrite <- (app_nil_r (log w1)) in L2 at 1.
              apply app_inv_head in L2. subst evs.
              cbn [map concat]. rewrite app_nil_r. unfold store.
              do 3 f_equal. lia.
      * exists s, (store buf (Z.to_nat i) data), w1,
          [Read REGISTER_ADDRESS c data s].
        split; [reflexivity|]. split; [exact L|]. split; [reflexivity|].
        split.
        { cbn [forallb read_len].
          destruct (Z.leb_spec 1 c); [|lia].
          destruct (Z.leb_spec c 256); [reflexivity|lia]. }
        split; [reflexivity|]. cbn [forallb]. unfold succeeded.
        cbn [status_of]. apply Z.eqb_neq in Hs as Hsb. rewrite Hsb.
        cbn [andb]. repeat split; intros; try discriminate; contradiction.
    + exists 0, buf, w, []. split; [reflexivity|].
      split; [now rewrite app_nil_r|]. repeat (split; [reflexivity|]).
      split; [tauto|]. split.
      * intros _. unfold total_read. cbn.
        rewrite Z.max_l by lia. split; reflexivity.
      * intros _ _ _ _. cbn [map concat app].
        rewrite Z.max_l by lia. now rewrite firstn_skipn.
Qed.

End ReadShape.

Section ReadCases.

Context {H : spi_h} {OK : spi_h_ok H} {D : Type} {T : host D}.

(** The three ways an aligned bulk read with a usable descriptor runs:
    the set-up fails; or the poll does not end well; or the dummy read and
    the chunk loop are reached. In the last case the two events after the
    polls are those of the register read of the data port. *)
Lemma read_cases_run flash buf start len w :
  Z.land start 0xff = 0 ->
  0 <= get_fd_from_context flash ->
  0 <= len <= 2 ^ 32 - PAGE_SIZE ->
  exists r buf' w1 setup tail,
    realtek_mst_i2c_spi_read flash buf start len w = Some ((r, buf'), w1)
    /\ log w1 = log w ++ setup ++ tail
    /\ map sent setup
       = [Some [0x60; 0x46]; Some [0x61; OPCODE_READ];
          Some [MAP_PAGE_BYTE2;
                uint8_t (Z.shiftr ((start - 1) mod 2 ^ 32) 16)];
          Some [MAP_PAGE_BYTE1;
                uint8_t (Z.shiftr ((start - 1) mod 2 ^ 32) 8)];
          Some [MAP_PAGE_BYTE0; uint8_t ((start - 1) mod 2 ^ 32)];
          Some [0x6a; 0x03]; Some [0x60; 0x47]]
    /\ ((forallb succeeded setup = false
         /\ tail = [] /\ r <> 0 /\ buf' = buf)
        \/ (forallb succeeded setup = true
            /\ forallb polling tail = true
            /\ (1 <= read_attempts tail)%nat
            /\ r <> 0 /\ buf' = buf)
        \/ (forallb succeeded setup = true
            /\ exists polls d1 dd d2 chunks,
                 tail = polls
                        ++ Write REGISTER_ADDRESS [MCU_DATA_PORT] d1
                        :: Read REGISTER_ADDRESS 1 dd d2 :: chunks
                 /\ forallb polling polls = true
                 /\ forallb succeeded polls = true
                 /\ (1 <= read_attempts polls)%nat
                 /\ forallb is_read chunks = true
                 /\ forallb
                      (fun e => (1 <=? read_len e)
                                && (read_len e <=? PAGE_SIZE)) chunks = true
                 /\ forallb succeeded (removelast chunks) = true
                 /\ (r = 0 <-> forallb succeeded chunks = true)
                 /\ (r = 0 ->
                     total_read chunks = len
                     /\ Z.of_nat (length chunks)
                        = (len + (PAGE_SIZE - 1)) / PAGE_SIZE)
                 /\ (r = 0 -> forallb in_full chunks = true ->
                     len <= Z.of_nat (length buf) ->
                     buf' = concat (map delivered chunks)
                            ++ skipn (Z.to_nat len) buf)
                 /\ exists w6 w7,
                      realtek_mst_i2c_spi_read_register
                        (get_fd_from_context flash) MCU_DATA_PORT 0 w6
                      = Some ((read_register_status d1 d2,
                               stored_byte dd 0), w7)
                      /\ log w7 =
                         log w6
                         ++ [Write REGISTER_ADDRESS [MCU_DATA_PORT] d1;
                             Read REGISTER_ADDRESS 1 dd d2])).
Proof.
  intros Hal Hfd Hlen.
  pose proof generic_error_nonzero as Hge.
  unfold realtek_mst_i2c_spi_read.
  rewrite Hal. cbn [Z.eqb negb].
  destruct (Z.ltb_spec (get_fd_from_context flash) 0) as [|_]; [lia|].
  set (fd := get_fd_from_context flash).
  destruct (write_register_run fd 0x60 0x46 w) as (s1 & w1 & E1 & L1 & _).
  rewrite (bind_run _ _ _ _ _ (or_into_run _ _ _ _ _ E1)).
  destruct (write_register_run fd 0x61 OPCODE_READ w1)
    as (s2 & w2 & E2 & L2 & _).
  rewrite (bind_run _ _ _ _ _ (or_into_run _ _ _ _ _ E2)).
  destruct (map_page_run fd
              (uint8_t (Z.shiftr (unsigned (start - 1)) 16))
              (uint8_t (Z.shiftr (unsigned (start - 1)) 8))
              (uint8_t (unsigned (start - 1))) w2)
    as (s3 & s4 & s5 & w3 & E3 & L3).
  rewrite (bind_run _ _ _ _ _ (or_into_run _ _ _ _ _ E3)).
  destruct (write_register_run fd 0x6a 0x03 w3) as (s6 & w4 & E4 & L4 & _).
  rewrite (bind_run _ _ _ _ _ (or_into_run _ _ _ _ _ E4)).
  destruct (write_register_run fd 0x60 0x47 w4) as (s7 & w5 & E5 & L5 & _).
  rewrite (bind_run _ _ _ _ _ (or_into_run _ _ _ _ _ E5)).
  set (setup :=
         [Write REGISTER_ADDRESS [uint8_t 0x60; uint8_t 0x46] s1;
          Write REGISTER_ADDRESS [uint8_t 0x61; uint8_t OPCODE_READ] s2;
          Write REGISTER_ADDRESS
            [uint8_t MAP_PAGE_BYTE2;
             uint8_t (uint8_t (Z.shiftr (unsigned (start - 1)) 16))] s3;
          Write REGISTER_ADDRESS
            [uint8_t MAP_PAGE_BYTE1;
             uint8_t (uint8_t (Z.shiftr (unsigned (start - 1)) 8))] s4;
          Write REGISTER_ADDRESS
            [uint8_t MAP_PAGE_BYTE0;
             uint8_t (uint8_t (unsigned (start - 1)))] s5;
          Write REGISTER_ADDRESS [uint8_t 0x6a; uint8_t 0x03] s6;
          Write REGISTER_ADDRESS [uint8_t 0x60; uint8_t 0x47] s7]).
  assert (L : log w5 = log w ++ setup).
  { rewrite L5, L4, L3, L2, L1, <- !app_assoc. reflexivity. }
  assert (S : map sent setup
              = [Some [0x60; 0x46]; Some [0x61; OPCODE_READ];
                 Some [MAP_PAGE_BYTE2;
                       uint8_t (Z.shiftr ((start - 1) mod 2 ^ 32) 16)];
                 Some [MAP_PAGE_BYTE1;
                       uint8_t (Z.shiftr ((start - 1) mod 2 ^ 32) 8)];
                 Some [MAP_PAGE_BYTE0; uint8_t ((start - 1) mod 2 ^ 32)];
                 Some [0x6a; 0x03]; Some [0x60; 0x47]]).
  { unfold setup, unsigned, uint8_t. cbn [map sent].
    rewrite !Z.mod_mod by lia. reflexivity. }
  match goal with
  | |- context [negb (?r =? 0)] => set (ret := r)
  end.
  assert (Zr : ret = 0 <-> forallb succeeded setup = true).
  { unfold ret, setup. cbn [forallb]. unfold succeeded. cbn [status_of].
    rewrite !lor_zero, !andb_true_iff, !Z.eqb_eq.
    destruct (Z.eqb_spec (Z.lor (Z.lor (Z.lor 0 s3) s4) s5) 0) as [e|ne].
    - apply lor_zero in e as [e ->]. apply lor_zero in e as [e ->].
      apply lor_zero in e as [_ ->]. intuition auto.
    - split; [intros [[[[_ _] X] _] _]; contradiction|].
      intros (_ & _ & -> & -> & -> & _). exfalso. now apply ne. }
  destruct (Z.eqb_spec ret 0) as [R|R]; cbn [negb].
  2:{ exists ret, buf, w5, setup, [].
      split; [reflexivity|]. split; [now rewrite app_nil_r|].
      split; [exact S|]. left.
      split; [|auto].
      destruct (forallb succeeded setup); [|reflexivity].
      exfalso. now apply R, Zr. }
  apply Zr in R as Hs.
  destruct (wait_command_done_shape fd 0x60 0x01 0 1 w5)
    as (r & w6 & pre & p1 & p2 & pdata & E6 & L6 & P6 & _ & _ & Z6).
  destruct (wait_command_done_run fd 0x60 0x01 0 1 w5)
    as (r' & w6' & pevs & E6' & L6' & Pol).
  rewrite E6 in E6'. injection E6' as <- <-.
  rewrite L6 in L6'. apply app_inv_head in L6'.
  rewrite (bind_run _ _ _ _ _ E6).
  assert (Cp : (1 <= read_attempts pevs)%nat).
  { rewrite <- L6', read_attempts_app.
    change (read_attempts [_; _]) with 1%nat. lia. }
  destruct (Z.eqb_spec r 0) as [R6|R6]; cbn [negb].
  2:{ exists r, buf, w6, setup, pevs.
      split; [reflexivity|]. split; [|split; [exact S|]].
      - rewrite L6, L, L6', <- app_assoc. reflexivity.
      - right. left. auto. }
  destruct (Z6 R6) as [-> ->].
  destruct (read_register_run fd MCU_DATA_PORT 0 w6)
    as (d1 & d2 & dd & w7 & E7 & L7).
  rewrite (bind_run _ _ _ _ _ E7). rewrite R6.
  destruct (read_loop_shape fd len ltac:(lia)
              (Z.to_nat (len / PAGE_SIZE + 1)) 0 buf w7 ltac:(lia))
    as (rr & buf' & w8 & chunks & E8 & L8 & Rd & Ln & Rl & Sr & Tot & Bf).
  { rewrite Z.sub_0_r. apply fuel_for_pages. lia. }
  rewrite Z.sub_0_r, Z.max_r in Tot by lia.
  exists rr, buf', w8, setup,
    (pevs ++ Write REGISTER_ADDRESS [MCU_DATA_PORT] d1
          :: Read REGISTER_ADDRESS 1 dd d2 :: chunks).
  split; [exact E8|]. split; [|split; [exact S|]].
  - rewrite L8, L7, L6, L, L6', <- !app_assoc. reflexivity.
  - right. right. split; [exact Hs|].
    exists pevs, d1, dd, d2, chunks.
    split; [reflexivity|]. split; [exact Pol|]. split.
    { rewrite <- L6', forallb_app, P6. reflexivity. }
    split; [exact Cp|]. split; [exact Rd|]. split; [exact Ln|].
    split; [exact Rl|]. split; [exact Sr|]. split; [exact Tot|].
    split; [|exists w6, w7; split; [exact E7|exact L7]].
    intros Hr Hfull Hlb.
    rewrite (Bf Hr Hfull) by (cbn; lia).
    rewrite Z.max_r by lia. reflexivity.
Qed.

Lemma read_cases flash buf start len w :
  Z.land start 0xff = 0 ->
  0 <= get_fd_from_context flash ->
  0 <= len <= 2 ^ 32 - PAGE_SIZE ->
  exists r buf' w1 setup tail,
    realtek_mst_i2c_spi_read flash buf start len w = Some ((r, buf'), w1)
    /\ log w1 = log w ++ setup ++ tail
    /\ map sent setup
       = [Some [0x60; 0x46]; Some [0x61; OPCODE_READ];
          Some [MAP_PAGE_BYTE2;
                uint8_t (Z.shiftr ((start - 1) mod 2 ^ 32) 16)];
          Some [MAP_PAGE_BYTE1;
                uint8_t (Z.shiftr ((start - 1) mod 2 ^ 32) 8)];
          Some [MAP_PAGE_BYTE0; uint8_t ((start - 1) mod 2 ^ 32)];
          Some [0x6a; 0x03]; Some [0x60; 0x47]]
    /\ ((forallb succeeded setup = false
         /\ tail = [] /\ r <> 0 /\ buf' = buf)
        \/ (forallb succeeded setup = true
            /\ forallb polling tail = true
            /\ (1 <= read_attempts tail)%nat
            /\ r <> 0 /\ buf' = buf)
        \/ (forallb succeeded setup = true
            /\ exists polls d1 dd d2 chunks,
                 tail = polls
                        ++ Write REGISTER_ADDRESS [MCU_DATA_PORT] d1
                        :: Read REGISTER_ADDRESS 1 dd d2 :: chunks
                 /\ forallb polling polls = true
                 /\ forallb succeeded polls = true
                 /\ (1 <= read_attempts polls)%nat
                 /\ forallb is_read chunks = true
                 /\ forallb
                      (fun e => (1 <=? read_len e)
                                && (read_len e <=? PAGE_SIZE)) chunks = true
                 /\ forallb succeeded (removelast chunks) = true
                 /\ (r = 0 <-> forallb succeeded chunks = true)
                 /\ (r = 0 ->
                     total_read chunks = len
                     /\ Z.of_nat (length chunks)
                        = (len + (PAGE_SIZE - 1)) / PAGE_SIZE)
                 /\ (r = 0 -> forallb in_full chunks = true ->
                     len <= Z.of_nat (length buf) ->
                     buf' = concat (map delivered chunks)
                            ++ skipn (Z.to_nat len) buf))).
Proof.
  intros Hal Hfd Hlen.
  destruct (read_cases_run flash buf start len w Hal Hfd Hlen)
    as (r & buf' & w1 & setup & tail & E & L & S & C).
  exists r, buf', w1, setup, tail.
  split; [exact E|]. split; [exact L|]. split; [exact S|].
  destruct C as [C|[C|(Hs & polls & d1 & dd & d2 & chunks & C)]];
    [now left|right; now left|].
  right. right. split; [exact Hs|]. exists polls, d1, dd, d2, chunks.
  destruct C as (c1 & c2 & c3 & c4 & c5 & c6 & c7 & c8 & c9 & c10 & _).
  exact (conj c1 (conj c2 (conj c3 (conj c4 (conj c5 (conj c6 (conj c7
           (conj c8 (conj c9 c10))))))))).
Qed.

End ReadCases.

(** C10. The status of the dummy read of the data-port register is
    discarded by the bulk read. On the bus [fail_dummy sel rd T], where the
    select of that register read, the read itself, or both report failure
    and everything else goes as on [T]: the register read returns
    [SPI_GENERIC_ERROR]; an aligned bulk read still returns the status and
    the buffer it returns on [T]; and whenever its set-up and its poll went
    through, its log shows, right after them, the select of [0x70] and the
    one-byte read with the failure the fault gives them, followed by the
    chunk reads, and the status returned is 0 exactly when every chunk read
    succeeded. So the call returns success with the dummy read failed. *)
Theorem read_discards_dummy_status (H : spi_h) (D : Type) (T : host D)
    (sel rd : Z -> Z) (flash : option flashctx) (buf : list Z)
    (start len : Z) (w : world D) :
  Z.land start 0xff = 0 ->
  (forall n, sel n <> 1) \/ (forall n, rd n <> 1) ->
  outcome (realtek_mst_i2c_spi_read (T := fail_dummy sel rd T) flash buf
             start len (inject w))
  = outcome (realtek_mst_i2c_spi_read (T := T) flash buf start len w)
  /\ (forall fd value (w' : world (D * bool)),
        exists b w1,
          realtek_mst_i2c_spi_read_register (T := fail_dummy sel rd T) fd
            MCU_DATA_PORT value w' = Some ((SPI_GENERIC_ERROR, b), w1))
  /\ (spi_h_ok H -> 0 <= get_fd_from_context flash ->
      0 <= len <= 2 ^ 32 - PAGE_SIZE ->
      exists r buf' w1 setup polls rest,
        realtek_mst_i2c_spi_read (T := fail_dummy sel rd T) flash buf start
          len (inject w) = Some ((r, buf'), w1)
        /\ log w1 = log w ++ setup ++ polls ++ rest
        /\ length setup = 7%nat
        /\ forallb polling polls = true
        /\ ((r <> 0 /\ rest = [])
            \/ (forallb succeeded (setup ++ polls) = true
                /\ exists s1 dd s2 chunks,
                     rest = Write REGISTER_ADDRESS [MCU_DATA_PORT] s1
                            :: Read REGISTER_ADDRESS 1 dd s2 :: chunks
                     /\ read_register_status s1 s2 = SPI_GENERIC_ERROR
                     /\ ((forall n, sel n <> 1) -> s1 = SPI_GENERIC_ERROR)
                     /\ ((forall n, rd n <> 1) -> s2 = SPI_GENERIC_ERROR)
                     /\ forallb is_read chunks = true
                     /\ (r = 0 <-> forallb succeeded chunks = true)))).
Proof.
  intros Hal F. split; [|split].
  - pose proof (agree_read (sel := sel) (rd := rd) flash buf start len Hal
                  w (inject w) eq_refl) as A.
    destruct (realtek_mst_i2c_spi_read (T := T) flash buf start len w)
      as [[a w1]|],
      (realtek_mst_i2c_spi_read (T := fail_dummy sel rd T) flash buf start
         len (inject w)) as [[b w1']|]; try contradiction; cbn.
    + destruct A as [-> _]. reflexivity.
    + reflexivity.
  - intros fd value w'. now apply dummy_read_fails.
  - intros OK Hfd Hlen.
    destruct (@read_cases_run H OK (D * bool) (fail_dummy sel rd T) flash
                buf start len (inject w) Hal Hfd Hlen)
      as (r & buf' & w1 & setup & tail & E & L & S & C).
    assert (Ls : length setup = 7%nat).
    { rewrite <- (length_map sent), S. reflexivity. }
    destruct C as [(_ & -> & R & _)
                  |[(_ & Pol & _ & R & _)
                   |(Hs & polls & d1 & dd & d2 & chunks & -> & Pol & Sp & _
                     & Rd & _ & _ & Zr & _ & _ & w6 & w7 & E7 & L7)]].
    + exists r, buf', w1, setup, [], [].
      split; [exact E|]. split; [exact L|]. split; [exact Ls|].
      split; [reflexivity|]. left. split; [exact R|reflexivity].
    + exists r, buf', w1, setup, tail, [].
      split; [exact E|]. split; [now rewrite app_nil_r|].
      split; [exact Ls|]. split; [exact Pol|].
      left. split; [exact R|reflexivity].
    + exists r, buf', w1, setup, polls,
        (Write REGISTER_ADDRESS [MCU_DATA_PORT] d1
         :: Read REGISTER_ADDRESS 1 dd d2 :: chunks).
      split; [exact E|]. split; [exact L|]. split; [exact Ls|].
      split; [exact Pol|]. right.
      split; [now rewrite forallb_app, Hs, Sp|].
      exists d1, dd, d2, chunks. split; [reflexivity|].
      destruct (dummy_read_events (T := T) (sel := sel) (rd := rd)
                  (get_fd_from_context flash) 0 w6)
        as (s1 & s2 & data & w7' & E7' & L7' & F1 & F2).
      rewrite E7 in E7'. injection E7' as Est _ <-.
      rewrite L7 in L7'. apply app_inv_head in L7'.
      injection L7' as <- _ <-.
      split; [|split; [exact F1|split; [exact F2|split;
                                                  [exact Rd|exact Zr]]]].
      unfold read_register_status.
      destruct (Z.eqb_spec (Z.lor d1 d2) 0) as [e|_]; [|reflexivity].
      apply lor_zero in e as [e1 e2].
      destruct F as [F|F]; [rewrite <- (F1 F)|rewrite <- (F2 F)];
        congruence.
Qed.

Lemma read_discards_dummy_status_witness :
  Z.land 0 0xff = 0
  /\ ((forall n : Z, (fun _ : Z => -1) n <> 1)
      \/ (forall n : Z, (fun _ : Z => -1) n <> 1))
  /\ spi_h_ok flashrom_spi_h
  /\ 0 <= get_fd_from_context (H := flashrom_spi_h) (flash_with_fd 3)
  /\ 0 <= 5 <= 2 ^ 32 - PAGE_SIZE
  /\ outcome (realtek_mst_i2c_spi_read (H := flashrom_spi_h)
                (T := fail_dummy (fun _ => -1) (fun _ => -1)
                        (steady_bus 0x10))
                (flash_with_fd 3) (repeat 0 5) 0 5
                (inject (start_world tt)))
     = outcome (realtek_mst_i2c_spi_read (H := flashrom_spi_h)
                  (T := steady_bus 0x10) (flash_with_fd 3) (repeat 0 5) 0 5
                  (start_world tt))
  /\ (forall fd value (w' : world (unit * bool)),
        exists b w1,
          realtek_mst_i2c_spi_read_register (H := flashrom_spi_h)
            (T := fail_dummy (fun _ => -1) (fun _ => -1)
                    (steady_bus 0x10)) fd MCU_DATA_PORT value w'
          = Some ((-1, b), w1))
  /\ (exists r buf' w1 setup polls rest,
        realtek_mst_i2c_spi_read (H := flashrom_spi_h)
          (T := fail_dummy (fun _ => -1) (fun _ => -1) (steady_bus 0x10))
          (flash_with_fd 3) (repeat 0 5) 0 5 (inject (start_world tt))
        = Some ((r, buf'), w1)
        /\ log w1 = [] ++ setup ++ polls ++ rest
        /\ length setup = 7%nat
        /\ forallb polling polls = true
        /\ ((r <> 0 /\ rest = [])
            \/ (forallb succeeded (setup ++ polls) = true
                /\ exists s1 dd s2 chunks,
                     rest = Write REGISTER_ADDRESS [MCU_DATA_PORT] s1
                            :: Read REGISTER_ADDRESS 1 dd s2 :: chunks
                     /\ read_register_status (H := flashrom_spi_h) s1 s2
                        = -1
                     /\ ((forall n : Z, (fun _ : Z => -1) n <> 1) ->
                         s1 = -1)
                     /\ ((forall n : Z, (fun _ : Z => -1) n <> 1) ->
                         s2 = -1)
                     /\ forallb is_read chunks = true
                     /\ (r = 0 <-> forallb succeeded chunks = true))))
  /\ realtek_mst_i2c_spi_read (H := flashrom_spi_h)
       (T := fail_dummy (fun _ => -1) (fun _ => -1) (steady_bus 0x10))
       (flash_with_fd 3) (repeat 0 5) 0 5 (inject (start_world tt))
     = Some ((0, [0x10; 0x10; 0x10; 0x10; 0x10]),
             {| dev := (tt, false);
                log := [Write 0x4A [0x60; 0x46] 0;
                        Write 0x4A [0x61; 3] 0;
                        Write 0x4A [0x64; 0xFF] 0;
                        Write 0x4A [0x65; 0xFF] 0;
                        Write 0x4A [0x66; 0xFF] 0;
                        Write 0x4A [0x6a; 3] 0;
                        Write 0x4A [0x60; 0x47] 0;
                        Write 0x4A [0x60] 0;
                        Read 0x4A 1 [0x10] 0;
                        Write 0x4A [0x70] (-1);
                        Read 0x4A 1 [0x10] (-1);
                        Read 0x4A 5 [0x10; 0x10; 0x10; 0x10; 0x10] 0] |}).
Proof.
  split; [reflexivity|].
  split; [left; intros n; discriminate|].
  split; [exact flashrom_spi_h_ok|].
  split; [cbn; lia|]. split; [unfold PAGE_SIZE; lia|].
  destruct (read_discards_dummy_status flashrom_spi_h unit
              (steady_bus 0x10) (fun _ => -1) (fun _ => -1)
              (flash_with_fd 3) (repeat 0 5) 0 5 (start_world tt))
    as (A & B & C).
  - reflexivity.
  - left. intros n. discriminate.
  - split; [exact A|]. split; [exact B|]. split.
    + apply C; [exact flashrom_spi_h_ok|cbn; lia|unfold PAGE_SIZE; lia].
    + vm_compute. reflexivity.
Defined.

(** X10. An aligned bulk read of [len] bytes that returns 0 made, after
    its seven set-up writes, its polls and the dummy read of the data
    port, exactly [ceil (len / 256)] chunk reads and nothing else; each
    asked for between 1 and 256 bytes, together for [len] bytes (none for
    [len = 0]); the set-up, the polls and the chunk reads all succeeded (the
    dummy read need not have). If every chunk read stored as many bytes as
    it asked for, the buffer holds those bytes, in order, in its first
    [len] places and is unchanged after them. *)
Theorem read_success_chunks (H : spi_h) (OK : spi_h_ok H) (D : Type)
    (T : host D) (flash : option flashctx) (buf buf' : list Z)
    (start len : Z) (w w1 : world D) :
  Z.land start 0xff = 0 ->
  0 <= get_fd_from_context flash ->
  0 <= len <= 2 ^ 32 - PAGE_SIZE ->
  realtek_mst_i2c_spi_read flash buf start len w = Some ((0, buf'), w1) ->
  exists setup polls d1 dd d2 chunks,
    log w1 =
    log w ++ setup ++ polls
    ++ Write REGISTER_ADDRESS [MCU_DATA_PORT] d1
    :: Read REGISTER_ADDRESS 1 dd d2 :: chunks
    /\ length setup = 7%nat
    /\ forallb (fun e => negb (is_read e)) setup = true
    /\ forallb polling polls = true
    /\ forallb succeeded (setup ++ polls ++ chunks) = true
    /\ forallb is_read chunks = true
    /\ forallb (fun e => (1 <=? read_len e) && (read_len e <=? PAGE_SIZE))
         chunks = true
    /\ total_read chunks = len
    /\ Z.of_nat (length chunks) = (len + (PAGE_SIZE - 1)) / PAGE_SIZE
    /\ (forallb in_full chunks = true -> len <= Z.of_nat (length buf) ->
        buf' = concat (map delivered chunks) ++ skipn (Z.to_nat len) buf).
Proof.
  intros Hal Hfd Hlen Hrun.
  destruct (read_cases flash buf start len w Hal Hfd Hlen)
    as (r & b & w2 & setup & tail & E & L & S & C).
  rewrite Hrun in E. injection E as <- <- <-.
  destruct C as [(_ & _ & N & _)|[(_ & _ & _ & N & _)|(Hs & C)]];
    [now contradiction N | now contradiction N |].
  destruct C as (polls & d1 & dd & d2 & chunks & -> & Pol & Ps & _ & Rd & Ln
                 & _ & Sr & Tot & Bf).
  destruct (Tot eq_refl) as [Ts Tc].
  exists setup, polls, d1, dd, d2, chunks.
  split; [exact L|]. split; [|split; [|split; [exact Pol|split;
    [|split; [exact Rd|split; [exact Ln|split; [exact Ts|split;
      [exact Tc|now apply Bf]]]]]]]].
  - apply (f_equal (@length _)) in S. now rewrite length_map in S.
  - apply forallb_forall. intros e Hin. apply (in_map sent) in Hin.
    rewrite S in Hin. destruct e; [reflexivity|].
    cbn [sent In] in Hin. intuition discriminate.
  - rewrite !forallb_app, Hs, Ps. now apply Sr.
Qed.

Lemma read_success_chunks_witness :
  Z.land 0x200 0xff = 0
  /\ 0 <= get_fd_from_context (H := flashrom_spi_h) (flash_with_fd 3)
  /\ 0 <= 300 <= 2 ^ 32 - PAGE_SIZE
  /\ exists buf' w1,
       realtek_mst_i2c_spi_read (H := flashrom_spi_h)
         (T := steady_bus 0x10) (flash_with_fd 3) (repeat 0 301) 0x200 300
         (start_world tt) = Some ((0, buf'), w1)
       /\ exists setup polls d1 dd d2 chunks,
            log w1 =
            [] ++ setup ++ polls
            ++ Write REGISTER_ADDRESS [MCU_DATA_PORT] d1
            :: Read REGISTER_ADDRESS 1 dd d2 :: chunks
            /\ length setup = 7%nat
            /\ forallb (fun e => negb (is_read e)) setup = true
            /\ forallb polling polls = true
            /\ forallb succeeded (setup ++ polls ++ chunks) = true
            /\ forallb is_read chunks = true
            /\ forallb
                 (fun e => (1 <=? read_len e) && (read_len e <=? PAGE_SIZE))
                 chunks = true
            /\ total_read chunks = 300
            /\ Z.of_nat (length chunks) = (300 + (PAGE_SIZE - 1)) / PAGE_SIZE
            /\ (forallb in_full chunks = true ->
                300 <= Z.of_nat (length (repeat 0 301)) ->
                buf' = concat (map delivered chunks)
                       ++ skipn (Z.to_nat 300) (repeat 0 301)).
Proof.
  split; [reflexivity|]. split; [cbn; lia|].
  split; [unfold PAGE_SIZE; lia|].
  eexists _, _. split; [vm_compute; reflexivity|].
  apply (read_success_chunks flashrom_spi_h flashrom_spi_h_ok unit
           (steady_bus 0x10) (flash_with_fd 3) (repeat 0 301) _ 0x200 300
           (start_world tt) _).
  - reflexivity.
  - cbn. lia.
  - unfold PAGE_SIZE. lia.
  - vm_compute. reflexivity.
Defined.



Section WriteShape.

Context {H : spi_h} {OK : spi_h_ok H} {D : Type} {T : host D}.

Lemma writes_to_app reg (l1 l2 : list event) :
  writes_to reg (l1 ++ l2) = writes_to reg l1 ++ writes_to reg l2.
Proof. unfold writes_to. apply flat_map_app. Qed.

(** Register reads write no register, carry no payload and do not touch
    the page window. *)
Lemma polling_silent (evs : list event) :
  forallb polling evs = true ->
  (forall reg, writes_to reg evs = [])
  /\ concat (map payload evs) = []
  /\ filter window_or_data evs = [].
Proof.
  induction evs as [|e evs IH]; [auto|].
  cbn [forallb]. rewrite andb_true_iff. intros [Pe P].
  destruct (IH P) as (W & Pl & F).
  assert (He : (forall reg, writes_to reg [e] = [])
               /\ payload e = [] /\ window_or_data e = false).
  { destruct e as [a [|b [|c l]] s|a n data s]; cbn in *;
      try discriminate; repeat split; try reflexivity.
    destruct (b =? MCU_DATA_PORT); reflexivity. }
  destruct He as (We & Ple & Fe).
  repeat split.
  - intros reg. change (e :: evs) with ([e] ++ evs).
    now rewrite writes_to_app, We, W.
  - cbn [map concat]. now rewrite Ple, Pl.
  - cbn [filter]. now rewrite Fe.
Qed.

Lemma write_256_loop_done fuel fd buf start len i ret (w : world D) :
  len <= i ->
  write_256_loop fuel fd buf start len i ret w = Some (ret, w).
Proof.
  intros Hi. destruct fuel; cbn [write_256_loop];
    destruct (Z.ltb_spec i len); try lia; reflexivity.
Qed.

(** One turn of the chunk loop of the bulk write that ends well, with
    everything it sends. *)
Lemma write_256_loop_turn fuel fd buf start len i ret w w' :
  0 <= i < len -> len <= 2 ^ 32 - PAGE_SIZE ->
  len <= Z.of_nat (length buf) ->
  write_256_loop (S fuel) fd buf start len i ret w = Some (0, w') ->
  ret = 0
  /\ exists w1 pevs xevs,
       write_256_loop fuel fd buf start len (i + PAGE_SIZE) 0 w1
       = Some (0, w')
       /\ log w1 =
          log w
          ++ (if len - i <? PAGE_SIZE
              then [Write REGISTER_ADDRESS [0x71; len - i - 1] 0]
              else [])
          ++ firstn 3 (chunk_events buf start len i)
          ++ pevs
          ++ skipn 3 (chunk_events buf start len i)
          ++ Write REGISTER_ADDRESS [MCU_MODE; START_WRITE_XFER] 0 :: xevs
       /\ forallb polling pevs = true
       /\ forallb polling xevs = true.
Proof.
  intros Hi Hlen Hbuf Hrun. unfold PAGE_SIZE in Hlen.
  pose proof generic_error_nonzero as Hge.
  cbn [write_256_loop] in Hrun.
  destruct (Z.ltb_spec i len) as [_|]; [|lia]. cbn [negb] in Hrun.
  rewrite (unsigned_small (len - i)) in Hrun by lia.
  rewrite (unsigned_small (i + PAGE_SIZE)) in Hrun
    by (unfold PAGE_SIZE; lia).
  assert (Hmin : 1 <= min (len - i) PAGE_SIZE <= 256).
  { unfold min, PAGE_SIZE. destruct (Z.ltb_spec (len - i) 256); lia. }
  rewrite (uint16_t_small (min (len - i) PAGE_SIZE)) in Hrun by lia.
  assert (S0 : exists ret1 w1 evs0,
             (if len - i <? PAGE_SIZE
              then or_into ret
                     (realtek_mst_i2c_spi_write_register fd 0x71
                        (min (len - i) PAGE_SIZE - 1))
              else Return ret) w = Some (ret1, w1)
             /\ log w1 = log w ++ evs0
             /\ (ret1 = 0 ->
                 ret = 0
                 /\ evs0 = if len - i <? PAGE_SIZE
                           then [Write REGISTER_ADDRESS
                                   [0x71; len - i - 1] 0]
                           else [])).
  { destruct (Z.ltb_spec (len - i) PAGE_SIZE) as [Hs|Hs].
    - destruct (write_register_run fd 0x71 (min (len - i) PAGE_SIZE - 1) w)
        as (s & w1 & E & L & _).
      exists (Z.lor ret s), w1, [Write REGISTER_ADDRESS
                                   [0x71; len - i - 1] s].
      split; [now apply or_into_run|]. split.
      + rewrite L. unfold min. apply Z.ltb_lt in Hs as Hsb. rewrite Hsb.
        unfold PAGE_SIZE in Hs.
        rewrite (uint8_t_small (len - i - 1)) by lia. reflexivity.
      + intros Hz. apply lor_zero in Hz as [-> ->]. auto.
    - exists ret, w, []. split; [reflexivity|].
      split; [now rewrite app_nil_r|auto]. }
  destruct S0 as (ret1 & w1 & evs0 & E0 & L0 & Z0).
  rewrite (bind_run _ _ _ _ _ E0) in Hrun.
  destruct (map_page_run fd
              (uint8_t (Z.shiftr (unsigned (start + i)) 16))
              (uint8_t (Z.shiftr (unsigned (start + i)) 8)) 0 w1)
    as (m1 & m2 & m3 & w2 & E1 & L1).
  rewrite (bind_run _ _ _ _ _ (or_into_run _ _ _ _ _ E1)) in Hrun.
  match type of Hrun with
  | context [negb (?r =? 0)] => destruct (Z.eqb_spec r 0) as [R1|R1]
  end; cbn [negb] in Hrun;
    [|exfalso; injection Hrun as Hr _; now apply R1].
  rewrite R1 in Hrun. apply lor_zero in R1 as [R1 Rm].
  destruct (Z0 R1) as [Hret Hevs0].
  destruct (Z.eqb_spec (Z.lor (Z.lor (Z.lor 0 m1) m2) m3) 0) as [Rm'|Rm'];
    [|contradiction].
  apply lor_zero in Rm' as [Rm' ->]. apply lor_zero in Rm' as [Rm' ->].
  apply lor_zero in Rm' as [_ ->].
  destruct (wait_command_done_run fd MCU_MODE 0x10 0x10 1 w2)
    as (r & w3 & pevs & E2 & L2 & P2).
  rewrite (bind_run _ _ _ _ _ (or_into_run _ _ _ _ _ E2)) in Hrun.
  destruct (Z.eqb_spec (Z.lor 0 r) 0) as [R2|R2]; cbn [negb] in Hrun;
    [|exfalso; injection Hrun as Hr _; now apply R2].
  rewrite R2 in Hrun.
  destruct (write_page_run fd MCU_DATA_PORT (skipn (Z.to_nat i) buf)
              (min (len - i) PAGE_SIZE) w3 ltac:(unfold PAGE_SIZE in *; lia))
    as (sp & w4 & E3 & L3 & _).
  rewrite (bind_run _ _ _ _ _ (or_into_run _ _ _ _ _ E3)) in Hrun.
  destruct (Z.eqb_spec (Z.lor 0 sp) 0) as [R3|R3]; cbn [negb] in Hrun;
    [|exfalso; injection Hrun as Hr _; now apply R3].
  rewrite R3 in Hrun. apply lor_zero in R3 as [_ ->].
  destruct (write_register_run fd MCU_MODE START_WRITE_XFER w4)
    as (sx & w5 & E4 & L4 & _).
  destruct (wait_command_done_run fd MCU_MODE WRITE_XFER_STATUS_MASK 0 1 w5)
    as (rx & w6 & xevs & E5 & L5 & P5).
  unfold realtek_mst_i2c_execute_write in Hrun.
  rewrite (bind_run _ _ _ _ _
             (or_into_run _ _ _ _ _
                (eq_trans (bind_run _ _ _ _ _ E4)
                   (eq_trans (bind_run _ _ _ _ _
                                (or_into_run _ _ _ _ _ E5)) eq_refl))))
    in Hrun.
  destruct (Z.eqb_spec (Z.lor 0 (Z.lor sx rx)) 0) as [R4|R4];
    cbn [negb] in Hrun;
    [|exfalso; injection Hrun as Hr _; now apply R4].
  rewrite R4 in Hrun. apply lor_zero in R4 as [_ R4].
  apply lor_zero in R4 as [-> _].
  split; [exact Hret|].
  exists w6, pevs, xevs. split; [exact Hrun|]. split; [|auto].
  rewrite L5, L4, L3, L2, L1, L0, Hevs0, <- !app_assoc.
  unfold chunk_events, bytes_at. cbn [firstn skipn app].
  unfold uint8_t. rewrite !Z.mod_mod by lia. reflexivity.
Qed.

End WriteShape.

Section WriteAll.

Context {H : spi_h} {OK : spi_h_ok H} {D : Type} {T : host D}.

Lemma firstn_add_skipn (l : list Z) (a b : nat) :
  firstn (a + b) l = firstn a l ++ firstn b (skipn a l).
Proof.
  revert l. induction a as [|a IH]; intros l; [reflexivity|].
  destruct l as [|x l]; [now rewrite !firstn_nil|].
  cbn [Nat.add firstn skipn app]. now rewrite IH.
Qed.

(** What the events of one turn of the chunk loop amount to. *)
Lemma turn_projections buf start len i (pevs xevs : list event) :
  0 <= i < len -> len <= Z.of_nat (length buf) ->
  forallb polling pevs = true -> forallb polling xevs = true ->
  let evs :=
    (if len - i <? PAGE_SIZE
     then [Write REGISTER_ADDRESS [0x71; len - i - 1] 0] else [])
    ++ firstn 3 (chunk_events buf start len i)
    ++ pevs
    ++ skipn 3 (chunk_events buf start len i)
    ++ Write REGISTER_ADDRESS [MCU_MODE; START_WRITE_XFER] 0 :: xevs in
  filter window_or_data evs = chunk_events buf start len i
  /\ writes_to 0x71 evs
     = (if len - i <? PAGE_SIZE then [len - i - 1] else [])
  /\ writes_to 0x6D evs = []
  /\ concat (map payload evs) = bytes_at buf i (min (len - i) PAGE_SIZE).
Proof.
  intros Hi Hbuf Pp Px evs.
  destruct (polling_silent pevs Pp) as (Wp & Plp & Fp).
  destruct (polling_silent xevs Px) as (Wx & Plx & Fx).
  assert (Hchunk : exists b rest,
             bytes_at buf i (min (len - i) PAGE_SIZE) = b :: rest).
  { unfold bytes_at.
    assert (Hmin : 1 <= min (len - i) PAGE_SIZE).
    { unfold min, PAGE_SIZE. destruct (Z.ltb_spec (len - i) 256); lia. }
    destruct (skipn (Z.to_nat i) buf) as [|b l] eqn:Es.
    - apply (f_equal (@length Z)) in Es. rewrite length_skipn in Es.
      cbn in Es. lia.
    - replace (Z.to_nat (min (len - i) PAGE_SIZE))
        with (S (Z.to_nat (min (len - i) PAGE_SIZE - 1))) by lia.
      cbn [firstn]. eauto. }
  destruct Hchunk as (b & rest & Hchunk).
  unfold evs, chunk_events. rewrite Hchunk.
  cbn [firstn skipn].
  repeat split.
  - rewrite !filter_app, Fp. cbn [filter window_or_data app].
    rewrite Fx.
    destruct (len - i <? PAGE_SIZE); reflexivity.
  - rewrite !writes_to_app, Wp.
    change (Write REGISTER_ADDRESS [MCU_MODE; START_WRITE_XFER] 0 :: xevs)
      with ([Write REGISTER_ADDRESS [MCU_MODE; START_WRITE_XFER] 0] ++ xevs).
    rewrite !writes_to_app, Wx.
    destruct (len - i <? PAGE_SIZE); destruct rest as [|y [|z rest]];
      reflexivity.
  - rewrite !writes_to_app, Wp.
    change (Write REGISTER_ADDRESS [MCU_MODE; START_WRITE_XFER] 0 :: xevs)
      with ([Write REGISTER_ADDRESS [MCU_MODE; START_WRITE_XFER] 0] ++ xevs).
    rewrite !writes_to_app, Wx.
    destruct (len - i <? PAGE_SIZE); destruct rest as [|y [|z rest]];
      reflexivity.
  - rewrite !map_app, !concat_app, Plp. cbn [map concat payload app].
    rewrite Plx.
    change (MCU_DATA_PORT =? MCU_DATA_PORT) with true.
    destruct (len - i <? PAGE_SIZE); cbn; now rewrite ?app_nil_r.
Qed.

(** The whole chunk loop of a bulk write that ends well. *)
Lemma write_256_loop_all fd buf start len :
  len <= 2 ^ 32 - PAGE_SIZE ->
  len <= Z.of_nat (length buf) ->
  forall fuel i w w',
    0 <= i ->
    write_256_loop fuel fd buf start len i 0 w = Some (0, w') ->
    exists evs,
      log w' = log w ++ evs
      /\ filter window_or_data evs
         = flat_map (chunk_events buf start len)
             (map (fun k => i + PAGE_SIZE * Z.of_nat k)
                (seq 0 (Z.to_nat ((Z.max 0 (len - i) + (PAGE_SIZE - 1))
                                  / PAGE_SIZE))))
      /\ writes_to 0x71 evs
         = (if i <? len
            then if (len - i) mod PAGE_SIZE =? 0 then []
                 else [(len - i) mod PAGE_SIZE - 1]
            else [])
      /\ writes_to 0x6D evs = []
      /\ concat (map payload evs) = bytes_at buf i (Z.max 0 (len - i)).
Proof.
  intros Hlen Hbuf.
  assert (Done : forall fuel i (w w' : world D),
             len <= i ->
             write_256_loop fuel fd buf start len i 0 w = Some (0, w') ->
             exists evs,
               log w' = log w ++ evs
               /\ filter window_or_data evs
                  = flat_map (chunk_events buf start len)
                      (map (fun k => i + PAGE_SIZE * Z.of_nat k)
                         (seq 0 (Z.to_nat
                                   ((Z.max 0 (len - i) + (PAGE_SIZE - 1))
                                    / PAGE_SIZE))))
               /\ writes_to 0x71 evs
                  = (if i <? len
                     then if (len - i) mod PAGE_SIZE =? 0 then []
                          else [(len - i) mod PAGE_SIZE - 1]
                     else [])
               /\ writes_to 0x6D evs = []
               /\ concat (map payload evs)
                  = bytes_at buf i (Z.max 0 (len - i))).
  { intros fuel i w w' Hge Hrun.
    rewrite write_256_loop_done in Hrun by exact Hge.
    injection Hrun as <-. exists []. rewrite app_nil_r.
    rewrite Z.max_l by lia.
    destruct (Z.ltb_spec i len); [lia|].
    repeat split; reflexivity. }
  induction fuel as [|fuel IH]; intros i w w' Hi Hrun;
    (destruct (Z.lt_ge_cases i len) as [Hlt|Hge];
     [|exact (Done _ i w w' Hge Hrun)]).
  - cbn [write_256_loop] in Hrun.
    destruct (Z.ltb_spec i len); [discriminate Hrun|lia].
  - apply write_256_loop_turn in Hrun
      as (_ & w1 & pevs & xevs & Hrun & L & Pp & Px); [|lia|lia|lia].
    apply IH in Hrun as (evs & L2 & F2 & W2 & O2 & P2);
      [|unfold PAGE_SIZE; lia].
    destruct (turn_projections buf start len i pevs xevs ltac:(lia) Hbuf
                Pp Px) as (Ft & Wt & Ot & Pt).
    cbv zeta in Ft, Wt, Ot, Pt.
    eexists. split; [rewrite L2, L, <- app_assoc; reflexivity|].
    unfold PAGE_SIZE in *.
    split; [|split; [|split]].
    + rewrite filter_app, Ft, F2.
      replace (Z.to_nat ((Z.max 0 (len - i) + (256 - 1)) / 256))
        with (S (Z.to_nat ((Z.max 0 (len - (i + 256)) + (256 - 1)) / 256))).
      2:{ change (256 - 1) with 255. rewrite (Z.max_r 0 (len - i)) by lia.
          destruct (Z.max_spec 0 (len - (i + 256))) as [[? ->]|[? ->]];
            Z.to_euclidean_division_equations; lia. }
      cbn [seq map flat_map]. change (Z.of_nat 0) with 0.
      rewrite Z.mul_0_r, Z.add_0_r. f_equal.
      rewrite <- seq_shift, map_map. f_equal.
      apply map_ext. intros k. lia.
    + rewrite writes_to_app, Wt, W2.
      destruct (Z.ltb_spec i len); [|lia].
      destruct (Z.ltb_spec (len - i) 256) as [Hs|Hs].
      * destruct (Z.ltb_spec (i + 256) len); [lia|].
        rewrite Z.mod_small by lia.
        destruct (Z.eqb_spec (len - i) 0); [lia|]. reflexivity.
      * replace ((len - i) mod 256) with ((len - (i + 256)) mod 256).
        2:{ replace (len - i) with (len - (i + 256) + 1 * 256) by lia.
            now rewrite Z.mod_add by lia. }
        destruct (Z.ltb_spec (i + 256) len); [reflexivity|].
        assert (len - (i + 256) = 0) as -> by lia. reflexivity.
    + now rewrite writes_to_app, Ot, O2.
    + rewrite map_app, concat_app, Pt, P2. unfold bytes_at, min.
      rewrite (Z.max_r 0 (len - i)) by lia.
      destruct (Z.ltb_spec (len - i) 256) as [Hs|Hs].
      * rewrite Z.max_l by lia. cbn [Z.to_nat firstn].
        now rewrite app_nil_r.
      * rewrite Z.max_r by lia.
        replace (Z.to_nat (len - i))
          with (Z.to_nat 256 + Z.to_nat (len - (i + 256)))%nat by lia.
        rewrite firstn_add_skipn, skipn_skipn. do 3 f_equal. lia.
Qed.

End WriteAll.

Section WriteSuccess.

Context {H : spi_h} {OK : spi_h_ok H} {D : Type} {T : host D}.

Lemma write_256_loop_ret fuel fd buf start len i ret (w w' : world D) :
  0 <= i -> len <= 2 ^ 32 - PAGE_SIZE -> len <= Z.of_nat (length buf) ->
  write_256_loop fuel fd buf start len i ret w = Some (0, w') -> ret = 0.
Proof.
  intros Hi Hlen Hbuf Hrun.
  destruct (Z.lt_ge_cases i len) as [Hlt|Hge].
  - destruct fuel as [|fuel].
    + cbn [write_256_loop] in Hrun.
      destruct (Z.ltb_spec i len); [discriminate Hrun|lia].
    + now apply write_256_loop_turn in Hrun as (-> & _); [|lia|lia|lia].
  - rewrite write_256_loop_done in Hrun by exact Hge. congruence.
Qed.

(** Everything an aligned bulk write that returns 0 sends. *)
Lemma write_256_success_shape flash buf start len w w1 :
  Z.land start 0xff = 0 ->
  0 <= len <= 2 ^ 32 - PAGE_SIZE ->
  len <= Z.of_nat (length buf) ->
  realtek_mst_i2c_spi_write_256 flash buf start len w = Some (0, w1) ->
  exists evs,
    log w1 = log w ++ evs
    /\ filter window_or_data evs
       = flat_map (chunk_events buf start len) (chunk_offsets len)
    /\ writes_to 0x71 evs
       = 255 :: (if len mod PAGE_SIZE =? 0 then []
                 else [len mod PAGE_SIZE - 1])
    /\ writes_to 0x6D evs = [OPCODE_WRITE]
    /\ concat (map payload evs) = firstn (Z.to_nat len) buf.
Proof.
  intros Hal Hlen Hbuf Hrun.
  pose proof generic_error_nonzero as Hge.
  unfold realtek_mst_i2c_spi_write_256 in Hrun.
  rewrite Hal in Hrun. cbn [Z.eqb negb] in Hrun.
  destruct (get_fd_from_context flash <? 0);
    [exfalso; injection Hrun as Hr _; now apply Hge|].
  set (fd := get_fd_from_context flash) in *.
  destruct (disable_protection_run fd w)
    as (s1 & s2 & s3 & r1 & r1' & d1 & s4 & s5 & s6 & s7 & r2 & r2' & d2
        & s8 & w2 & E0 & L0).
  cbv zeta in E0, L0.
  rewrite (bind_run _ _ _ _ _ E0) in Hrun.
  match type of Hrun with
  | context [negb (?r =? 0)] => destruct (Z.eqb_spec r 0) as [R0|R0]
  end; cbn [negb] in Hrun;
    [|exfalso; injection Hrun as Hr _; now apply R0].
  rewrite R0 in Hrun.
  destruct (write_register_run fd 0x6D 0x02 w2) as (a1 & w3 & E1 & L1 & _).
  rewrite (bind_run _ _ _ _ _ (or_into_run _ _ _ _ _ E1)) in Hrun.
  destruct (write_register_run fd 0x71 (PAGE_SIZE - 1) w3)
    as (a2 & w4 & E2 & L2 & _).
  rewrite (bind_run _ _ _ _ _ (or_into_run _ _ _ _ _ E2)) in Hrun.
  assert (Hret := Hrun).
  apply write_256_loop_ret in Hret; [|lia|lia|exact Hbuf].
  rewrite Hret in Hrun.
  apply write_256_loop_all in Hrun as (evs & L3 & F3 & W3 & O3 & P3);
    [|lia|lia|lia].
  rewrite Z.sub_0_r, Z.max_r in F3, P3 by lia.
  rewrite Z.sub_0_r in W3.
  eexists. split; [rewrite L3, L2, L1, L0, <- !app_assoc; reflexivity|].
  split; [|split; [|split]].
  - rewrite !filter_app, F3.
    repeat match goal with
           | |- context [filter window_or_data (?e :: ?l)] =>
               change (filter window_or_data (e :: l)) with (@nil event)
           end.
    cbn [app]. unfold chunk_offsets. reflexivity.
  - rewrite !writes_to_app, W3. cbn.
    destruct (Z.ltb_spec 0 len) as [|Hz]; [reflexivity|].
    assert (len = 0) as -> by lia. reflexivity.
  - rewrite !writes_to_app, O3. reflexivity.
  - rewrite !map_app, !concat_app, P3. cbn. reflexivity.
Qed.

End WriteSuccess.

(** X12. An aligned bulk write of [len] bytes that returns 0 sent the
    first [len] bytes of the buffer to the data port, each once and in
    order (and no payload at all for [len = 0]). *)
Theorem write_256_sends_buffer (H : spi_h) (OK : spi_h_ok H) (D : Type)
    (T : host D) (flash : option flashctx) (buf : list Z) (start len : Z)
    (w w1 : world D) :
  Z.land start 0xff = 0 ->
  0 <= len <= 2 ^ 32 - PAGE_SIZE ->
  len <= Z.of_nat (length buf) ->
  realtek_mst_i2c_spi_write_256 flash buf start len w = Some (0, w1) ->
  exists evs,
    log w1 = log w ++ evs
    /\ concat (map payload evs) = firstn (Z.to_nat len) buf
    /\ forallb (fun e => length (payload e) <=? 256)%nat evs = true.
Proof.
  intros Hal Hlen Hbuf Hrun.
  destruct (write_256_success_shape flash buf start len w w1 Hal Hlen Hbuf
              Hrun) as (evs & L & F & _ & _ & P).
  exists evs. split; [exact L|]. split; [exact P|].
  apply forallb_forall. intros e He. apply Nat.leb_le.
  destruct e as [a [|b [|c data]] s|]; cbn [payload length];
    try lia; try (destruct (b =? MCU_DATA_PORT); cbn [length]; lia).
  destruct (Z.eqb_spec b MCU_DATA_PORT) as [->|]; [|cbn; lia].
  assert (Hin : In (Write a (MCU_DATA_PORT :: c :: data) s)
                  (filter window_or_data evs)).
  { apply filter_In. split; [exact He|reflexivity]. }
  rewrite F in Hin. apply in_flat_map in Hin as (off & _ & Hin).
  unfold chunk_events in Hin. cbn [In] in Hin.
  destruct Hin as [X|[X|[X|[X|[]]]]]; try discriminate X.
  injection X as _ X _. unfold bytes_at in X.
  apply (f_equal (@length _)) in X. rewrite length_firstn in X.
  cbn [length] in *.
  assert (min (len - off) PAGE_SIZE <= 256)
    by (unfold min, PAGE_SIZE; destruct (Z.ltb_spec (len - off) 256); lia).
  lia.
Qed.

Lemma write_256_sends_buffer_witness :
  Z.land 0x100 0xff = 0
  /\ 0 <= 300 <= 2 ^ 32 - PAGE_SIZE
  /\ 300 <= Z.of_nat (length (map Z.of_nat (seq 0 300)))
  /\ exists w1,
       realtek_mst_i2c_spi_write_256 (H := flashrom_spi_h)
         (T := steady_bus 0x10) (flash_with_fd 3) (map Z.of_nat (seq 0 300))
         0x100 300 (start_world tt) = Some (0, w1)
       /\ exists evs,
            log w1 = [] ++ evs
            /\ concat (map payload evs)
               = firstn (Z.to_nat 300) (map Z.of_nat (seq 0 300))
            /\ forallb (fun e => length (payload e) <=? 256)%nat evs = true.
Proof.
  split; [reflexivity|]. split; [unfold PAGE_SIZE; lia|].
  split; [cbn; lia|].
  eexists. split; [vm_compute; reflexivity|].
  apply (write_256_sends_buffer flashrom_spi_h flashrom_spi_h_ok unit
           (steady_bus 0x10) (flash_with_fd 3) (map Z.of_nat (seq 0 300))
           0x100 300 (start_world tt)).
  - reflexivity.
  - unfold PAGE_SIZE. lia.
  - cbn. lia.
  - vm_compute. reflexivity.
Defined.

(** X13. An aligned bulk write that returns 0 wrote the write opcode 2 to
    register [0x6D] once, and programmed the page-size register [0x71]
    with 255 at the start and, only when [len] is not a multiple of 256,
    once more with [len mod 256 - 1] for the last, short chunk. *)
Theorem write_256_page_size (H : spi_h) (OK : spi_h_ok H) (D : Type)
    (T : host D) (flash : option flashctx) (buf : list Z) (start len : Z)
    (w w1 : world D) :
  Z.land start 0xff = 0 ->
  0 <= len <= 2 ^ 32 - PAGE_SIZE ->
  len <= Z.of_nat (length buf) ->
  realtek_mst_i2c_spi_write_256 flash buf start len w = Some (0, w1) ->
  exists evs,
    log w1 = log w ++ evs
    /\ writes_to 0x6D evs = [OPCODE_WRITE]
    /\ writes_to 0x71 evs
       = 255 :: (if len mod PAGE_SIZE =? 0 then []
                 else [len mod PAGE_SIZE - 1]).
Proof.
  intros Hal Hlen Hbuf Hrun.
  destruct (write_256_success_shape flash buf start len w w1 Hal Hlen Hbuf
              Hrun) as (evs & L & _ & W & O & _).
  exists evs. auto.
Qed.

Lemma write_256_page_size_witness :
  Z.land 0x100 0xff = 0
  /\ 0 <= 512 <= 2 ^ 32 - PAGE_SIZE
  /\ 512 <= Z.of_nat (length (map Z.of_nat (seq 0 512)))
  /\ exists w1,
       realtek_mst_i2c_spi_write_256 (H := flashrom_spi_h)
         (T := steady_bus 0x10) (flash_with_fd 3) (map Z.of_nat (seq 0 512))
         0x100 512 (start_world tt) = Some (0, w1)
       /\ exists evs,
            log w1 = [] ++ evs
            /\ writes_to 0x6D evs = [OPCODE_WRITE]
            /\ writes_to 0x71 evs = [255].
Proof.
  split; [reflexivity|]. split; [unfold PAGE_SIZE; lia|].
  split; [cbn; lia|].
  eexists. split; [vm_compute; reflexivity|].
  apply (write_256_page_size flashrom_spi_h flashrom_spi_h_ok unit
           (steady_bus 0x10) (flash_with_fd 3) (map Z.of_nat (seq 0 512))
           0x100 512 (start_world tt)).
  - reflexivity.
  - unfold PAGE_SIZE. lia.
  - cbn. lia.
  - vm_compute. reflexivity.
Defined.

(** X14. An aligned bulk write that returns 0 handled the chunks at
    offsets 0, 256, 512, ... below [len], one after the other. For the
    chunk at offset [off] it wrote the page window, block index bits 16-23
    and page index bits 8-15 of [(start + off) mod 2^32] and byte index 0,
    and then the chunk's bytes to the data port; between the window writes
    of one chunk and its data no other chunk's window or data is sent. *)
Theorem write_256_windows (H : spi_h) (OK : spi_h_ok H) (D : Type)
    (T : host D) (flash : option flashctx) (buf : list Z) (start len : Z)
    (w w1 : world D) :
  Z.land start 0xff = 0 ->
  0 <= len <= 2 ^ 32 - PAGE_SIZE ->
  len <= Z.of_nat (length buf) ->
  realtek_mst_i2c_spi_write_256 flash buf start len w = Some (0, w1) ->
  exists evs,
    log w1 = log w ++ evs
    /\ filter window_or_data evs
       = flat_map (chunk_events buf start len) (chunk_offsets len).
Proof.
  intros Hal Hlen Hbuf Hrun.
  destruct (write_256_success_shape flash buf start len w w1 Hal Hlen Hbuf
              Hrun) as (evs & L & F & _).
  exists evs. auto.
Qed.

Lemma write_256_windows_witness :
  Z.land 0x12300 0xff = 0
  /\ 0 <= 300 <= 2 ^ 32 - PAGE_SIZE
  /\ 300 <= Z.of_nat (length (map Z.of_nat (seq 0 300)))
  /\ exists w1,
       realtek_mst_i2c_spi_write_256 (H := flashrom_spi_h)
         (T := steady_bus 0x10) (flash_with_fd 3) (map Z.of_nat (seq 0 300))
         0x12300 300 (start_world tt) = Some (0, w1)
       /\ exists evs,
            log w1 = [] ++ evs
            /\ filter window_or_data evs
               = flat_map
                   (chunk_events (map Z.of_nat (seq 0 300)) 0x12300 300)
                   (chunk_offsets 300).
Proof.
  split; [reflexivity|]. split; [unfold PAGE_SIZE; lia|].
  split; [cbn; lia|].
  eexists. split; [vm_compute; reflexivity|].
  apply (write_256_windows flashrom_spi_h flashrom_spi_h_ok unit
           (steady_bus 0x10) (flash_with_fd 3) (map Z.of_nat (seq 0 300))
           0x12300 300 (start_world tt)).
  - reflexivity.
  - unfold PAGE_SIZE. lia.
  - cbn. lia.
  - vm_compute. reflexivity.
Defined.



(** X16. [get_params] returns 0 only with a bus number from 0 to 255: the
    ["bus"] parameter is present and not empty, [strtol] consumed all of
    it without setting [errno], and the number is its value as an [int].
    In every other case it returns [SPI_GENERIC_ERROR] and leaves
    [*i2c_bus] as it was. *)
Theorem get_params_validates (H : spi_h) (D : Type) (P : programmer_h D)
    (i2c_bus r bus : Z) :
  get_params i2c_bus = (r, bus) ->
  (r = 0 /\ 0 <= bus <= 255
   /\ exists s value,
        extract_programmer_param "bus"%string = Some s
        /\ strtol s = (value, String.EmptyString, 0)
        /\ s <> String.EmptyString
        /\ bus = int_of_long value)
  \/ (r = SPI_GENERIC_ERROR /\ bus = i2c_bus).
Proof.
  unfold get_params.
  destruct (extract_programmer_param "bus"%string) as [s|];
    [|intros [= <- <-]; now right].
  destruct (strtol s) as [[value suffix] errno] eqn:Es.
  destruct (negb (errno =? 0) || String.eqb s suffix) eqn:C1;
    [intros [= <- <-]; now right|].
  destruct ((int_of_long value <? 0) || (int_of_long value >? 255)) eqn:C2;
    [intros [= <- <-]; now right|].
  destruct (0 <? Z.of_nat (String.length suffix)) eqn:C3;
    [intros [= <- <-]; now right|].
  intros [= <- <-]. left.
  apply orb_false_iff in C1 as [C1 C1'], C2 as [C2 C2'].
  apply negb_false_iff, Z.eqb_eq in C1. subst errno.
  apply String.eqb_neq in C1'.
  apply Z.ltb_ge in C2, C3.
  destruct (Z.gtb_spec (int_of_long value) 255); [discriminate C2'|].
  destruct suffix as [|c suffix]; [|cbn [String.length] in C3; lia].
  split; [reflexivity|]. split; [lia|].
  exists s, value. auto.
Qed.

Lemma get_params_validates_witness :
  get_params (H := flashrom_spi_h) (P := plain_programmer (D := unit)) 0
  = (0, 7)
  /\ ((0 = 0 /\ 0 <= 7 <= 255
       /\ exists s value,
            extract_programmer_param (programmer_h := plain_programmer
                                        (D := unit)) "bus"%string = Some s
            /\ strtol (programmer_h := plain_programmer (D := unit)) s
               = (value, String.EmptyString, 0)
            /\ s <> String.EmptyString
            /\ 7 = int_of_long value)
      \/ (0 = -1 /\ 7 = 0)).
Proof.
  split; [reflexivity|].
  apply (get_params_validates flashrom_spi_h unit plain_programmer 0 0 7).
  reflexivity.
Defined.

Section LifecycleFacts.

Context {H : spi_h} {OK : spi_h_ok H} {D : Type} {T : host D}
        {P : programmer_h D}.

Lemma reset_events_status (s1 s2 s3 : Z) (data : list Z) :
  Z.lor (Z.lor 0 (read_register_status s1 s2)) s3 = 0
  <-> forallb succeeded (reset_events s1 s2 s3 data) = true.
Proof.
  cbn [reset_events forallb]. unfold succeeded. cbn [status_of].
  rewrite !andb_true_iff, !Z.eqb_eq, Z.lor_0_l, lor_zero. split.
  - intros [E ->]. apply read_register_status_zero in E. intuition auto.
  - intros (-> & -> & -> & _). split; reflexivity.
Qed.

Lemma isp_events_status (t1 t2 t3 t4 t5 : Z) :
  fold_left Z.lor [t2; t3; t4; t5] t1 = 0
  <-> forallb succeeded (isp_events t1 t2 t3 t4 t5) = true.
Proof.
  cbn [isp_events fold_left forallb]. unfold succeeded. cbn [status_of].
  rewrite !lor_zero, !andb_true_iff, !Z.eqb_eq. intuition auto.
Qed.

(** The paths through [realtek_mst_i2c_spi_init]. *)
Lemma init_run (w : world D) :
  exists r bus,
    get_params 0 = (r, bus)
    /\ ((r <> 0 /\ realtek_mst_i2c_spi_init w = Some (SPI_GENERIC_ERROR, w))
        \/ (r = 0 /\ exists fd d,
              i2c_open bus REGISTER_ADDRESS 0 (dev w) = (fd, d)
              /\ ((fd < 0
                   /\ realtek_mst_i2c_spi_init w
                      = Some (fd, {| dev := d; log := log w |}))
                  \/ (0 <= fd /\ exists s1 s2 s3 data w1,
                        log w1 = log w ++ reset_events s1 s2 s3 data
                        /\ ((forallb succeeded (reset_events s1 s2 s3 data)
                             = false
                             /\ exists rs, rs <> 0
                                /\ realtek_mst_i2c_spi_init w = Some (rs, w1))
                            \/ (forallb succeeded
                                  (reset_events s1 s2 s3 data) = true
                                /\ exists t1 t2 t3 t4 t5 w2,
                                  log w2
                                  = log w1 ++ isp_events t1 t2 t3 t4 t5
                                  /\ ((forallb succeeded
                                         (isp_events t1 t2 t3 t4 t5) = false
                                       /\ exists ri, ri <> 0
                                          /\ realtek_mst_i2c_spi_init w
                                             = Some (ri, w2))
                                      \/ (forallb succeeded
                                            (isp_events t1 t2 t3 t4 t5)
                                          = true
                                          /\ realtek_mst_i2c_spi_init w
                                             = Some
                                                 ((if calloc then
                                                     Z.lor
                                                       (register_shutdown
                                                          {| fd := fd |})
                                                       (register_spi_master
                                                          {| fd := fd |})
                                                   else SPI_GENERIC_ERROR),
                                                  w2))))))))).
Proof.
  unfold realtek_mst_i2c_spi_init.
  destruct (get_params 0) as [r bus] eqn:G. exists r, bus.
  split; [reflexivity|].
  destruct (Z.eqb_spec r 0) as [->|Nr]; cbn [negb];
    [right; split; [reflexivity|]|left; split; [exact Nr|reflexivity]].
  destruct (i2c_open bus REGISTER_ADDRESS 0 (dev w)) as [fd d] eqn:O.
  exists fd, d. split; [reflexivity|].
  destruct (Z.ltb_spec fd 0) as [Lt|Ge]; [left; split; [exact Lt|reflexivity]|].
  right. split; [exact Ge|].
  destruct (reset_mpu_run fd {| dev := d; log := log w |})
    as (s1 & s2 & data & s3 & w1 & E1 & L1).
  exists s1, s2, s3, data, w1. split; [exact L1|].
  rewrite (bind_run _ _ _ _ _ (or_into_run _ _ _ _ _ E1)).
  rewrite (Z.lor_0_l (Z.lor _ s3)).
  destruct (Z.eqb_spec (Z.lor (Z.lor 0 (read_register_status s1 s2)) s3) 0)
    as [e1|n1]; cbn [negb].
  - right. split; [now apply reset_events_status|].
    destruct (enter_isp_mode_run fd w1)
      as (t1 & t2 & t3 & t4 & t5 & w2 & E2 & L2).
    exists t1, t2, t3, t4, t5, w2. split; [exact L2|].
    rewrite (bind_run _ _ _ _ _ (or_into_run _ _ _ _ _ E2)).
    rewrite e1, (Z.lor_0_l (fold_left _ _ _)).
    destruct (Z.eqb_spec (fold_left Z.lor [t2; t3; t4; t5] t1) 0)
      as [e2|n2]; cbn [negb].
    + right. split; [now apply isp_events_status|].
      destruct calloc; cbn [negb]; [|reflexivity].
      rewrite e2, Z.lor_0_l. reflexivity.
    + left. split.
      * apply not_true_is_false. intros F. now apply isp_events_status in F.
      * exists (fold_left Z.lor [t2; t3; t4; t5] t1). split;
          [exact n2|reflexivity].
  - left. split.
    + apply not_true_is_false. intros F.
      now apply (reset_events_status s1 s2 s3 data) in F.
    + exists (Z.lor (Z.lor 0 (read_register_status s1 s2)) s3).
      split; [exact n1|reflexivity].
Qed.

End LifecycleFacts.

(** X17. A start-up that returns 0 found a valid ["bus"] parameter, opened
    the device on that bus at the register address with a non-negative
    descriptor, got memory from [calloc] and 0 from both registrations, and
    made exactly eight transfers, all successful: the three of [reset_mpu],
    then the five writes of [enter_isp_mode]. *)
Theorem init_success_steps (H : spi_h) (OK : spi_h_ok H) (D : Type)
    (T : host D) (P : programmer_h D) (w w1 : world D) :
  realtek_mst_i2c_spi_init w = Some (0, w1) ->
  exists bus fd d data,
    get_params 0 = (0, bus)
    /\ i2c_open bus REGISTER_ADDRESS 0 (dev w) = (fd, d)
    /\ 0 <= fd
    /\ calloc = true
    /\ register_shutdown {| fd := fd |} = 0
    /\ register_spi_master {| fd := fd |} = 0
    /\ log w1 = log w ++ reset_events 0 0 0 data ++ isp_events 0 0 0 0 0.
Proof.
  intros Hrun. pose proof generic_error_nonzero as Hge.
  destruct (init_run w) as (r & bus & G & [[_ E]|[-> (fd & d & O & C)]]).
  { rewrite Hrun in E. injection E as E _. now symmetry in E. }
  destruct C as [[Lt E]|(Ge & s1 & s2 & s3 & data & w2 & L1 & C)].
  { rewrite Hrun in E. injection E as E _. lia. }
  destruct C as [(_ & rs & Nrs & E)
                |(S1 & t1 & t2 & t3 & t4 & t5 & w3 & L2 & C)].
  { rewrite Hrun in E. injection E as E _. now symmetry in E. }
  destruct C as [(_ & ri & Nri & E)|(S2 & E)].
  { rewrite Hrun in E. injection E as E _. now symmetry in E. }
  rewrite Hrun in E. injection E as E <-.
  destruct calloc; [|now symmetry in E].
  symmetry in E. apply lor_zero in E as [E1 E2].
  cbn [reset_events forallb] in S1. cbn [isp_events forallb] in S2.
  unfold succeeded in S1, S2. cbn [status_of] in S1, S2.
  rewrite !andb_true_iff, !Z.eqb_eq in S1.
  rewrite !andb_true_iff, !Z.eqb_eq in S2.
  destruct S1 as (-> & -> & -> & _).
  destruct S2 as (-> & -> & -> & -> & -> & _).
  exists bus, fd, d, data.
  rewrite L2, L1, <- app_assoc. auto 10.
Qed.

Lemma init_success_steps_witness :
  realtek_mst_i2c_spi_init (H := flashrom_spi_h) (T := steady_bus 0x10)
    (P := plain_programmer) (start_world tt)
  = Some (0, {| dev := tt;
                log := reset_events 0 0 0 [0x10]
                       ++ isp_events 0 0 0 0 0 |})
  /\ exists bus fd d data,
       get_params (H := flashrom_spi_h) (P := plain_programmer (D := unit))
         0 = (0, bus)
       /\ i2c_open (programmer_h := plain_programmer) bus REGISTER_ADDRESS 0
            (dev (start_world tt)) = (fd, d)
       /\ 0 <= fd
       /\ calloc (programmer_h := plain_programmer (D := unit)) = true
       /\ register_shutdown (programmer_h := plain_programmer (D := unit))
            {| fd := fd |} = 0
       /\ register_spi_master (programmer_h := plain_programmer (D := unit))
            {| fd := fd |} = 0
       /\ log {| dev := tt;
                 log := reset_events 0 0 0 [0x10]
                        ++ isp_events 0 0 0 0 0 |}
          = log (start_world tt) ++ reset_events 0 0 0 data
            ++ isp_events 0 0 0 0 0.
Proof.
  split; [vm_compute; reflexivity|].
  apply (init_success_steps flashrom_spi_h flashrom_spi_h_ok unit
           (steady_bus 0x10) plain_programmer (start_world tt)).
  vm_compute. reflexivity.
Defined.



(** X19. The shutdown hook makes the three transfers of [reset_mpu] and
    then closes the descriptor, also when the reset failed; the status it
    returns is that of the reset, 0 exactly when the three transfers
    succeeded. *)
Theorem shutdown_resets_then_closes (H : spi_h) (OK : spi_h_ok H)
    (D : Type) (T : host D) (P : programmer_h D)
    (data : realtek_mst_i2c_spi_data) (w : world D) :
  exists r w0 s1 s2 s3 dd,
    realtek_mst_i2c_spi_reset_mpu (fd data) w = Some (r, w0)
    /\ realtek_mst_i2c_spi_shutdown data w
       = Some (r, {| dev := i2c_close (fd data) (dev w0); log := log w0 |})
    /\ log w0 = log w ++ reset_events s1 s2 s3 dd
    /\ (r = 0 <-> forallb succeeded (reset_events s1 s2 s3 dd) = true).
Proof.
  destruct (reset_mpu_run (fd data) w)
    as (s1 & s2 & dd & s3 & w0 & E & L).
  eexists _, w0, s1, s2, s3, dd. split; [exact E|].
  split; [|split; [exact L|apply reset_events_status]].
  unfold realtek_mst_i2c_spi_shutdown.
  rewrite (bind_run _ _ _ _ _ (or_into_run _ _ _ _ _ E)).
  rewrite (Z.lor_0_l (Z.lor _ s3)). reflexivity.
Qed.

Lemma shutdown_resets_then_closes_witness :
  exists r w0 s1 s2 s3 dd,
    realtek_mst_i2c_spi_reset_mpu (H := flashrom_spi_h)
      (T := first_write_fails) 3 (start_world O) = Some (r, w0)
    /\ realtek_mst_i2c_spi_shutdown (H := flashrom_spi_h)
         (T := first_write_fails) (P := plain_programmer) {| fd := 3 |}
         (start_world O)
       = Some (r, {| dev := i2c_close (programmer_h := plain_programmer) 3
                              (dev w0);
                     log := log w0 |})
    /\ log w0 = log (start_world O) ++ reset_events s1 s2 s3 dd
    /\ (r = 0 <->
        forallb succeeded (reset_events s1 s2 s3 dd) = true).
Proof.
  exact (shutdown_resets_then_closes flashrom_spi_h flashrom_spi_h_ok nat
           first_write_fails plain_programmer {| fd := 3 |}
           (start_world O)).
Defined.
